(** * U-LANC 2.0 backend: a shallow embedding of the compression engine,
      the worker tasks and the download endpoint, with the properties of
      the specification settled against it.

    Sources embedded: [backend/app/models.py], [backend/app/compression_engine.py],
    [backend/app/tasks.py] and [backend/app/main.py].

    Conventions.
    - Python [int] is [Z].  A finite Python [float] is given by its exact
      rational value in [Q].  The float arithmetic that decides an encoder
      argument or an exception ([quality * 0.5], [51 - ...],
      [int(bitrate * 1000)]) is IEEE 754 double arithmetic, module
      [pyfloat]: results are rounded to the nearest double, ties to even,
      and overflow to infinity; the conversion of an [int] beyond the
      double range raises [OverflowError].  The compression ratio
      [(1 - c / o) * 100] is kept as the exact rational.
    - A Python [str] is a [string] of code points below 256.  A path is a
      file name the operating system accepts, and names a regular file or
      nothing: [files] maps the paths of the regular files to their
      content.
    - Code that can raise runs in the monad [Py]: a state monad over the
      [World] (file system, the two job tables, the broker queue, the
      encoder invocations) with an exception outcome.  Side effects made
      before an exception is raised stay, as in Python.
    - Everything the code obtains from PIL, OpenCV, torch, librosa, ffmpeg
      and the operating system is a field of [Env]; the theorems quantify
      over every [Env]. *)

From Stdlib Require Import QArith Ascii String.
From stdpp Require Import gmap strings list fin_maps pretty.

Local Open Scope string_scope.
Local Open Scope Z_scope.

(** ** Python strings and [pathlib] *)

Module pystr.

(** [s.startswith(p)] *)
Definition startswith (s p : string) : bool := String.prefix p s.

(** [s.replace(old, new)] for a non-empty [old]: the occurrences are
    replaced from left to right, without overlap.  [skip] counts the
    characters of a matched occurrence that are still to be dropped. *)
Fixpoint replace_from (old new s : string) (skip : nat) : string :=
  match s with
  | EmptyString => EmptyString
  | String c s' =>
      match skip with
      | S k => replace_from old new s' k
      | O =>
          if String.prefix old s
          then new ++ replace_from old new s' (Nat.pred (String.length old))
          else String c (replace_from old new s' O)
      end
  end.

Definition replace (s old new : string) : string := replace_from old new s O.

(** [s.split(sep)] for a one-character separator. *)
Fixpoint split (sep : Ascii.ascii) (s : string) : list string :=
  match s with
  | EmptyString => [EmptyString]
  | String c s' =>
      match split sep s' with
      | [] => [String c EmptyString]
      | hd :: tl =>
          if Ascii.eqb c sep then EmptyString :: hd :: tl
          else String c hd :: tl
      end
  end.

(** [sep.join(parts)] *)
Fixpoint join (sep : string) (parts : list string) : string :=
  match parts with
  | [] => EmptyString
  | [p] => p
  | p :: rest => p ++ sep ++ join sep rest
  end.

(** [s.rfind(c)] for a character: the index of the last occurrence. *)
Fixpoint rfind (c : Ascii.ascii) (s : string) : option nat :=
  match s with
  | EmptyString => None
  | String d s' =>
      match rfind c s' with
      | Some i => Some (S i)
      | None => if Ascii.eqb d c then Some O else None
      end
  end.

(** [c in s] for a character *)
Definition contains (c : Ascii.ascii) (s : string) : bool :=
  existsb (Ascii.eqb c) (list_ascii_of_string s).

(** [c.isprintable()] for a code point below 256: the printable ASCII
    characters and the Latin-1 characters from U+00A1 on, without the soft
    hyphen U+00AD. *)
Definition isprintable (c : Ascii.ascii) : bool :=
  let n := Ascii.N_of_ascii c in
  ((32 <=? n) && (n <? 127) || (161 <=? n) && negb (n =? 173))%N.

(** The lower-case hexadecimal digit of a number below 16. *)
Definition hex_digit (n : N) : Ascii.ascii :=
  Ascii.ascii_of_N (if (n <? 10)%N then 48 + n else 87 + n)%N.

(** One character of [repr(s)] between the quotes [quote]. *)
Definition repr_char (quote c : Ascii.ascii) : string :=
  if Ascii.eqb c quote || Ascii.eqb c "\"%char then String "\"%char (String c "")
  else if Ascii.eqb c "009"%char then "\t"
  else if Ascii.eqb c "010"%char then "\n"
  else if Ascii.eqb c "013"%char then "\r"
  else if isprintable c then String c ""
  else
    let n := Ascii.N_of_ascii c in
    String "\"%char
      (String "x"%char (String (hex_digit (n / 16)) (String (hex_digit (n mod 16)) ""))).

(** [repr(s)]: double quotes when [s] has a single quote and no double
    quote, single quotes otherwise; the quote in use, the backslash and
    the characters that are not printable are escaped. *)
Definition repr (s : string) : string :=
  let quote :=
    if contains "'"%char s && negb (contains "034"%char s)
    then "034"%char else "'"%char in
  String quote
    (String.concat "" (map (repr_char quote) (list_ascii_of_string s))
     ++ String quote "").

End pystr.

Module pathlib.

(** The components of a POSIX path: empty components and ["."] are
    dropped when a [PurePosixPath] is built. *)
Definition parts (p : string) : list string :=
  filter (λ c, c ≠ "" ∧ c ≠ ".") (pystr.split "/"%char p).

(** [str(Path(p))] *)
Definition str (p : string) : string :=
  if pystr.startswith p "/" then "/" ++ pystr.join "/" (parts p)
  else match parts p with
       | [] => "."
       | ps => pystr.join "/" ps
       end.

(** [Path(p).name]: the final component, [""] when there is none. *)
Definition name (p : string) : string := List.last (parts p) "".

(** [Path(p).stem]: the name without its last suffix; a leading or a
    trailing dot does not start a suffix. *)
Definition stem (p : string) : string :=
  let n := name p in
  match pystr.rfind "."%char n with
  | Some i =>
      if bool_decide (0 < i < String.length n - 1)%nat
      then String.substring 0 i n else n
  | None => n
  end.

(** [str(Path(dir) / child)] for a relative [dir] and a [child] that is
    not absolute. *)
Definition joinpath (dir child : string) : string := str (dir ++ "/" ++ child).

(** [str(Path(p).parent)] for a relative path. *)
Definition parent (p : string) : string :=
  match parts p with
  | [] => "."
  | ps => match removelast ps with
          | [] => "."
          | qs => pystr.join "/" qs
          end
  end.

End pathlib.

(** ** [models.py] *)

Module models.

Inductive TaskStatus := PENDING | PROCESSING | COMPLETED | FAILED.

#[global] Instance TaskStatus_eq_dec : EqDecision TaskStatus.
Proof. solve_decision. Defined.

(** [TaskStatus.value] *)
Definition value (s : TaskStatus) : string :=
  match s with
  | PENDING => "pending"
  | PROCESSING => "processing"
  | COMPLETED => "completed"
  | FAILED => "failed"
  end.

(** The [ai_analysis] dictionaries the engine builds: the image and
    video one, and the audio one. *)
Inductive Analysis :=
| RegionAnalysis (adaptive_mode : bool) (important_regions : Z)
| AudioAnalysis (neural_compression : bool) (target_bitrate : Q).

Record CompressionTask := {
  id : string;
  file_type : string;
  original_filename : string;
  original_size : Z;
  file_path : string;
  compressed_file_path : option string;
  compressed_size : option Z;
  compression_ratio : option Q;
  status : TaskStatus;
  progress : Z;
  error_message : option string;
  created_at : Z;
  completed_at : option Z;
  quality : option Z;
  adaptive_mode : option bool;
  bitrate : option Q;
  ai_analysis : option Analysis;
}.

(** Attribute assignments [task.field = v], one per assigned field. *)
Definition set_status (v : TaskStatus) (t : CompressionTask) : CompressionTask :=
  {| id := id t; file_type := file_type t; original_filename := original_filename t;
     original_size := original_size t; file_path := file_path t;
     compressed_file_path := compressed_file_path t;
     compressed_size := compressed_size t; compression_ratio := compression_ratio t;
     status := v; progress := progress t; error_message := error_message t;
     created_at := created_at t; completed_at := completed_at t;
     quality := quality t; adaptive_mode := adaptive_mode t; bitrate := bitrate t;
     ai_analysis := ai_analysis t |}.

Definition set_progress (v : Z) (t : CompressionTask) : CompressionTask :=
  {| id := id t; file_type := file_type t; original_filename := original_filename t;
     original_size := original_size t; file_path := file_path t;
     compressed_file_path := compressed_file_path t;
     compressed_size := compressed_size t; compression_ratio := compression_ratio t;
     status := status t; progress := v; error_message := error_message t;
     created_at := created_at t; completed_at := completed_at t;
     quality := quality t; adaptive_mode := adaptive_mode t; bitrate := bitrate t;
     ai_analysis := ai_analysis t |}.

Definition set_compressed_file_path (v : string) (t : CompressionTask) : CompressionTask :=
  {| id := id t; file_type := file_type t; original_filename := original_filename t;
     original_size := original_size t; file_path := file_path t;
     compressed_file_path := Some v;
     compressed_size := compressed_size t; compression_ratio := compression_ratio t;
     status := status t; progress := progress t; error_message := error_message t;
     created_at := created_at t; completed_at := completed_at t;
     quality := quality t; adaptive_mode := adaptive_mode t; bitrate := bitrate t;
     ai_analysis := ai_analysis t |}.

Definition set_compressed_size (v : Z) (t : CompressionTask) : CompressionTask :=
  {| id := id t; file_type := file_type t; original_filename := original_filename t;
     original_size := original_size t; file_path := file_path t;
     compressed_file_path := compressed_file_path t;
     compressed_size := Some v; compression_ratio := compression_ratio t;
     status := status t; progress := progress t; error_message := error_message t;
     created_at := created_at t; completed_at := completed_at t;
     quality := quality t; adaptive_mode := adaptive_mode t; bitrate := bitrate t;
     ai_analysis := ai_analysis t |}.

Definition set_compression_ratio (v : Q) (t : CompressionTask) : CompressionTask :=
  {| id := id t; file_type := file_type t; original_filename := original_filename t;
     original_size := original_size t; file_path := file_path t;
     compressed_file_path := compressed_file_path t;
     compressed_size := compressed_size t; compression_ratio := Some v;
     status := status t; progress := progress t; error_message := error_message t;
     created_at := created_at t; completed_at := completed_at t;
     quality := quality t; adaptive_mode := adaptive_mode t; bitrate := bitrate t;
     ai_analysis := ai_analysis t |}.

Definition set_error_message (v : string) (t : CompressionTask) : CompressionTask :=
  {| id := id t; file_type := file_type t; original_filename := original_filename t;
     original_size := original_size t; file_path := file_path t;
     compressed_file_path := compressed_file_path t;
     compressed_size := compressed_size t; compression_ratio := compression_ratio t;
     status := status t; progress := progress t; error_message := Some v;
     created_at := created_at t; completed_at := completed_at t;
     quality := quality t; adaptive_mode := adaptive_mode t; bitrate := bitrate t;
     ai_analysis := ai_analysis t |}.

Definition set_ai_analysis (v : Analysis) (t : CompressionTask) : CompressionTask :=
  {| id := id t; file_type := file_type t; original_filename := original_filename t;
     original_size := original_size t; file_path := file_path t;
     compressed_file_path := compressed_file_path t;
     compressed_size := compressed_size t; compression_ratio := compression_ratio t;
     status := status t; progress := progress t; error_message := error_message t;
     created_at := created_at t; completed_at := completed_at t;
     quality := quality t; adaptive_mode := adaptive_mode t; bitrate := bitrate t;
     ai_analysis := Some v |}.

End models.

(** ** Exceptions, the world and the [Py] monad *)

(** The exceptions the embedded code can meet.  All of them are subclasses
    of [Exception], so an [except Exception] clause catches each one. *)
Inductive exn :=
| FileNotFoundError (filename : string)
| ZeroDivisionError
| KeyError (key : string)
| AttributeError (msg : string)
| OverflowError (msg : string)
| ValueError (msg : string)
| LibraryError (msg : string)
| HTTPException (status_code : Z) (detail : string).

(** [str(e)] *)
Definition str_exn (e : exn) : string :=
  match e with
  | FileNotFoundError f => "[Errno 2] No such file or directory: " ++ pystr.repr f
  | ZeroDivisionError => "division by zero"
  | KeyError k => pystr.repr k
  | AttributeError m => m
  | OverflowError m => m
  | ValueError m => m
  | LibraryError m => m
  | HTTPException c d => pretty c ++ ": " ++ d
  end.

Inductive outcome (A : Type) :=
| Ok (a : A)
| Raise (e : exn).
Arguments Ok {A} a.
Arguments Raise {A} e.

(** ** Python [float]: IEEE 754 doubles *)

Module pyfloat.

(** A [float]: a finite double, given by its exact value, or one of the
    two infinities, or a NaN. *)
Inductive float :=
| Finite (value : Q)
| Infinity (negative : bool)
| NaN.

(** The integer nearest to [n / d] for [d > 0], ties to the even one. *)
Definition div_nearest_even (n d : Z) : Z :=
  let q := n / d in
  let r := n mod d in
  if 2 * r <? d then q
  else if d <? 2 * r then q + 1
  else if Z.even q then q else q + 1.

(** The integer nearest to [(n / d) / 2 ^ e], ties to even. *)
Definition scaled_nearest_even (n d e : Z) : Z :=
  if 0 <=? e then div_nearest_even n (d * 2 ^ e)
  else div_nearest_even (n * 2 ^ (- e)) d.

(** [floor (log2 (n / d))] for positive [n] and [d]. *)
Definition floor_log2 (n d : Z) : Z :=
  let guess := Z.log2 n - Z.log2 d in
  if (if 0 <=? guess then d * 2 ^ guess <=? n else d <=? n * 2 ^ (- guess))
  then guess else guess - 1.

(** [m * 2 ^ e] *)
Definition ldexp (m e : Z) : Q :=
  if 0 <=? e then inject_Z (m * 2 ^ e) else Qmake m (Z.to_pos (2 ^ (- e))).

(** The double nearest to a rational, ties to even: 53 significant bits,
    the least exponent is that of the subnormal numbers, and a result of
    [2 ^ 1024] or more in magnitude is an infinity. *)
Definition round (x : Q) : float :=
  let n := Qnum x in
  let d := Z.pos (Qden x) in
  if n =? 0 then Finite 0
  else
    let e := Z.max (floor_log2 (Z.abs n) d - 52) (-1074) in
    let m := scaled_nearest_even (Z.abs n) d e in
    if (971 <? e) || (e =? 971) && (2 ^ 53 <=? m) then Infinity (n <? 0)
    else Finite (ldexp (Z.sgn n * m) e).

(** The sign of a finite value. *)
Definition is_negative (x : Q) : bool := Qnum x <? 0.

(** [x * y] *)
Definition mul (x y : float) : float :=
  match x, y with
  | NaN, _ | _, NaN => NaN
  | Finite a, Finite b => round (a * b)
  | Infinity s, Finite b | Finite b, Infinity s =>
      if Qnum b =? 0 then NaN else Infinity (xorb s (is_negative b))
  | Infinity s, Infinity t => Infinity (xorb s t)
  end.

(** [x - y] *)
Definition sub (x y : float) : float :=
  match x, y with
  | NaN, _ | _, NaN => NaN
  | Finite a, Finite b => round (a - b)
  | Infinity s, Finite _ => Infinity s
  | Finite _, Infinity t => Infinity (negb t)
  | Infinity s, Infinity t => if Bool.eqb s t then NaN else Infinity s
  end.

(** [float(n)] for an [int], as in [n * 0.5] or [51 - x] *)
Definition of_int (n : Z) : outcome float :=
  match round (inject_Z n) with
  | Infinity _ => Raise (OverflowError "int too large to convert to float")
  | x => Ok x
  end.

(** [int(x)]: truncation towards zero *)
Definition to_int (x : float) : outcome Z :=
  match x with
  | Finite q => Ok (Z.quot (Qnum q) (Z.pos (Qden q)))
  | Infinity _ => Raise (OverflowError "cannot convert float infinity to integer")
  | NaN => Raise (ValueError "cannot convert float NaN to integer")
  end.

End pyfloat.

(** File contents are lists of bytes. *)
Abbreviation bytes := (list Byte.byte) (only parsing).

(** Keyword arguments of an [ffmpeg.output(...)] node; [None] is an
    argument that is not passed. *)
Record FfmpegOutput := {
  vcodec : option string;
  crf : option pyfloat.float;
  preset : option string;
  acodec : option string;
  audio_bitrate : option string;
}.

(** One [ffmpeg.input(i).output(o, **kw).overwrite_output().run(quiet=True)]. *)
Record FfmpegRun := {
  run_input : string;
  run_output : string;
  run_kwargs : FfmpegOutput;
}.

(** A message given to the broker by [celery_app.send_task(name, args=...)]. *)
Inductive CeleryMessage :=
| SendImage (task_id file_path : string) (quality : Z) (adaptive_mode : bool)
| SendAudio (task_id file_path : string) (bitrate : Q)
| SendVideo (task_id file_path : string) (quality : Z) (adaptive_mode : bool).

(** The mutable state the code acts on.  [main.py] and [tasks.py] each
    define a module-level dictionary called [tasks]; they are two
    different objects, so the world has one table for each. *)
Record World := {
  files : gmap string bytes;
  main_tasks : gmap string models.CompressionTask;
  tasks_tasks : gmap string models.CompressionTask;
  celery_queue : list CeleryMessage;
  ffmpeg_runs : list FfmpegRun;
}.

Definition with_files (f : gmap string bytes) (w : World) : World :=
  {| files := f; main_tasks := main_tasks w; tasks_tasks := tasks_tasks w;
     celery_queue := celery_queue w; ffmpeg_runs := ffmpeg_runs w |}.

Definition with_main_tasks (t : gmap string models.CompressionTask) (w : World) : World :=
  {| files := files w; main_tasks := t; tasks_tasks := tasks_tasks w;
     celery_queue := celery_queue w; ffmpeg_runs := ffmpeg_runs w |}.

Definition with_tasks_tasks (t : gmap string models.CompressionTask) (w : World) : World :=
  {| files := files w; main_tasks := main_tasks w; tasks_tasks := t;
     celery_queue := celery_queue w; ffmpeg_runs := ffmpeg_runs w |}.

Definition with_celery_queue (q : list CeleryMessage) (w : World) : World :=
  {| files := files w; main_tasks := main_tasks w; tasks_tasks := tasks_tasks w;
     celery_queue := q; ffmpeg_runs := ffmpeg_runs w |}.

Definition with_ffmpeg_runs (r : list FfmpegRun) (w : World) : World :=
  {| files := files w; main_tasks := main_tasks w; tasks_tasks := tasks_tasks w;
     celery_queue := celery_queue w; ffmpeg_runs := r |}.

Definition Py (A : Type) : Type := World → outcome A * World.

Definition ret {A} (a : A) : Py A := λ w, (Ok a, w).

Definition raise {A} (e : exn) : Py A := λ w, (Raise e, w).

Definition bind {A B} (m : Py A) (k : A → Py B) : Py B :=
  λ w, match m w with
       | (Ok a, w') => k a w'
       | (Raise e, w') => (Raise e, w')
       end.

(** [try: body  except Exception as e: handler(e)] *)
Definition try_except {A} (body : Py A) (handler : exn → Py A) : Py A :=
  λ w, match body w with
       | (Ok a, w') => (Ok a, w')
       | (Raise e, w') => handler e w'
       end.

(** A library call that may raise and has no effect on the world. *)
Definition call {A} (o : outcome A) : Py A := λ w, (o, w).

(** [if c: body] *)
Definition when (c : bool) (body : Py unit) : Py unit :=
  if c then body else ret tt.

#[global] Instance Py_bind : MBind Py := λ A B k m, bind m k.
#[global] Instance Py_ret : MRet Py := λ A a, ret a.

(** ** The environment: libraries, external tools and the operating system *)

Definition bbox : Type := Z * Z * Z * Z.

(** An opened [cv2.VideoCapture]: whether it is opened, and the frames
    that successive [read()] calls return before the first call that
    returns [ret = False]. *)
Record Capture (ndarray : Type) := {
  isOpened : bool;
  frames : list ndarray;
}.
Arguments isOpened {ndarray} c.
Arguments frames {ndarray} c.

Record Env := {
  (** [PIL.Image.Image] values and numpy arrays (OpenCV images, contours,
      waveforms). *)
  Image : Type;
  ndarray : Type;
  (** module flags and the models loaded by [CompressionEngine.__init__];
      a loaded model is the function it computes: [compress] followed by
      [decompress] for the image model, [encode] followed by [decode] for
      the audio model. *)
  COMPRESSAI_AVAILABLE : bool;
  ENCODEC_AVAILABLE : bool;
  image_model : option (Image → outcome Image);
  audio_model : option (ndarray → outcome ndarray);
  (** [Image.open(f).convert('RGB')] on the content of a file *)
  Image_decode : bytes → outcome Image;
  (** the bytes [image.save(path, quality=q, optimize=True)] writes *)
  Image_encode : Image → string → Z → outcome bytes;
  (** [cv2.cvtColor(np.array(image), cv2.COLOR_RGB2BGR)] *)
  array_bgr : Image → ndarray;
  (** [cv2.cvtColor(a, cv2.COLOR_BGR2GRAY)] *)
  cvtColor_gray : ndarray → ndarray;
  (** [CascadeClassifier(haarcascade_frontalface_default).detectMultiScale(a, 1.1, 4)] *)
  detectMultiScale : ndarray → outcome (list bbox);
  (** [cv2.findContours(cv2.Canny(gray, 50, 150), RETR_EXTERNAL, CHAIN_APPROX_SIMPLE)[0]] *)
  findContours_Canny : ndarray → outcome (list ndarray);
  boundingRect : ndarray → bbox;
  (** [librosa.load(f, sr=24000)[0]] on the content of a file *)
  librosa_load : bytes → outcome ndarray;
  tobytes : ndarray → bytes;
  (** the external encoder: from the content of the input file (if it
      exists) and the invocation, the bytes of the output file, or the
      [ffmpeg.Error] of a non-zero exit *)
  ffmpeg : option bytes → FfmpegRun → outcome bytes;
  (** what an encoder that exits non-zero has left at its output path: the
      bytes of a file it created or truncated, or [None] when it stopped
      before it opened the output *)
  ffmpeg_partial : option bytes → FfmpegRun → option bytes;
  (** [cv2.VideoCapture(path)] on the content of a file (if it exists) *)
  VideoCapture : option bytes → Capture ndarray;
  (** the operating system may refuse to create a directory or to open a
      file for writing *)
  mkdir_error : string → option exn;
  open_wb_error : string → option exn;
  (** [celery_app.send_task] may fail to reach the broker *)
  send_task_error : CeleryMessage → option exn;
  (** [datetime.now()] when [models.py] was imported: the default of
      [created_at] *)
  import_time : Z;
}.

Module os.
Section os.
Context (env : Env).

(** [os.path.getsize(p)] *)
Definition getsize (p : string) : Py Z :=
  λ w, match files w !! p with
       | Some data => (Ok (Z.of_nat (length data)), w)
       | None => (Raise (FileNotFoundError p), w)
       end.

(** [os.path.exists(p)] for the path of a regular file *)
Definition exists_ (p : string) : Py bool :=
  λ w, (Ok (bool_decide (is_Some (files w !! p))), w).

(** the content of an existing file, as [open(p, 'rb').read()] *)
Definition read (p : string) : Py bytes :=
  λ w, match files w !! p with
       | Some data => (Ok data, w)
       | None => (Raise (FileNotFoundError p), w)
       end.

(** [with open(p, 'wb') as f: f.write(data)] *)
Definition write (p : string) (data : bytes) : Py unit :=
  λ w, match open_wb_error env p with
       | Some e => (Raise e, w)
       | None => (Ok tt, with_files (<[p := data]> (files w)) w)
       end.

(** [Path(p).mkdir(exist_ok=True)]; directories are not part of [files]. *)
Definition mkdir (p : string) : Py unit :=
  match mkdir_error env p with
  | Some e => raise e
  | None => ret tt
  end.

End os.
End os.

(** ** Python arithmetic on [int] *)

(** [a / b] on two [int]s *)
Definition truediv (a b : Z) : Py Q :=
  if decide (b = 0) then raise ZeroDivisionError
  else ret (inject_Z a / inject_Z b)%Q.

(** ** [compression_engine.py] *)

Module compression_engine.

Inductive region_type := face | text_candidate.

#[global] Instance region_type_eq_dec : EqDecision region_type.
Proof. solve_decision. Defined.

(** A region dictionary: ["type"], ["bbox"], ["importance"], and
    ["frame"] in the regions of a video. *)
Record Region := {
  type : region_type;
  region_bbox : bbox;
  frame : option Z;
  importance : Q;
}.

(** The dictionary a [compress_*] method returns. *)
Inductive CompressionResult :=
| Success (original_size compressed_size : Z) (compression_ratio : Q)
          (ai_analysis : models.Analysis)
| Failure (error : string).

Definition width (b : bbox) : Z := let '(_, _, w, _) := b in w.
Definition height (b : bbox) : Z := let '(_, _, _, h) := b in h.

Section engine.
Context (env : Env).

(** [ffmpeg.input(i).output(o, **kw).overwrite_output().run(quiet=True)]:
    the invocation is recorded; on a zero exit the output file holds what
    the encoder produced, and on a non-zero exit [ffmpeg.Error] is raised
    with the output file as the encoder left it. *)
Definition ffmpeg_run (input output : string) (kw : FfmpegOutput) : Py unit :=
  λ w,
    let r := {| run_input := input; run_output := output; run_kwargs := kw |} in
    let w1 := with_ffmpeg_runs (ffmpeg_runs w ++ [r]) w in
    match ffmpeg env (files w !! input) r with
    | Ok data => (Ok tt, with_files (<[output := data]> (files w1)) w1)
    | Raise e =>
        (Raise e,
         match ffmpeg_partial env (files w !! input) r with
         | Some data => with_files (<[output := data]> (files w1)) w1
         | None => w1
         end)
    end.

Definition _detect_important_regions (image : Image env) : Py (list Region) :=
  let cv_image := array_bgr env image in
  faces ← call (detectMultiScale env cv_image);
  let important_regions :=
    fold_left
      (λ regions b,
         (regions ++ [{| type := face; region_bbox := b; frame := None;
                         importance := 1.0%Q |}])%list)
      faces [] in
  let gray := cvtColor_gray env cv_image in
  contours ← call (findContours_Canny env gray);
  ret (fold_left
         (λ regions contour,
            let '(x, y, w, h) := boundingRect env contour in
            if (50 <? w) && (20 <? h)
            then (regions ++ [{| type := text_candidate; region_bbox := (x, y, w, h);
                                 frame := None; importance := 0.7%Q |}])%list
            else regions)
         contours important_regions).

Definition _compress_with_compressai
    (image : Image env) (quality : Z) (important_regions : option (list Region))
    : Py (Image env) :=
  match image_model env with
  | Some model => call (model image)
  | None => raise (AttributeError "'NoneType' object has no attribute 'compress'")
  end.

Definition _compress_adaptive_jpeg
    (image : Image env) (quality : Z) (important_regions : list Region)
    : Py (Image env) :=
  ret image.

Definition _compress_standard_jpeg (image : Image env) (quality : Z) : Py (Image env) :=
  ret image.

(** [image.save(output_path, quality=quality, optimize=True)] *)
Definition Image_save (image : Image env) (output_path : string) (quality : Z) : Py unit :=
  data ← call (Image_encode env image output_path quality);
  os.write env output_path data.

Definition compress_image
    (input_path output_path : string) (quality : Z) (adaptive_mode : bool)
    : Py CompressionResult :=
  try_except
    (content ← os.read input_path;
     image ← call (Image_decode env content);
     original_size ← os.getsize input_path;
     '(compressed_image, important_regions) ←
       (if adaptive_mode then
          important_regions ← _detect_important_regions image;
          compressed_image ←
            (if bool_decide (is_Some (image_model env)) && COMPRESSAI_AVAILABLE env
             then _compress_with_compressai image quality (Some important_regions)
             else _compress_adaptive_jpeg image quality important_regions);
          ret (compressed_image, important_regions)
        else
          compressed_image ←
            (if bool_decide (is_Some (image_model env)) && COMPRESSAI_AVAILABLE env
             then _compress_with_compressai image quality None
             else _compress_standard_jpeg image quality);
          ret (compressed_image, []));
     Image_save compressed_image output_path quality ;;
     compressed_size ← os.getsize output_path;
     q ← truediv compressed_size original_size;
     ret (Success original_size compressed_size ((1 - q) * 100)%Q
            (models.RegionAnalysis adaptive_mode
               (if adaptive_mode then Z.of_nat (length important_regions) else 0))))
    (λ e, ret (Failure (str_exn e))).

Definition _compress_with_encodec (input_path : string) (bitrate : Q) : Py bytes :=
  content ← os.read input_path;
  audio ← call (librosa_load env content);
  match audio_model env with
  | Some model =>
      decoded ← call (model audio);
      ret (tobytes env decoded)
  | None => raise (AttributeError "'NoneType' object has no attribute 'encode'")
  end.

(** The bit rate [f'{int(bitrate * 1000)}'] is evaluated when the output
    node is built, before the encoder runs; the product is a product of
    doubles. *)
Definition _compress_with_ffmpeg (input_path : string) (bitrate : Q) : Py string :=
  let output_path := pystr.replace input_path ".wav" "_compressed.mp3" in
  bits ← call (pyfloat.to_int (pyfloat.mul (pyfloat.Finite bitrate) (pyfloat.Finite 1000)));
  ffmpeg_run input_path output_path
    {| vcodec := None; crf := None; preset := None; acodec := Some "mp3";
       audio_bitrate := Some (pretty bits) |} ;;
  ret output_path.

Definition compress_audio (input_path output_path : string) (bitrate : Q)
    : Py CompressionResult :=
  try_except
    (original_size ← os.getsize input_path;
     compressed_audio ←
       (if bool_decide (is_Some (audio_model env)) && ENCODEC_AVAILABLE env
        then data ← _compress_with_encodec input_path bitrate;
             ret (inr data)
        else path ← _compress_with_ffmpeg input_path bitrate;
             ret (inl path));
     compressed_size ←
       match compressed_audio : string + bytes with
       | inl path => os.getsize path
       | inr data => os.write env output_path data ;; os.getsize output_path
       end;
     q ← truediv compressed_size original_size;
     ret (Success original_size compressed_size ((1 - q) * 100)%Q
            (models.AudioAnalysis (bool_decide (is_Some (audio_model env))) bitrate)))
    (λ e, ret (Failure (str_exn e))).

(** The [while cap.isOpened() and frame_count < 10] loop; each iteration
    takes the next frame of the capture. *)
Fixpoint _analyze_video_loop
    (opened : bool) (remaining : list (ndarray env)) (frame_count : Z)
    (important_regions : list Region) : Py (list Region) :=
  if opened && (frame_count <? 10) then
    match remaining with
    | [] => ret important_regions
    | frame_ :: rest =>
        let gray := cvtColor_gray env frame_ in
        faces ← call (detectMultiScale env gray);
        _analyze_video_loop opened rest (frame_count + 1)
          (fold_left
             (λ regions b,
                (regions ++ [{| type := face; region_bbox := b;
                                frame := Some frame_count; importance := 1.0%Q |}])%list)
             faces important_regions)
    end
  else ret important_regions.

Definition _analyze_video_regions (video_path : string) : Py (list Region) :=
  λ w,
    let cap := VideoCapture env (files w !! video_path) in
    _analyze_video_loop (isOpened cap) (frames cap) 0 [] w.

(** [crf = 51 - (quality * 0.5)]: [quality] is converted to a float,
    multiplied by the double 1/2, and the product is subtracted from the
    double 51. *)
Definition _compress_video_adaptive
    (input_path output_path : string) (quality : Z) (important_regions : list Region)
    : Py string :=
  quality_float ← call (pyfloat.of_int quality);
  let crf :=
    pyfloat.sub (pyfloat.Finite 51) (pyfloat.mul quality_float (pyfloat.Finite (1 # 2))) in
  ffmpeg_run input_path output_path
    {| vcodec := Some "libx264"; crf := Some crf; preset := Some "medium";
       acodec := Some "aac"; audio_bitrate := Some "128k" |} ;;
  ret output_path.

Definition _compress_video_standard
    (input_path output_path : string) (quality : Z) : Py string :=
  quality_float ← call (pyfloat.of_int quality);
  let crf :=
    pyfloat.sub (pyfloat.Finite 51) (pyfloat.mul quality_float (pyfloat.Finite (1 # 2))) in
  ffmpeg_run input_path output_path
    {| vcodec := Some "libx264"; crf := Some crf; preset := Some "medium";
       acodec := Some "aac"; audio_bitrate := Some "128k" |} ;;
  ret output_path.

Definition compress_video
    (input_path output_path : string) (quality : Z) (adaptive_mode : bool)
    : Py CompressionResult :=
  try_except
    (original_size ← os.getsize input_path;
     important_regions ←
       (if adaptive_mode then
          important_regions ← _analyze_video_regions input_path;
          _compress_video_adaptive input_path output_path quality important_regions ;;
          ret important_regions
        else
          _compress_video_standard input_path output_path quality ;;
          ret []);
     compressed_size ← os.getsize output_path;
     q ← truediv compressed_size original_size;
     ret (Success original_size compressed_size ((1 - q) * 100)%Q
            (models.RegionAnalysis adaptive_mode
               (if adaptive_mode then Z.of_nat (length important_regions) else 0))))
    (λ e, ret (Failure (str_exn e))).

End engine.

(** [_load_models]: a model is loaded only when its library was imported,
    and a failed load leaves [None].  [load_image] and [load_audio] are the
    outcomes of the two [try] bodies (building the pretrained model, [eval()]
    and [to(device)]). *)
Definition _load_models (env : Env)
    (load_image : outcome (Image env → outcome (Image env)))
    (load_audio : outcome (ndarray env → outcome (ndarray env)))
    : option (Image env → outcome (Image env))
      * option (ndarray env → outcome (ndarray env)) :=
  (if COMPRESSAI_AVAILABLE env
   then match load_image with
        | Ok model => Some model
        | Raise _ => None
        end
   else None,
   if ENCODEC_AVAILABLE env
   then match load_audio with
        | Ok model => Some model
        | Raise _ => None
        end
   else None).

(** [CompressionEngine()]: the installation [env] with the two model
    attributes set by [__init__], which starts from [None] and calls
    [_load_models]. *)
Definition CompressionEngine (env : Env)
    (load_image : outcome (Image env → outcome (Image env)))
    (load_audio : outcome (ndarray env → outcome (ndarray env))) : Env :=
  {| Image := Image env;
     ndarray := ndarray env;
     COMPRESSAI_AVAILABLE := COMPRESSAI_AVAILABLE env;
     ENCODEC_AVAILABLE := ENCODEC_AVAILABLE env;
     image_model := (_load_models env load_image load_audio).1;
     audio_model := (_load_models env load_image load_audio).2;
     Image_decode := Image_decode env;
     Image_encode := Image_encode env;
     array_bgr := array_bgr env;
     cvtColor_gray := cvtColor_gray env;
     detectMultiScale := detectMultiScale env;
     findContours_Canny := findContours_Canny env;
     boundingRect := boundingRect env;
     librosa_load := librosa_load env;
     tobytes := tobytes env;
     ffmpeg := ffmpeg env;
     ffmpeg_partial := ffmpeg_partial env;
     VideoCapture := VideoCapture env;
     mkdir_error := mkdir_error env;
     open_wb_error := open_wb_error env;
     send_task_error := send_task_error env;
     import_time := import_time env |}.

End compression_engine.

(** ** [tasks.py] *)

Module tasks.

(** The dictionary a worker task returns. *)
Inductive TaskReturn :=
| ReturnSuccess (task_id : string) (compressed_size : Z) (compression_ratio : Q)
| ReturnFailure (task_id : string) (error : string).

(** [task_id in tasks] *)
Definition contains (task_id : string) : Py bool :=
  λ w, (Ok (bool_decide (is_Some (tasks_tasks w !! task_id))), w).

(** [tasks[task_id].field = v]: the record stored under [task_id] is
    updated in place; a missing key raises [KeyError]. *)
Definition setattr (task_id : string)
    (assign : models.CompressionTask → models.CompressionTask) : Py unit :=
  λ w, match tasks_tasks w !! task_id with
       | Some t => (Ok tt, with_tasks_tasks (<[task_id := assign t]> (tasks_tasks w)) w)
       | None => (Raise (KeyError task_id), w)
       end.

Section tasks.
Context (env : Env).

Definition compress_image
    (task_id file_path : string) (quality : Z) (adaptive_mode : bool) : Py TaskReturn :=
  try_except
    (present ← contains task_id;
     when present
       (setattr task_id (models.set_status models.PROCESSING) ;;
        setattr task_id (models.set_progress 10)) ;;
     let input_path := file_path in
     let output_path :=
       pathlib.joinpath "outputs" ("compressed_" ++ pathlib.name input_path) in
     os.mkdir env (pathlib.parent output_path) ;;
     present ← contains task_id;
     when present (setattr task_id (models.set_progress 30)) ;;
     result ← compression_engine.compress_image env
                file_path output_path quality adaptive_mode;
     match result with
     | compression_engine.Success _ compressed_size compression_ratio ai_analysis =>
         present ← contains task_id;
         when present
           (setattr task_id (models.set_status models.COMPLETED) ;;
            setattr task_id (models.set_progress 100) ;;
            setattr task_id (models.set_compressed_file_path output_path) ;;
            setattr task_id (models.set_compressed_size compressed_size) ;;
            setattr task_id (models.set_compression_ratio compression_ratio) ;;
            setattr task_id (models.set_ai_analysis ai_analysis)) ;;
         ret (ReturnSuccess task_id compressed_size compression_ratio)
     | compression_engine.Failure error =>
         present ← contains task_id;
         when present
           (setattr task_id (models.set_status models.FAILED) ;;
            setattr task_id (models.set_error_message error)) ;;
         ret (ReturnFailure task_id error)
     end)
    (λ e,
       present ← contains task_id;
       when present
         (setattr task_id (models.set_status models.FAILED) ;;
          setattr task_id (models.set_error_message (str_exn e))) ;;
       ret (ReturnFailure task_id (str_exn e))).

Definition compress_audio
    (task_id file_path : string) (bitrate : Q) : Py TaskReturn :=
  try_except
    (present ← contains task_id;
     when present
       (setattr task_id (models.set_status models.PROCESSING) ;;
        setattr task_id (models.set_progress 10)) ;;
     let input_path := file_path in
     let output_path :=
       pathlib.joinpath "outputs" ("compressed_" ++ pathlib.stem input_path ++ ".mp3") in
     os.mkdir env (pathlib.parent output_path) ;;
     present ← contains task_id;
     when present (setattr task_id (models.set_progress 30)) ;;
     result ← compression_engine.compress_audio env file_path output_path bitrate;
     match result with
     | compression_engine.Success _ compressed_size compression_ratio ai_analysis =>
         present ← contains task_id;
         when present
           (setattr task_id (models.set_status models.COMPLETED) ;;
            setattr task_id (models.set_progress 100) ;;
            setattr task_id (models.set_compressed_file_path output_path) ;;
            setattr task_id (models.set_compressed_size compressed_size) ;;
            setattr task_id (models.set_compression_ratio compression_ratio) ;;
            setattr task_id (models.set_ai_analysis ai_analysis)) ;;
         ret (ReturnSuccess task_id compressed_size compression_ratio)
     | compression_engine.Failure error =>
         present ← contains task_id;
         when present
           (setattr task_id (models.set_status models.FAILED) ;;
            setattr task_id (models.set_error_message error)) ;;
         ret (ReturnFailure task_id error)
     end)
    (λ e,
       present ← contains task_id;
       when present
         (setattr task_id (models.set_status models.FAILED) ;;
          setattr task_id (models.set_error_message (str_exn e))) ;;
       ret (ReturnFailure task_id (str_exn e))).

Definition compress_video
    (task_id file_path : string) (quality : Z) (adaptive_mode : bool) : Py TaskReturn :=
  try_except
    (present ← contains task_id;
     when present
       (setattr task_id (models.set_status models.PROCESSING) ;;
        setattr task_id (models.set_progress 10)) ;;
     let input_path := file_path in
     let output_path :=
       pathlib.joinpath "outputs" ("compressed_" ++ pathlib.name input_path) in
     os.mkdir env (pathlib.parent output_path) ;;
     present ← contains task_id;
     when present (setattr task_id (models.set_progress 30)) ;;
     result ← compression_engine.compress_video env
                file_path output_path quality adaptive_mode;
     match result with
     | compression_engine.Success _ compressed_size compression_ratio ai_analysis =>
         present ← contains task_id;
         when present
           (setattr task_id (models.set_status models.COMPLETED) ;;
            setattr task_id (models.set_progress 100) ;;
            setattr task_id (models.set_compressed_file_path output_path) ;;
            setattr task_id (models.set_compressed_size compressed_size) ;;
            setattr task_id (models.set_compression_ratio compression_ratio) ;;
            setattr task_id (models.set_ai_analysis ai_analysis)) ;;
         ret (ReturnSuccess task_id compressed_size compression_ratio)
     | compression_engine.Failure error =>
         present ← contains task_id;
         when present
           (setattr task_id (models.set_status models.FAILED) ;;
            setattr task_id (models.set_error_message error)) ;;
         ret (ReturnFailure task_id error)
     end)
    (λ e,
       present ← contains task_id;
       when present
         (setattr task_id (models.set_status models.FAILED) ;;
          setattr task_id (models.set_error_message (str_exn e))) ;;
       ret (ReturnFailure task_id (str_exn e))).

End tasks.
End tasks.

(** ** [main.py] *)

Module main.

(** The uploaded file as the handlers use it: [content_type] (which may
    be absent), [filename] and what [await file.read()] returns. *)
Record UploadFile := {
  content_type : option string;
  filename : string;
  content : bytes;
}.

(** The dictionary an upload handler returns. *)
Record UploadResponse := {
  response_task_id : string;
  response_status : string;
  response_message : string;
}.

Record FileResponse := {
  response_path : string;
  response_filename : string;
  media_type : string;
}.

(** [CompressionTask(id=..., ...)]: the fields that are not passed take
    the defaults of [models.py]. *)
Definition new_task (env : Env) (id file_type original_filename : string)
    (original_size : Z) (file_path : string)
    (quality : option Z) (adaptive_mode : option bool) (bitrate : option Q)
    (status : models.TaskStatus) : models.CompressionTask :=
  {| models.id := id; models.file_type := file_type;
     models.original_filename := original_filename;
     models.original_size := original_size; models.file_path := file_path;
     models.compressed_file_path := None; models.compressed_size := None;
     models.compression_ratio := None; models.status := status;
     models.progress := 0; models.error_message := None;
     models.created_at := import_time env; models.completed_at := None;
     models.quality := quality; models.adaptive_mode := adaptive_mode;
     models.bitrate := bitrate; models.ai_analysis := None |}.

(** [task_id in tasks] *)
Definition contains (task_id : string) : Py bool :=
  λ w, (Ok (bool_decide (is_Some (main_tasks w !! task_id))), w).

(** [tasks[task_id]] *)
Definition getitem (task_id : string) : Py models.CompressionTask :=
  λ w, match main_tasks w !! task_id with
       | Some t => (Ok t, w)
       | None => (Raise (KeyError task_id), w)
       end.

(** [tasks[task_id] = task] *)
Definition setitem (task_id : string) (task : models.CompressionTask) : Py unit :=
  λ w, (Ok tt, with_main_tasks (<[task_id := task]> (main_tasks w)) w).

(** The dictionary [get_task_status] returns. *)
Record StatusResponse := {
  status_task_id : string;
  status_status : string;
  status_progress : Z;
  status_original_size : Z;
  status_compressed_size : option Z;
  status_compression_ratio : option Q;
  status_download_url : option string;
  status_error : option string;
}.

Definition get_task_status (task_id : string) : Py StatusResponse :=
  present ← contains task_id;
  if negb present then raise (HTTPException 404 "Task not found") else
  task ← getitem task_id;
  mret {| status_task_id := task_id;
          status_status := models.value (models.status task);
          status_progress := models.progress task;
          status_original_size := models.original_size task;
          status_compressed_size := models.compressed_size task;
          status_compression_ratio := models.compression_ratio task;
          status_download_url :=
            if bool_decide (models.status task = models.COMPLETED)
            then Some ("/download/" ++ task_id) else None;
          status_error := models.error_message task |}.

Section main.
Context (env : Env).

(** [celery_app.send_task(name, args=[...])] *)
Definition send_task (msg : CeleryMessage) : Py unit :=
  match send_task_error env msg with
  | Some e => raise e
  | None => λ w, (Ok tt, with_celery_queue (celery_queue w ++ [msg])%list w)
  end.

(** [file.content_type.startswith(prefix)] *)
Definition content_type_startswith (file : UploadFile) (prefix : string) : Py bool :=
  match content_type file with
  | Some c => ret (pystr.startswith c prefix)
  | None => raise (AttributeError "'NoneType' object has no attribute 'startswith'")
  end.

(** The upload handlers; the argument [uuid4] is what
    [str(uuid.uuid4())] returns. *)
Definition upload_image (uuid4 : string)
    (file : UploadFile) (quality : Z) (adaptive_mode : bool) : Py UploadResponse :=
  is_image ← content_type_startswith file "image/";
  if negb is_image then raise (HTTPException 400 "File must be an image") else
  let task_id := uuid4 in
  os.mkdir env "uploads" ;;
  let file_path := pathlib.joinpath "uploads" (task_id ++ "_" ++ filename file) in
  os.write env file_path (content file) ;;
  let task :=
    new_task env task_id "image" (filename file) (Z.of_nat (length (content file)))
      file_path (Some quality) (Some adaptive_mode) None models.PROCESSING in
  setitem task_id task ;;
  send_task (SendImage task_id file_path quality adaptive_mode) ;;
  ret {| response_task_id := task_id; response_status := "processing";
         response_message := "Image compression started" |}.

Definition upload_audio (uuid4 : string)
    (file : UploadFile) (bitrate : Q) : Py UploadResponse :=
  is_audio ← content_type_startswith file "audio/";
  if negb is_audio then raise (HTTPException 400 "File must be an audio file") else
  let task_id := uuid4 in
  os.mkdir env "uploads" ;;
  let file_path := pathlib.joinpath "uploads" (task_id ++ "_" ++ filename file) in
  os.write env file_path (content file) ;;
  let task :=
    new_task env task_id "audio" (filename file) (Z.of_nat (length (content file)))
      file_path None None (Some bitrate) models.PROCESSING in
  setitem task_id task ;;
  send_task (SendAudio task_id file_path bitrate) ;;
  ret {| response_task_id := task_id; response_status := "processing";
         response_message := "Audio compression started" |}.

Definition upload_video (uuid4 : string)
    (file : UploadFile) (quality : Z) (adaptive_mode : bool) : Py UploadResponse :=
  is_video ← content_type_startswith file "video/";
  if negb is_video then raise (HTTPException 400 "File must be a video file") else
  let task_id := uuid4 in
  os.mkdir env "uploads" ;;
  let file_path := pathlib.joinpath "uploads" (task_id ++ "_" ++ filename file) in
  os.write env file_path (content file) ;;
  let task :=
    new_task env task_id "video" (filename file) (Z.of_nat (length (content file)))
      file_path (Some quality) (Some adaptive_mode) None models.PROCESSING in
  setitem task_id task ;;
  send_task (SendVideo task_id file_path quality adaptive_mode) ;;
  ret {| response_task_id := task_id; response_status := "processing";
         response_message := "Video compression started" |}.

Definition download_compressed_file (task_id : string) : Py FileResponse :=
  present ← contains task_id;
  if negb present then raise (HTTPException 404 "Task not found") else
  task ← getitem task_id;
  if bool_decide (models.status task ≠ models.COMPLETED)
  then raise (HTTPException 400 "Task not completed") else
  missing ←
    match models.compressed_file_path task with
    | None => ret true
    | Some path =>
        if bool_decide (path = "") then ret true
        else found ← os.exists_ path; ret (negb found)
    end;
  if (missing : bool) then raise (HTTPException 404 "Compressed file not found") else
  ret {| response_path := default "" (models.compressed_file_path task);
         response_filename := "compressed_" ++ models.original_filename task;
         media_type := "application/octet-stream" |}.

End main.
End main.

(** ** Specification-side definitions *)

(** The dictionaries [_detect_important_regions] appends. *)
Definition face_region (b : bbox) : compression_engine.Region :=
  {| compression_engine.type := compression_engine.face;
     compression_engine.region_bbox := b;
     compression_engine.frame := None;
     compression_engine.importance := 1.0%Q |}.

Definition text_region (b : bbox) : compression_engine.Region :=
  {| compression_engine.type := compression_engine.text_candidate;
     compression_engine.region_bbox := b;
     compression_engine.frame := None;
     compression_engine.importance := 0.7%Q |}.

(** The dictionary [_analyze_video_regions] appends for frame [i]. *)
Definition video_face_region (i : Z) (b : bbox) : compression_engine.Region :=
  {| compression_engine.type := compression_engine.face;
     compression_engine.region_bbox := b;
     compression_engine.frame := Some i;
     compression_engine.importance := 1.0%Q |}.

(** The size filter on bounding boxes: width above 50 and height above 20. *)
Definition passes_size_filter (b : bbox) : bool :=
  (50 <? compression_engine.width b) && (20 <? compression_engine.height b).

(** What the image detector returns, from what the face detector and the
    contour finder return. *)
Definition detected_regions (faces rects : list bbox) : list compression_engine.Region :=
  (map face_region faces ++ map text_region (filter (λ b, passes_size_filter b = true) rects))%list.

(** A region as the size filter and the weights allow it: a face of
    weight 1.0 of any size, or a text candidate of weight 0.7 wider than
    50 and higher than 20. *)
Definition region_allowed (r : compression_engine.Region) : Prop :=
  match compression_engine.type r with
  | compression_engine.face => compression_engine.importance r = 1.0%Q
  | compression_engine.text_candidate =>
      compression_engine.importance r = 0.7%Q
      ∧ 50 < compression_engine.width (compression_engine.region_bbox r)
      ∧ 20 < compression_engine.height (compression_engine.region_bbox r)
  end.

(** The frames video analysis samples: the first ten of an opened capture. *)
Definition sampled_frames {A} (cap : Capture A) : list A :=
  if isOpened cap then take 10 (frames cap) else [].

(** Face detection on the sampled frames in order, frame [i] first: the
    faces of each frame, tagged with the index of the frame. *)
Fixpoint sampled_faces (env : Env) (fs : list (ndarray env)) (i : Z)
    : outcome (list compression_engine.Region) :=
  match fs with
  | [] => Ok []
  | f :: rest =>
      match detectMultiScale env (cvtColor_gray env f) with
      | Raise e => Raise e
      | Ok faces =>
          match sampled_faces env rest (i + 1) with
          | Raise e => Raise e
          | Ok regions => Ok (map (video_face_region i) faces ++ regions)%list
          end
      end
  end.

(** A region of a video analysis over [n] sampled frames. *)
Definition video_region_ok (n : nat) (r : compression_engine.Region) : Prop :=
  compression_engine.type r = compression_engine.face
  ∧ compression_engine.importance r = 1.0%Q
  ∧ ∃ i, compression_engine.frame r = Some i ∧ 0 ≤ i < Z.of_nat n.

(** The image detector's two passes on one video frame, each region tagged
    with the frame index [i]: what the specification says video analysis
    applies to a sampled frame. *)
Definition image_detector_on_frame (env : Env) (i : Z) (f : ndarray env)
    : outcome (list compression_engine.Region) :=
  match detectMultiScale env f with
  | Raise e => Raise e
  | Ok faces =>
      match findContours_Canny env (cvtColor_gray env f) with
      | Raise e => Raise e
      | Ok contours =>
          Ok (map (λ r, {| compression_engine.type := compression_engine.type r;
                           compression_engine.region_bbox := compression_engine.region_bbox r;
                           compression_engine.frame := Some i;
                           compression_engine.importance := compression_engine.importance r |})
                (detected_regions faces (map (boundingRect env) contours)))
      end
  end.

Fixpoint image_detector_on_frames (env : Env) (fs : list (ndarray env)) (i : Z)
    : outcome (list compression_engine.Region) :=
  match fs with
  | [] => Ok []
  | f :: rest =>
      match image_detector_on_frame env i f with
      | Raise e => Raise e
      | Ok here =>
          match image_detector_on_frames env rest (i + 1) with
          | Raise e => Raise e
          | Ok regions => Ok (here ++ regions)%list
          end
      end
  end.

(** The encoder invocations made between two worlds. *)
Definition new_runs (before after : World) : list FfmpegRun :=
  drop (length (ffmpeg_runs before)) (ffmpeg_runs after).

(** The rate-control values the video encoder is invoked with for a
    quality, on the adaptive and on the standard path: one value for each
    invocation the helper makes. *)
Definition encoder_crf (env : Env) (adaptive : bool) (input_path output_path : string)
    (quality : Z) (important_regions : list compression_engine.Region) (w : World)
    : list pyfloat.float :=
  omap (λ r, crf (run_kwargs r))
    (new_runs w
       ((if adaptive
         then compression_engine._compress_video_adaptive env
                input_path output_path quality important_regions
         else compression_engine._compress_video_standard env
                input_path output_path quality) w).2).

(** The outcome of the video helper of either path. *)
Definition video_helper_outcome (env : Env) (adaptive : bool)
    (input_path output_path : string) (quality : Z)
    (important_regions : list compression_engine.Region) (w : World) : outcome string :=
  ((if adaptive
    then compression_engine._compress_video_adaptive env
           input_path output_path quality important_regions
    else compression_engine._compress_video_standard env
           input_path output_path quality) w).1.

(** The ratio of a successful result is the percentage saved, computed
    from the two sizes of the same result. *)
Definition ratio_is_percentage (o : outcome compression_engine.CompressionResult) : Prop :=
  match o with
  | Ok (compression_engine.Success original compressed ratio _) =>
      original ≠ 0
      ∧ (ratio == (1 - inject_Z compressed / inject_Z original) * 100)%Q
  | _ => True
  end.

(** The two result fields of a job record agree with its status. *)
Definition job_inv (t : models.CompressionTask) : Prop :=
  (is_Some (models.compressed_size t) ↔ models.status t = models.COMPLETED)
  ∧ (is_Some (models.error_message t) ↔ models.status t = models.FAILED).

Definition terminal (s : models.TaskStatus) : bool :=
  match s with
  | models.COMPLETED | models.FAILED => true
  | _ => false
  end.

(** What an upload handler leaves behind when it returns: the response
    names the new id and says "processing", and the table of [main.py]
    holds under that id a record of status PROCESSING and progress 0
    without result fields; the table of [tasks.py] is as before. *)
Definition created_processing (uuid4 : string) (w : World)
    (run : outcome main.UploadResponse * World) : Prop :=
  match run with
  | (Ok response, w') =>
      main.response_task_id response = uuid4
      ∧ main.response_status response = "processing"
      ∧ tasks_tasks w' = tasks_tasks w
      ∧ ∃ t, main_tasks w' = <[uuid4 := t]> (main_tasks w)
             ∧ models.id t = uuid4
             ∧ models.status t = models.PROCESSING
             ∧ models.progress t = 0
             ∧ models.compressed_size t = None
             ∧ models.error_message t = None
  | (Raise _, _) => True
  end.

(** ** Predicates on [Py] computations *)

(** [wp m Q w]: running [m] from [w] ends in an outcome and a world that
    satisfy [Q]. *)
Definition wp {A} (m : Py A) (Q : outcome A → World → Prop) (w : World) : Prop :=
  Q (m w).1 (m w).2.

(** [keeps m]: [m] writes to neither job table. *)
Definition keeps {A} (m : Py A) : Prop :=
  ∀ w, tasks_tasks (m w).2 = tasks_tasks w ∧ main_tasks (m w).2 = main_tasks w.

(** [only_writes target m]: [m] creates or changes no file but [target]. *)
Definition only_writes {A} (target : string) (m : Py A) : Prop :=
  ∀ w p, p ≠ target → files (m w).2 !! p = files w !! p.

(** The text shared by the three worker tasks, which differ in the output
    path they build and in the engine method they call. *)
Definition task_shape (env : Env) (task_id output_path : string)
    (engine : Py compression_engine.CompressionResult) : Py tasks.TaskReturn :=
  try_except
    (present ← tasks.contains task_id;
     when present
       (tasks.setattr task_id (models.set_status models.PROCESSING) ;;
        tasks.setattr task_id (models.set_progress 10)) ;;
     os.mkdir env (pathlib.parent output_path) ;;
     present ← tasks.contains task_id;
     when present (tasks.setattr task_id (models.set_progress 30)) ;;
     result ← engine;
     match result with
     | compression_engine.Success _ compressed_size compression_ratio ai_analysis =>
         present ← tasks.contains task_id;
         when present
           (tasks.setattr task_id (models.set_status models.COMPLETED) ;;
            tasks.setattr task_id (models.set_progress 100) ;;
            tasks.setattr task_id (models.set_compressed_file_path output_path) ;;
            tasks.setattr task_id (models.set_compressed_size compressed_size) ;;
            tasks.setattr task_id (models.set_compression_ratio compression_ratio) ;;
            tasks.setattr task_id (models.set_ai_analysis ai_analysis)) ;;
         mret (tasks.ReturnSuccess task_id compressed_size compression_ratio)
     | compression_engine.Failure error =>
         present ← tasks.contains task_id;
         when present
           (tasks.setattr task_id (models.set_status models.FAILED) ;;
            tasks.setattr task_id (models.set_error_message error)) ;;
         mret (tasks.ReturnFailure task_id error)
     end)
    (λ e,
       present ← tasks.contains task_id;
       when present
         (tasks.setattr task_id (models.set_status models.FAILED) ;;
          tasks.setattr task_id (models.set_error_message (str_exn e))) ;;
       mret (tasks.ReturnFailure task_id (str_exn e))).

(** A worker task returns a dictionary and leaves untouched what the
    given tables hold. *)
Definition returns_keeping (w : World) (run : outcome tasks.TaskReturn * World) : Prop :=
  match run with
  | (Ok _, w') => tasks_tasks w' = tasks_tasks w ∧ main_tasks w' = main_tasks w
  | (Raise _, _) => False
  end.

(** A worker task returns a dictionary and leaves the record of
    [task_id] terminal, with result fields that agree with its status; a
    success goes with Completed and a failure with Failed, and the other
    records of the table are as before. *)
Definition finishes_job (task_id : string) (w : World)
    (run : outcome tasks.TaskReturn * World) : Prop :=
  match run with
  | (Ok r, w') =>
      (∃ t', tasks_tasks w' !! task_id = Some t'
             ∧ job_inv t'
             ∧ models.status t'
               = match r with
                 | tasks.ReturnSuccess _ _ _ => models.COMPLETED
                 | tasks.ReturnFailure _ _ => models.FAILED
                 end)
      ∧ ∀ other, other ≠ task_id → tasks_tasks w' !! other = tasks_tasks w !! other
  | (Raise _, _) => False
  end.

(** A successful engine result comes with a file at [output_path]. *)
Definition artifact_written (output_path : string)
    (o : outcome compression_engine.CompressionResult) (w : World) : Prop :=
  match o with
  | Ok (compression_engine.Success _ _ _ _) => is_Some (files w !! output_path)
  | _ => True
  end.

(** A task that reports success leaves a file at [output_path]. *)
Definition artifact_published (output_path : string)
    (run : outcome tasks.TaskReturn * World) : Prop :=
  match run with
  | (Ok (tasks.ReturnSuccess _ _ _), w') => is_Some (files w' !! output_path)
  | _ => True
  end.

(** ** Concrete environments and worlds *)

Definition zeros (n : nat) : bytes := repeat Byte.x00 n.

(** An installation without CompressAI and Encodec, whose face detector
    finds [faces] and whose contour finder finds contours of bounding
    rectangles [rects] in every array, whose encoder always answers [encoded], and
    whose video files hold the frames [video]; an array is represented by
    a rectangle. *)
Definition test_env (faces rects : list bbox) (encoded : outcome bytes)
    (video : list bbox) : Env :=
  {| Image := unit;
     ndarray := bbox;
     COMPRESSAI_AVAILABLE := false;
     ENCODEC_AVAILABLE := false;
     image_model := None;
     audio_model := None;
     Image_decode := λ _, Ok tt;
     Image_encode := λ _ _ _, Ok (zeros 50);
     array_bgr := λ _, (0, 0, 0, 0);
     cvtColor_gray := λ a, a;
     detectMultiScale := λ _, Ok faces;
     findContours_Canny := λ _, Ok rects;
     boundingRect := λ c, c;
     librosa_load := λ _, Ok (0, 0, 0, 0);
     tobytes := λ _, [];
     ffmpeg := λ _ _, encoded;
     ffmpeg_partial := λ _ _, None;
     VideoCapture := λ f, {| isOpened := bool_decide (is_Some f); frames := video |};
     mkdir_error := λ _, None;
     open_wb_error := λ _, None;
     send_task_error := λ _, None;
     import_time := 0 |}.

Definition empty_world : World :=
  {| files := ∅; main_tasks := ∅; tasks_tasks := ∅; celery_queue := []; ffmpeg_runs := [] |}.

(** A world with one file of [n] bytes. *)
Definition world_with_file (path : string) (n : nat) : World :=
  with_files {[ path := zeros n ]} empty_world.

(** An image upload. *)
Definition png_upload : main.UploadFile :=
  {| main.content_type := Some "image/png"; main.filename := "a.png";
     main.content := zeros 3 |}.

(** A job record as the audio upload handler creates it. *)
Definition audio_job (env : Env) (task_id file_path : string) : models.CompressionTask :=
  main.new_task env task_id "audio" "a.wav" 100 file_path None None (Some 6.0%Q)
    models.PROCESSING.

(** A world in which the worker's table holds the record of an audio job
    whose upload of 100 bytes is stored. *)
Definition audio_world (env : Env) : World :=
  with_tasks_tasks {[ "job" := audio_job env "job" "uploads/a.wav" ]}
    (world_with_file "uploads/a.wav" 100).

(** An installation without Encodec whose encoder turns any input into 40
    bytes, and the run of the audio task on the stored job. *)
Definition fallback_env : Env := test_env [] [] (Ok (zeros 40)) [].

Definition audio_fallback_run : outcome tasks.TaskReturn * World :=
  tasks.compress_audio fallback_env "job" "uploads/a.wav" 6.0%Q (audio_world fallback_env).

(** The world after a first, successful run of the audio task, and a
    second run of the same task on it by an installation whose encoder
    fails. *)
Definition failing_env : Env :=
  test_env [] [] (Raise (LibraryError "ffmpeg error (see stderr output for detail)")) [].

Definition audio_rerun : outcome tasks.TaskReturn * World :=
  tasks.compress_audio failing_env "job" "uploads/a.wav" 6.0%Q audio_fallback_run.2.

(** ** Definitions for the properties of the handlers and of the system *)

(** Where an upload handler stores the upload. *)
Definition upload_path (uuid4 : string) (file : main.UploadFile) : string :=
  pathlib.joinpath "uploads" (uuid4 ++ "_" ++ main.filename file).

(** What the content-type check of an upload handler does: without a
    content type the attribute access raises, with a content type of
    another kind the handler answers 400; in both cases nothing has
    happened to the world. *)
Definition checks_content_type (prefix detail : string) (file : main.UploadFile)
    (w : World) (run : outcome main.UploadResponse * World) : Prop :=
  match main.content_type file with
  | None =>
      run = (Raise (AttributeError "'NoneType' object has no attribute 'startswith'"), w)
  | Some c =>
      if pystr.startswith c prefix then True
      else run = (Raise (HTTPException 400 detail), w)
  end.

(** What an upload handler that returns has done: the upload is stored
    under [upload_path], where [os.path.getsize] finds the recorded
    original size; one message, [msg], was given to the broker; the new
    record carries the path and the size; no other record changed and no
    encoder ran. *)
Definition upload_stored (uuid4 : string) (file : main.UploadFile) (msg : CeleryMessage)
    (w : World) (run : outcome main.UploadResponse * World) : Prop :=
  match run with
  | (Ok _, w') =>
      files w' = <[upload_path uuid4 file := main.content file]> (files w)
      ∧ celery_queue w' = (celery_queue w ++ [msg])%list
      ∧ ffmpeg_runs w' = ffmpeg_runs w
      ∧ ∃ t, main_tasks w' = <[uuid4 := t]> (main_tasks w)
             ∧ models.file_path t = upload_path uuid4 file
             ∧ models.original_filename t = main.filename file
             ∧ os.getsize (models.file_path t) w' = (Ok (models.original_size t), w')
  | (Raise _, _) => True
  end.

(** What the two query handlers answer right after an upload returned:
    the status query reports the job as processing with progress 0, the
    size of the upload and no result, and the download is refused. *)
Definition polled_as_processing (file : main.UploadFile)
    (run : outcome main.UploadResponse * World) : Prop :=
  match run with
  | (Ok response, w') =>
      main.get_task_status (main.response_task_id response) w'
      = (Ok {| main.status_task_id := main.response_task_id response;
               main.status_status := "processing";
               main.status_progress := 0;
               main.status_original_size := Z.of_nat (length (main.content file));
               main.status_compressed_size := None;
               main.status_compression_ratio := None;
               main.status_download_url := None;
               main.status_error := None |}, w')
      ∧ main.download_compressed_file (main.response_task_id response) w'
        = (Raise (HTTPException 400 "Task not completed"), w')
  | (Raise _, _) => True
  end.

(** A call of a worker task with its arguments. *)
Inductive TaskCall :=
| CallImage (task_id file_path : string) (quality : Z) (adaptive_mode : bool)
| CallAudio (task_id file_path : string) (bitrate : Q)
| CallVideo (task_id file_path : string) (quality : Z) (adaptive_mode : bool).

Definition run_task (env : Env) (c : TaskCall) : Py tasks.TaskReturn :=
  match c with
  | CallImage task_id file_path quality adaptive_mode =>
      tasks.compress_image env task_id file_path quality adaptive_mode
  | CallAudio task_id file_path bitrate =>
      tasks.compress_audio env task_id file_path bitrate
  | CallVideo task_id file_path quality adaptive_mode =>
      tasks.compress_video env task_id file_path quality adaptive_mode
  end.

(** The world after a sequence of worker task calls. *)
Definition run_tasks (env : Env) (calls : list TaskCall) (w : World) : World :=
  fold_left (λ w c, (run_task env c w).2) calls w.

(** One operation of the backend: a request to one of the five handlers
    of [main.py], or a run of one of the three tasks of [tasks.py]. *)
Inductive Operation :=
| UploadImage (uuid4 : string) (file : main.UploadFile) (quality : Z) (adaptive_mode : bool)
| UploadAudio (uuid4 : string) (file : main.UploadFile) (bitrate : Q)
| UploadVideo (uuid4 : string) (file : main.UploadFile) (quality : Z) (adaptive_mode : bool)
| GetStatus (task_id : string)
| Download (task_id : string)
| RunTask (c : TaskCall).

(** The world after an operation, whatever it answered. *)
Definition perform (env : Env) (op : Operation) (w : World) : World :=
  match op with
  | UploadImage uuid4 file quality adaptive_mode =>
      (main.upload_image env uuid4 file quality adaptive_mode w).2
  | UploadAudio uuid4 file bitrate => (main.upload_audio env uuid4 file bitrate w).2
  | UploadVideo uuid4 file quality adaptive_mode =>
      (main.upload_video env uuid4 file quality adaptive_mode w).2
  | GetStatus task_id => (main.get_task_status task_id w).2
  | Download task_id => (main.download_compressed_file task_id w).2
  | RunTask c => (run_task env c w).2
  end.

Definition perform_all (env : Env) (ops : list Operation) (w : World) : World :=
  fold_left (λ w op, perform env op w) ops w.

(** A job record as the upload handlers leave it: processing, progress 0,
    no result and no error. *)
Definition untouched_job (t : models.CompressionTask) : Prop :=
  models.status t = models.PROCESSING
  ∧ models.progress t = 0
  ∧ models.compressed_file_path t = None
  ∧ models.compressed_size t = None
  ∧ models.compression_ratio t = None
  ∧ models.error_message t = None.

(** [keeps_main m]: [m] does not write to the job table of [main.py]. *)
Definition keeps_main {A} (m : Py A) : Prop :=
  ∀ w, main_tasks (m w).2 = main_tasks w.

(** A session: an image is uploaded, its task runs, the job is queried and
    its download is asked for. *)
Definition session : list Operation :=
  [UploadImage "job" png_upload 80 true;
   RunTask (CallImage "job" "uploads/job_a.png" 80 true);
   GetStatus "job";
   Download "job"].

(** ** Definitions for the properties of the worker tasks *)

(** The job id a task call names, and the output path the task builds. *)
Definition call_id (c : TaskCall) : string :=
  match c with
  | CallImage task_id _ _ _ | CallAudio task_id _ _ | CallVideo task_id _ _ _ => task_id
  end.

Definition call_output (c : TaskCall) : string :=
  match c with
  | CallImage _ file_path _ _ | CallVideo _ file_path _ _ =>
      pathlib.joinpath "outputs" ("compressed_" ++ pathlib.name file_path)
  | CallAudio _ file_path _ =>
      pathlib.joinpath "outputs" ("compressed_" ++ pathlib.stem file_path ++ ".mp3")
  end.

(** The ["task_id"] entry of the dictionary a task returns. *)
Definition return_id (r : tasks.TaskReturn) : string :=
  match r with
  | tasks.ReturnSuccess task_id _ _ | tasks.ReturnFailure task_id _ => task_id
  end.

(** The fields of a record that describe the submission. *)
Definition same_submission (t t' : models.CompressionTask) : Prop :=
  models.id t' = models.id t
  ∧ models.file_type t' = models.file_type t
  ∧ models.original_filename t' = models.original_filename t
  ∧ models.original_size t' = models.original_size t
  ∧ models.file_path t' = models.file_path t
  ∧ models.created_at t' = models.created_at t
  ∧ models.completed_at t' = models.completed_at t
  ∧ models.quality t' = models.quality t
  ∧ models.adaptive_mode t' = models.adaptive_mode t
  ∧ models.bitrate t' = models.bitrate t.

(** The record [t'] a task leaves for the record [t] it found, by what the
    task returned. *)
Definition record_after (env : Env) (output_path : string)
    (t t' : models.CompressionTask) (r : tasks.TaskReturn) : Prop :=
  same_submission t t'
  ∧ match r with
    | tasks.ReturnSuccess _ size ratio =>
        models.status t' = models.COMPLETED
        ∧ models.progress t' = 100
        ∧ models.compressed_file_path t' = Some output_path
        ∧ models.compressed_size t' = Some size
        ∧ models.compression_ratio t' = Some ratio
        ∧ is_Some (models.ai_analysis t')
        ∧ models.error_message t' = models.error_message t
    | tasks.ReturnFailure _ error =>
        models.status t' = models.FAILED
        ∧ models.error_message t' = Some error
        ∧ models.progress t'
          = match mkdir_error env (pathlib.parent output_path) with
            | Some _ => 10
            | None => 30
            end
        ∧ models.compressed_file_path t' = models.compressed_file_path t
        ∧ models.compressed_size t' = models.compressed_size t
        ∧ models.compression_ratio t' = models.compression_ratio t
        ∧ models.ai_analysis t' = models.ai_analysis t
    end.

(** [c in s] for a character. *)
Fixpoint has_char (c : Ascii.ascii) (s : string) : bool :=
  match s with
  | EmptyString => false
  | String d s' => Ascii.eqb d c || has_char c s'
  end.

(** The file name a task gives its output. *)
Definition call_output_name (c : TaskCall) : string :=
  match c with
  | CallImage _ file_path _ _ | CallVideo _ file_path _ _ =>
      "compressed_" ++ pathlib.name file_path
  | CallAudio _ file_path _ =>
      "compressed_" ++ pathlib.stem file_path ++ ".mp3"
  end.

(** ** Definitions for the properties of the engine *)

(** A run whose successful result reports an adaptive analysis with [n]
    regions, and is otherwise the given run. *)
Definition with_regions (n : Z)
    (run : outcome compression_engine.CompressionResult * World)
    : outcome compression_engine.CompressionResult * World :=
  match run with
  | (Ok (compression_engine.Success original compressed ratio _), w') =>
      (Ok (compression_engine.Success original compressed ratio
             (models.RegionAnalysis true n)), w')
  | other => other
  end.

(** The regions [compress_image] works with: those of the detector in
    adaptive mode, none otherwise. *)
Definition image_regions (env : Env) (adaptive : bool) (image : Image env)
    : outcome (list compression_engine.Region) :=
  if adaptive then
    match detectMultiScale env (array_bgr env image) with
    | Raise e => Raise e
    | Ok faces =>
        match findContours_Canny env (cvtColor_gray env (array_bgr env image)) with
        | Raise e => Raise e
        | Ok contours => Ok (detected_regions faces (map (boundingRect env) contours))
        end
    end
  else Ok [].

(** The image [compress_image] saves: what the neural model makes of the
    decoded image when the model is loaded and its library was imported,
    the decoded image itself otherwise. *)
Definition image_to_save (env : Env) (image : Image env) : outcome (Image env) :=
  match image_model env with
  | Some model => if COMPRESSAI_AVAILABLE env then model image else Ok image
  | None => Ok image
  end.

(** The audio model [compress_audio] uses: the loaded model when its
    library was imported. *)
Definition neural_audio_model (env : Env) : option (ndarray env → outcome (ndarray env)) :=
  if ENCODEC_AVAILABLE env then audio_model env else None.

(** The regions [compress_video] counts: the faces of the sampled frames in
    adaptive mode, none otherwise. *)
Definition video_regions (env : Env) (adaptive : bool) (source : bytes)
    : outcome (list compression_engine.Region) :=
  if adaptive
  then sampled_faces env (sampled_frames (VideoCapture env (Some source))) 0
  else Ok [].

(** The encoder invocation of the video methods for a rate-control value. *)
Definition video_run (input output : string) (rate : pyfloat.float) : FfmpegRun :=
  {| run_input := input;
     run_output := output;
     run_kwargs :=
       {| vcodec := Some "libx264"; crf := Some rate; preset := Some "medium";
          acodec := Some "aac"; audio_bitrate := Some "128k" |} |}.

(** [int(bitrate * 1000)]: the number the classical audio method writes
    into the bit rate of its encoder invocation. *)
Definition audio_bits (bitrate : Q) : outcome Z :=
  pyfloat.to_int (pyfloat.mul (pyfloat.Finite bitrate) (pyfloat.Finite 1000)).

(** The encoder invocation of the classical audio method for a bit rate
    number. *)
Definition audio_run (input : string) (bits : Z) : FfmpegRun :=
  {| run_input := input;
     run_output := pystr.replace input ".wav" "_compressed.mp3";
     run_kwargs :=
       {| vcodec := None; crf := None; preset := None; acodec := Some "mp3";
          audio_bitrate := Some (pretty bits) |} |}.

(** The sizes of a successful result are measured on the files: the
    original size is the size [input] had when the method was called, the
    compressed size is the size [artifact] has when it returns. *)
Definition sizes_measured (input artifact : string) (w : World)
    (run : outcome compression_engine.CompressionResult * World) : Prop :=
  match run with
  | (Ok (compression_engine.Success original compressed _ _), w') =>
      (λ data, Z.of_nat (length data)) <$> files w !! input = Some original
      ∧ (λ data, Z.of_nat (length data)) <$> files w' !! artifact = Some compressed
  | _ => True
  end.

(** The file an audio compression measures: the given output path on the
    neural path, the input path with [.wav] replaced on the classical
    one. *)
Definition audio_artifact (env : Env) (input output : string) : string :=
  if bool_decide (is_Some (audio_model env)) && ENCODEC_AVAILABLE env
  then output
  else pystr.replace input ".wav" "_compressed.mp3".

(** [old in s] for strings. *)
Fixpoint occurs (old s : string) : bool :=
  String.prefix old s
  || match s with
     | EmptyString => false
     | String _ s' => occurs old s'
     end.

(** The one file a task may write. *)
Definition written_path (env : Env) (c : TaskCall) : string :=
  match c with
  | CallAudio _ file_path _ => audio_artifact env file_path (call_output c)
  | _ => call_output c
  end.

(** The source path of a task call. *)
Definition call_source (c : TaskCall) : string :=
  match c with
  | CallImage _ file_path _ _ | CallAudio _ file_path _ | CallVideo _ file_path _ _ =>
      file_path
  end.

(** A task ended in the failure [message] without touching a file or
    invoking the encoder, and left the job, if the table has it, Failed
    with that message at progress 30. *)
Definition failed_at_checkpoint_30 (task_id message : string) (w : World)
    (run : outcome tasks.TaskReturn * World) : Prop :=
  ∃ w', run = (Ok (tasks.ReturnFailure task_id message), w')
        ∧ files w' = files w
        ∧ ffmpeg_runs w' = ffmpeg_runs w
        ∧ match tasks_tasks w !! task_id with
          | Some _ =>
              ∃ t', tasks_tasks w' !! task_id = Some t'
                    ∧ models.status t' = models.FAILED
                    ∧ models.progress t' = 30
                    ∧ models.error_message t' = Some message
          | None => tasks_tasks w' = tasks_tasks w
          end.

(** An installation whose image decoder rejects every file. *)
Definition corrupt_env : Env :=
  {| Image := unit;
     ndarray := bbox;
     COMPRESSAI_AVAILABLE := false;
     ENCODEC_AVAILABLE := false;
     image_model := None;
     audio_model := None;
     Image_decode := λ _, Raise (LibraryError "cannot identify image file");
     Image_encode := λ _ _ _, Ok (zeros 50);
     array_bgr := λ _, (0, 0, 0, 0);
     cvtColor_gray := λ a, a;
     detectMultiScale := λ _, Ok [];
     findContours_Canny := λ _, Ok [];
     boundingRect := λ c, c;
     librosa_load := λ _, Ok (0, 0, 0, 0);
     tobytes := λ _, [];
     ffmpeg := λ _ _, Ok (zeros 40);
     ffmpeg_partial := λ _ _, None;
     VideoCapture := λ f, {| isOpened := bool_decide (is_Some f); frames := [] |};
     mkdir_error := λ _, None;
     open_wb_error := λ _, None;
     send_task_error := λ _, None;
     import_time := 0 |}.

(** ** Checks of the string and path functions *)

Example replace_wav :
  pystr.replace "uploads/a.wav" ".wav" "_compressed.mp3" = "uploads/a_compressed.mp3".
Proof. reflexivity. Qed.

Example replace_no_wav :
  pystr.replace "uploads/a.flac" ".wav" "_compressed.mp3" = "uploads/a.flac".
Proof. reflexivity. Qed.

Example stem_wav : pathlib.stem "uploads/a.wav" = "a".
Proof. reflexivity. Qed.

Example stem_two_suffixes : pathlib.stem "uploads/a.tar.gz" = "a.tar".
Proof. reflexivity. Qed.

Example name_nested : pathlib.name "uploads//x/./clip.mp4" = "clip.mp4".
Proof. reflexivity. Qed.

Example joinpath_outputs :
  pathlib.joinpath "outputs" "compressed_a.mp3" = "outputs/compressed_a.mp3".
Proof. reflexivity. Qed.

Example parent_outputs : pathlib.parent "outputs/compressed_a.mp3" = "outputs".
Proof. reflexivity. Qed.

(** ** Checks of [repr] and of the double arithmetic *)

Example repr_plain : pystr.repr "uploads/a.png" = "'uploads/a.png'".
Proof. reflexivity. Qed.

(** A name with an apostrophe is written in double quotes. *)
Example repr_apostrophe :
  pystr.repr "it's.png" = String "034" ("it's.png" ++ String "034" "").
Proof. reflexivity. Qed.

(** With both kinds of quotes the single quote is used and escaped. *)
Example repr_both_quotes :
  pystr.repr (String "a" (String "'" (String "034" "c")))
  = "'a\'" ++ String "034" "c'".
Proof. reflexivity. Qed.

Example repr_backslash : pystr.repr "a\b" = "'a\\b'".
Proof. reflexivity. Qed.

Example repr_control :
  pystr.repr (String "a" (String "010" (String "127" (String "000" "b"))))
  = "'a\n\x7f\x00b'".
Proof. reflexivity. Qed.

(** [int(6.0 * 1000)] *)
Example audio_bits_default : audio_bits 6.0 = Ok 6000.
Proof. vm_compute. reflexivity. Qed.

(** [int(0.57 * 1000)] is 570: the double 0.57 is a little less than
    57/100 and the exact product a little less than 570, but the product
    of the doubles is rounded, to 570.0. *)
Example audio_bits_rounds_up :
  audio_bits (5134103575202365 # 9007199254740992) = Ok 570.
Proof. vm_compute. reflexivity. Qed.

(** [int(1.001 * 1000)] is 1000: the double 1.001 is a little more than
    1001/1000, and the product of the doubles is rounded to the double
    below 1001. *)
Example audio_bits_rounds_down :
  audio_bits (2254051613498933 # 2251799813685248) = Ok 1000.
Proof. vm_compute. reflexivity. Qed.

(** [int(2.0 ** 1023 * 1000)]: the product is infinite. *)
Example audio_bits_overflow :
  audio_bits (inject_Z (2 ^ 1023))
  = Raise (OverflowError "cannot convert float infinity to integer").
Proof. vm_compute. reflexivity. Qed.

(** [float(2 ** 53 + 1)] and [float(2 ** 53 + 3)]: ties go to the even
    neighbour. *)
Example of_int_ties_to_even :
  pyfloat.of_int (2 ^ 53 + 1) = Ok (pyfloat.Finite (inject_Z (2 ^ 53)))
  ∧ pyfloat.of_int (2 ^ 53 + 3) = Ok (pyfloat.Finite (inject_Z (2 ^ 53 + 4))).
Proof. split; vm_compute; reflexivity. Qed.

(** The largest [int] that [float] converts, and the least that raises. *)
Example of_int_range :
  pyfloat.of_int (2 ^ 1024 - 2 ^ 970 - 1)
  = Ok (pyfloat.Finite (inject_Z (2 ^ 1024 - 2 ^ 971)))
  ∧ pyfloat.of_int (2 ^ 1024 - 2 ^ 970)
    = Raise (OverflowError "int too large to convert to float").
Proof. split; vm_compute; reflexivity. Qed.

(** Half of the least subnormal double is rounded to zero, one and a half
    times it to twice it. *)
Example round_subnormal :
  (∃ x, pyfloat.round (1 # Z.to_pos (2 ^ 1075)) = pyfloat.Finite x ∧ (x == 0)%Q)
  ∧ (∃ x, pyfloat.round (3 # Z.to_pos (2 ^ 1075)) = pyfloat.Finite x
          ∧ (x == 1 # Z.to_pos (2 ^ 1073))%Q).
Proof. split; eexists; (split; [vm_compute; reflexivity|]); vm_compute; reflexivity. Qed.

(** ** Reasoning about [Py] computations *)

Lemma wp_ret {A} (a : A) Q w : Q (Ok a) w → wp (mret a) Q w.
Proof. done. Qed.

Lemma wp_raise {A} e (Q : outcome A → World → Prop) w : Q (Raise e) w → wp (raise e) Q w.
Proof. done. Qed.

Lemma wp_call {A} (o : outcome A) Q w : Q o w → wp (call o) Q w.
Proof. done. Qed.

Lemma wp_bind {A B} (m : Py A) (k : A → Py B) Q w :
  wp m (λ o w', match o with
                | Ok a => wp (k a) Q w'
                | Raise e => Q (Raise e) w'
                end) w →
  wp (m ≫= k) Q w.
Proof.
  unfold wp, mbind, Py_bind, bind. destruct (m w) as [[a|e] w']; done.
Qed.

Lemma wp_try {A} (body : Py A) (handler : exn → Py A) Q w :
  wp body (λ o w', match o with
                   | Ok a => Q (Ok a) w'
                   | Raise e => wp (handler e) Q w'
                   end) w →
  wp (try_except body handler) Q w.
Proof.
  unfold wp, try_except. destruct (body w) as [[a|e] w']; done.
Qed.

Lemma wp_mono {A} (m : Py A) (Q Q' : outcome A → World → Prop) w :
  (∀ o w', Q o w' → Q' o w') → wp m Q w → wp m Q' w.
Proof. unfold wp. auto. Qed.

(** A postcondition that holds after every exception and after every
    continuation holds after the bind, whatever its first part does. *)
Lemma wp_bind_any {A B} (m : Py A) (k : A → Py B) (Q : outcome B → World → Prop) w :
  (∀ e w', Q (Raise e) w') →
  (∀ a w', wp (k a) Q w') →
  wp (m ≫= k) Q w.
Proof.
  intros HR Hk. apply wp_bind. unfold wp at 1.
  destruct (m w) as [[a|e] w']; simpl; auto.
Qed.

Lemma keeps_ret {A} (a : A) : keeps (mret a).
Proof. done. Qed.

Lemma keeps_raise {A} e : keeps (@raise A e).
Proof. done. Qed.

Lemma keeps_call {A} (o : outcome A) : keeps (call o).
Proof. done. Qed.

Lemma keeps_bind {A B} (m : Py A) (k : A → Py B) :
  keeps m → (∀ a, keeps (k a)) → keeps (m ≫= k).
Proof.
  intros Hm Hk w. unfold mbind, Py_bind, bind.
  destruct (Hm w) as [H1 H2]. destruct (m w) as [[a|e] w']; simpl in *; [|done].
  destruct (Hk a w') as [H3 H4]. split; congruence.
Qed.

Lemma keeps_try {A} (body : Py A) (handler : exn → Py A) :
  keeps body → (∀ e, keeps (handler e)) → keeps (try_except body handler).
Proof.
  intros Hm Hk w. unfold try_except.
  destruct (Hm w) as [H1 H2]. destruct (body w) as [[a|e] w']; simpl in *; [done|].
  destruct (Hk e w') as [H3 H4]. split; congruence.
Qed.

Lemma keeps_getsize p : keeps (os.getsize p).
Proof. intros w. unfold os.getsize. by destruct (files w !! p). Qed.

Lemma keeps_read p : keeps (os.read p).
Proof. intros w. unfold os.read. by destruct (files w !! p). Qed.

Lemma keeps_exists p : keeps (os.exists_ p).
Proof. done. Qed.

Lemma keeps_write env p data : keeps (os.write env p data).
Proof. intros w. unfold os.write. by destruct (open_wb_error env p). Qed.

Lemma keeps_mkdir env p : keeps (os.mkdir env p).
Proof. unfold os.mkdir. destruct (mkdir_error env p); [apply keeps_raise | apply keeps_ret]. Qed.

Lemma keeps_truediv a b : keeps (truediv a b).
Proof. unfold truediv. case_decide; [apply keeps_raise | apply keeps_ret]. Qed.

Lemma keeps_ffmpeg_run env i o kw : keeps (compression_engine.ffmpeg_run env i o kw).
Proof.
  intros w. unfold compression_engine.ffmpeg_run.
  destruct (ffmpeg env _ _); [done|]. by destruct (ffmpeg_partial env _ _).
Qed.

Create HintDb keeps.
#[local] Hint Resolve keeps_ret keeps_raise keeps_call keeps_getsize keeps_read
  keeps_exists keeps_write keeps_mkdir keeps_truediv keeps_ffmpeg_run : keeps.

(** Breaks a computation down along its binds and branches. *)
Ltac keeps_step :=
  match goal with
  | |- keeps (_ ≫= _) => apply keeps_bind; [| intros]
  | |- keeps (try_except _ _) => apply keeps_try; [| intros]
  | |- keeps (if ?c then _ else _) => destruct c
  | |- keeps (match ?x with _ => _ end) => destruct x
  | |- keeps _ => solve [eauto with keeps]
  end.

Ltac solve_keeps := repeat keeps_step.

(** ** Loops of the detectors *)

Lemma fold_left_append {A B} (f : A → B) (l : list A) (init : list B) :
  fold_left (λ acc a, acc ++ [f a])%list l init = (init ++ map f l)%list.
Proof.
  revert init. induction l as [|a l IH]; intros init; simpl.
  - by rewrite app_nil_r.
  - rewrite IH. by rewrite <- app_assoc.
Qed.

Lemma fold_left_contours env (contours : list (ndarray env)) init :
  fold_left
    (λ regions contour,
       let '(x, y, w, h) := boundingRect env contour in
       if (50 <? w) && (20 <? h)
       then (regions ++ [{| compression_engine.type := compression_engine.text_candidate;
                            compression_engine.region_bbox := (x, y, w, h);
                            compression_engine.frame := None;
                            compression_engine.importance := 0.7%Q |}])%list
       else regions)
    contours init
  = (init ++ map text_region
               (filter (λ b, passes_size_filter b = true)
                       (map (boundingRect env) contours)))%list.
Proof.
  revert init. induction contours as [|c cs IH]; intros init; simpl.
  - by rewrite app_nil_r.
  - rewrite IH. destruct (boundingRect env c) as [[[x y] w] h] eqn:E.
    rewrite filter_cons.
    change (passes_size_filter (x, y, w, h)) with ((50 <? w) && (20 <? h)).
    destruct ((50 <? w) && (20 <? h)); simpl.
    + by rewrite <- app_assoc.
    + done.
Qed.

Lemma detect_important_regions_run env image w :
  compression_engine._detect_important_regions env image w
  = (match detectMultiScale env (array_bgr env image) with
     | Raise e => Raise e
     | Ok faces =>
         match findContours_Canny env (cvtColor_gray env (array_bgr env image)) with
         | Raise e => Raise e
         | Ok contours => Ok (detected_regions faces (map (boundingRect env) contours))
         end
     end, w).
Proof.
  unfold compression_engine._detect_important_regions, mbind, Py_bind, bind, call.
  destruct (detectMultiScale env _) as [faces|e]; [|done].
  destruct (findContours_Canny env _) as [contours|e]; [|done].
  unfold mret, Py_ret, ret. f_equal. f_equal.
  rewrite fold_left_contours, fold_left_append. done.
Qed.

Lemma detected_regions_allowed faces rects :
  Forall region_allowed (detected_regions faces rects).
Proof.
  unfold detected_regions. apply Forall_app. split.
  - apply List.Forall_forall. intros r Hr. apply in_map_iff in Hr.
    destruct Hr as (b & <- & _). done.
  - apply List.Forall_forall. intros r Hr. apply in_map_iff in Hr.
    destruct Hr as (b & <- & Hb).
    apply list_elem_of_In, list_elem_of_filter in Hb as [Hb _].
    destruct b as [[[x y] w] h].
    unfold passes_size_filter in Hb. simpl in Hb.
    apply andb_true_iff in Hb as [H1%Z.ltb_lt H2%Z.ltb_lt].
    unfold region_allowed. simpl. done.
Qed.

(** ** The importance detector (C6) *)

(** C6, as amended: for every image passed to the importance detector, the
    returned regions are the faces the face detector found, each with
    weight 1.0 and whatever its size, followed by the bounding rectangles
    of the contours that are wider than 50 and higher than 20, each a
    text_candidate of weight 0.7; contours of width at most 50 or height
    at most 20 are excluded.  If the face detector or the contour finder
    raises, the detector raises the same exception. *)
Theorem detector_filters_text_candidates_only env image w :
  ∃ o, compression_engine._detect_important_regions env image w = (o, w)
    ∧ match o with
      | Ok regions =>
          Forall region_allowed regions
          ∧ ∃ faces contours,
              detectMultiScale env (array_bgr env image) = Ok faces
              ∧ findContours_Canny env (cvtColor_gray env (array_bgr env image)) = Ok contours
              ∧ regions
                = (map face_region faces
                   ++ map text_region
                        (filter (λ b, passes_size_filter b = true)
                                (map (boundingRect env) contours)))%list
      | Raise e =>
          detectMultiScale env (array_bgr env image) = Raise e
          ∨ findContours_Canny env (cvtColor_gray env (array_bgr env image)) = Raise e
      end.
Proof.
  eexists. split; [apply detect_important_regions_run|].
  destruct (detectMultiScale env _) as [faces|e]; [|by left].
  destruct (findContours_Canny env _) as [contours|e]; [|by right].
  split; [apply detected_regions_allowed|]. by exists faces, contours.
Qed.

(** C6 as stated fails: a face 30 pixels wide and 30 high is returned,
    although its width is at most 50. *)
Lemma detector_returns_small_face :
  ∃ r regions,
    compression_engine._detect_important_regions
      (test_env [(10, 10, 30, 30)] [] (Ok []) []) tt empty_world
    = (Ok regions, empty_world)
    ∧ r ∈ regions
    ∧ compression_engine.width (compression_engine.region_bbox r) ≤ 50.
Proof.
  exists (face_region (10, 10, 30, 30)), [face_region (10, 10, 30, 30)].
  split; [reflexivity|]. split; [apply list_elem_of_here | simpl; lia].
Qed.

(** ** Video region analysis (C7) *)

Lemma analyze_video_loop_run env opened remaining frame_count acc w :
  0 ≤ frame_count →
  compression_engine._analyze_video_loop env opened remaining frame_count acc w
  = (match sampled_faces env
             (if opened then take (Z.to_nat (10 - frame_count)) remaining else [])
             frame_count with
     | Ok regions => Ok (acc ++ regions)%list
     | Raise e => Raise e
     end, w).
Proof.
  revert frame_count acc.
  induction remaining as [|f rest IH]; intros frame_count acc Hfc.
  - simpl. rewrite take_nil.
    destruct opened, (frame_count <? 10); simpl; by rewrite app_nil_r.
  - simpl. destruct opened; simpl; [|by rewrite app_nil_r].
    destruct (Z.ltb_spec frame_count 10) as [Hlt|Hge].
    + replace (Z.to_nat (10 - frame_count))
        with (S (Z.to_nat (10 - (frame_count + 1)))) by lia.
      simpl. unfold mbind, Py_bind, bind, call.
      destruct (detectMultiScale env _) as [faces|e]; [|done].
      rewrite IH by lia. rewrite fold_left_append.
      destruct (sampled_faces env _ _) as [regions|e]; [|done].
      by rewrite app_assoc.
    + replace (Z.to_nat (10 - frame_count)) with O by lia.
      simpl. by rewrite app_nil_r.
Qed.

Lemma analyze_video_regions_run env video_path w :
  compression_engine._analyze_video_regions env video_path w
  = (sampled_faces env (sampled_frames (VideoCapture env (files w !! video_path))) 0, w).
Proof.
  unfold compression_engine._analyze_video_regions.
  rewrite analyze_video_loop_run by lia. unfold sampled_frames.
  change (Z.to_nat (10 - 0)) with 10%nat.
  by destruct (sampled_faces env _ 0).
Qed.

Lemma sampled_faces_tagged env fs i :
  match sampled_faces env fs i with
  | Ok regions =>
      Forall (λ r, compression_engine.type r = compression_engine.face
                   ∧ compression_engine.importance r = 1.0%Q
                   ∧ ∃ k, compression_engine.frame r = Some k
                          ∧ i ≤ k < i + Z.of_nat (length fs)) regions
  | Raise _ => True
  end.
Proof.
  revert i. induction fs as [|f rest IH]; intros i; simpl; [by constructor|].
  destruct (detectMultiScale env _) as [faces|e]; [|done].
  specialize (IH (i + 1)). destruct (sampled_faces env rest (i + 1)) as [regions|e]; [|done].
  apply Forall_app. split.
  - apply List.Forall_forall. intros r Hr. apply in_map_iff in Hr.
    destruct Hr as (b & <- & _). simpl. split; [done|]. split; [done|].
    exists i. split; [done | lia].
  - eapply Forall_impl; [exact IH|]. simpl.
    intros r (Ht & Hi & k & Hk & Hrange). split; [done|]. split; [done|].
    exists k. split; [done | lia].
Qed.

(** C7, as amended: for every video input, region analysis samples the
    first ten frames of the capture, fewer when the capture is not opened
    or a read fails before ten frames were read, applies the face detector
    alone to the grey version of each sampled frame (no text candidates
    are looked for), and returns, in frame order, one face region of weight
    1.0 per detected face, tagged with the index of its frame. *)
Theorem video_analysis_samples_faces_only env video_path w :
  let cap := VideoCapture env (files w !! video_path) in
  compression_engine._analyze_video_regions env video_path w
  = (sampled_faces env (sampled_frames cap) 0, w)
  ∧ length (sampled_frames cap)
    = (if isOpened cap then Nat.min 10 (length (frames cap)) else 0)%nat
  ∧ sampled_frames cap `prefix_of` frames cap
  ∧ match sampled_faces env (sampled_frames cap) 0 with
    | Ok regions => Forall (video_region_ok (length (sampled_frames cap))) regions
    | Raise _ => True
    end.
Proof.
  intros cap. split; [|split; [|split]].
  - unfold compression_engine._analyze_video_regions. fold cap.
    rewrite analyze_video_loop_run by lia. unfold sampled_frames.
    change (Z.to_nat (10 - 0)) with 10%nat.
    by destruct (sampled_faces env _ 0).
  - unfold sampled_frames. destruct (isOpened cap); [|done].
    by rewrite length_take.
  - unfold sampled_frames. destruct (isOpened cap).
    + eexists. symmetry. apply take_drop.
    + apply prefix_nil.
  - pose proof (sampled_faces_tagged env (sampled_frames cap) 0) as H.
    destruct (sampled_faces env _ 0) as [regions|e]; [|done].
    eapply Forall_impl; [exact H|]. simpl.
    intros r (Ht & Hi & k & Hk & Hrange). repeat split; try done.
    exists k. split; [done | lia].
Qed.

(** C7 as stated fails: on a one-frame video in which the contour finder
    sees a contour 100 wide and 100 high and the face detector sees no
    face, the image detector applied to the frame gives one text
    candidate, and video analysis gives no region. *)
Lemma video_analysis_finds_no_text_candidate :
  (compression_engine._analyze_video_regions
     (test_env [] [(0, 0, 100, 100)] (Ok []) [(0, 0, 0, 0)])
     "uploads/v.mp4" (world_with_file "uploads/v.mp4" 1)).1
  = Ok []
  ∧ image_detector_on_frames
      (test_env [] [(0, 0, 100, 100)] (Ok []) [(0, 0, 0, 0)])
      (sampled_frames
         (VideoCapture (test_env [] [(0, 0, 100, 100)] (Ok []) [(0, 0, 0, 0)])
            (files (world_with_file "uploads/v.mp4" 1) !! "uploads/v.mp4")))
      0
    = Ok [{| compression_engine.type := compression_engine.text_candidate;
             compression_engine.region_bbox := (0, 0, 100, 100);
             compression_engine.frame := Some 0;
             compression_engine.importance := 0.7%Q |}].
Proof. split; vm_compute; reflexivity. Qed.

(** ** The video rate-control value (C8) *)

Lemma ffmpeg_run_logged env input output kw w :
  ffmpeg_runs (compression_engine.ffmpeg_run env input output kw w).2
  = (ffmpeg_runs w
     ++ [{| run_input := input; run_output := output; run_kwargs := kw |}])%list.
Proof.
  unfold compression_engine.ffmpeg_run.
  destruct (ffmpeg env _ _); [done|]. by destruct (ffmpeg_partial env _ _).
Qed.

(** Both video helpers evaluate [51 - (quality * 0.5)] and invoke the
    encoder once with the result; when [float(quality)] overflows they
    raise before any invocation. *)
Lemma video_helper_run env adaptive input output quality regions w :
  match pyfloat.of_int quality with
  | Ok x =>
      encoder_crf env adaptive input output quality regions w
      = [pyfloat.sub (pyfloat.Finite 51) (pyfloat.mul x (pyfloat.Finite (1 # 2)))]
  | Raise e =>
      encoder_crf env adaptive input output quality regions w = []
      ∧ video_helper_outcome env adaptive input output quality regions w = Raise e
  end.
Proof.
  unfold encoder_crf, video_helper_outcome, new_runs.
  assert (∀ kw, ffmpeg_runs
            ((compression_engine.ffmpeg_run env input output kw
              ≫= λ _, mret output) w).2
          = (ffmpeg_runs w ++ [{| run_input := input; run_output := output;
                                  run_kwargs := kw |}])%list) as Hlog.
  { intros kw. unfold mbind, Py_bind, bind.
    pose proof (ffmpeg_run_logged env input output kw w) as H.
    by destruct (compression_engine.ffmpeg_run env input output kw w) as [[[]|e] w']. }
  destruct (pyfloat.of_int quality) as [x|e] eqn:Hx.
  - destruct adaptive;
      unfold compression_engine._compress_video_adaptive,
             compression_engine._compress_video_standard;
      unfold mbind at 1, Py_bind at 1, bind at 1, call; rewrite Hx;
      rewrite Hlog, drop_app_length; reflexivity.
  - destruct adaptive;
      unfold compression_engine._compress_video_adaptive,
             compression_engine._compress_video_standard;
      unfold mbind at 1, Py_bind at 1, bind at 1, call; rewrite Hx; simpl;
      by rewrite drop_all.
Qed.

(** ** Double arithmetic of the rate-control value *)

(** A quotient without remainder is not rounded. *)
Lemma div_nearest_even_exact m d : 0 < d → pyfloat.div_nearest_even (m * d) d = m.
Proof.
  intros Hd. unfold pyfloat.div_nearest_even.
  rewrite Z.div_mul, Z.mod_mul by lia.
  destruct (Z.ltb_spec (2 * 0) d); [done | lia].
Qed.

(** A rational [k * 2 ^ (t - j)] whose [k] has at most 53 bits, and whose
    exponent is in the range of the normal doubles, is a double: rounding
    returns it, again with a power of two as denominator. *)
Lemma round_exact (x : Q) (k t j : Z) :
  Qnum x = k * 2 ^ t → Z.pos (Qden x) = 2 ^ j →
  k ≠ 0 → Z.abs k < 2 ^ 53 → 0 ≤ t → 0 ≤ j → j - t ≤ 1022 → t - j ≤ 971 →
  ∃ r t' j',
    pyfloat.round x = pyfloat.Finite r ∧ (r == x)%Q
    ∧ Qnum r = k * 2 ^ t' ∧ Z.pos (Qden r) = 2 ^ j'
    ∧ 0 ≤ t' ∧ 0 ≤ j' ∧ t' - j' = t - j.
Proof.
  intros Hn Hd Hk Hk53 Ht Hj Hlo Hhi.
  set (lk := Z.log2 (Z.abs k)).
  assert (0 < Z.abs k) as Hak by lia.
  assert (0 ≤ lk < 53) as Hlk.
  { split; [apply Z.log2_nonneg|]. apply Z.log2_lt_pow2; lia. }
  assert (2 ^ lk ≤ Z.abs k < 2 ^ (lk + 1)) as Hspec.
  { unfold lk. replace (lk + 1) with (Z.succ (Z.log2 (Z.abs k))) by (unfold lk; lia).
    apply Z.log2_spec. lia. }
  assert (0 < 2 ^ t) as Hpt by (apply Z.pow_pos_nonneg; lia).
  assert (0 < 2 ^ j) as Hpj by (apply Z.pow_pos_nonneg; lia).
  assert (Z.abs (Qnum x) = Z.abs k * 2 ^ t) as Ha by (rewrite Hn, Z.abs_mul; lia).
  assert (Z.log2 (Z.abs (Qnum x)) = lk + t) as Hla.
  { rewrite Ha. rewrite Z.log2_mul_pow2 by lia. unfold lk. lia. }
  assert (Z.log2 (2 ^ j) = j) as Hld by (apply Z.log2_pow2; lia).
  set (m := Z.abs k * 2 ^ (52 - lk)).
  assert (0 < 2 ^ (52 - lk)) as Hp52 by (apply Z.pow_pos_nonneg; lia).
  assert (pyfloat.floor_log2 (Z.abs (Qnum x)) (2 ^ j) = lk + t - j) as Hfl.
  { unfold pyfloat.floor_log2. rewrite Hla, Hld.
    destruct (Z.leb_spec 0 (lk + t - j)) as [Hg|Hg].
    - rewrite <- Z.pow_add_r by lia. replace (j + (lk + t - j)) with (lk + t) by lia.
      rewrite Z.pow_add_r by lia. rewrite Ha.
      destruct (Z.leb_spec (2 ^ lk * 2 ^ t) (Z.abs k * 2 ^ t)); [done | nia].
    - rewrite Ha. rewrite <- Z.mul_assoc, <- Z.pow_add_r by lia.
      replace (t + - (lk + t - j)) with (j - lk) by lia.
      replace (2 ^ j) with (2 ^ lk * 2 ^ (j - lk))
        by (rewrite <- Z.pow_add_r by lia; f_equal; lia).
      assert (0 < 2 ^ (j - lk)) by (apply Z.pow_pos_nonneg; lia).
      destruct (Z.leb_spec (2 ^ lk * 2 ^ (j - lk)) (Z.abs k * 2 ^ (j - lk))); [done | nia]. }
  set (e := lk + t - j - 52).
  assert (Z.max (pyfloat.floor_log2 (Z.abs (Qnum x)) (2 ^ j) - 52) (-1074) = e) as He.
  { rewrite Hfl. unfold e. lia. }
  assert (pyfloat.scaled_nearest_even (Z.abs (Qnum x)) (2 ^ j) e = m) as Hm.
  { unfold pyfloat.scaled_nearest_even. rewrite Ha.
    destruct (Z.leb_spec 0 e) as [Hge|Hlt].
    - replace (Z.abs k * 2 ^ t) with (m * (2 ^ j * 2 ^ e)).
      + apply div_nearest_even_exact.
        assert (0 < 2 ^ e) by (apply Z.pow_pos_nonneg; lia). nia.
      + unfold m. rewrite <- !Z.mul_assoc. f_equal.
        rewrite <- !Z.pow_add_r by lia. f_equal. unfold e. lia.
    - replace (Z.abs k * 2 ^ t * 2 ^ (- e)) with (m * 2 ^ j).
      + by apply div_nearest_even_exact.
      + unfold m. rewrite <- !Z.mul_assoc. f_equal.
        rewrite <- !Z.pow_add_r by lia. f_equal. unfold e. lia. }
  assert (m < 2 ^ 53) as Hm53.
  { unfold m. replace (2 ^ 53) with (2 ^ (lk + 1) * 2 ^ (52 - lk))
      by (rewrite <- Z.pow_add_r by lia; f_equal; lia). nia. }
  assert (Z.sgn (Qnum x) * m = k * 2 ^ (52 - lk)) as Hsm.
  { rewrite Hn. unfold m. rewrite Z.sgn_mul, (Z.sgn_pos (2 ^ t)) by lia.
    rewrite Z.mul_1_r, Z.mul_assoc. f_equal. by destruct k. }
  assert (pyfloat.round x = pyfloat.Finite (pyfloat.ldexp (Z.sgn (Qnum x) * m) e)) as Hr.
  { unfold pyfloat.round. rewrite Hd.
    destruct (Z.eqb_spec (Qnum x) 0) as [H0|_]; [nia|].
    cbv zeta. rewrite He, Hm.
    destruct (Z.ltb_spec 971 e); [unfold e in *; lia|].
    destruct (Z.leb_spec (2 ^ 53) m); [lia|].
    by rewrite andb_false_r. }
  unfold pyfloat.ldexp in Hr. rewrite Hsm in Hr.
  destruct (Z.leb_spec 0 e) as [Hge|Hlt].
  - exists (inject_Z (k * 2 ^ (52 - lk) * 2 ^ e)), (52 - lk + e), 0.
    split; [done|]. split; [|split; [|split; [done|split; [lia|split; [done|unfold e; lia]]]]].
    + unfold Qeq. simpl. rewrite Hn, Hd.
      rewrite <- !Z.mul_assoc. f_equal. rewrite Z.mul_1_r.
      rewrite <- !Z.pow_add_r by lia. f_equal. unfold e. lia.
    + simpl. rewrite <- Z.mul_assoc, <- Z.pow_add_r by lia. done.
  - assert (0 < 2 ^ (- e)) as Hpe by (apply Z.pow_pos_nonneg; lia).
    exists (k * 2 ^ (52 - lk) # Z.to_pos (2 ^ (- e))), (52 - lk), (- e).
    split; [done|]. split; [|split; [done|split; [|split; [lia|split; [lia|unfold e; lia]]]]].
    + unfold Qeq. simpl. rewrite Hn, Hd, Z2Pos.id by done.
      rewrite <- !Z.mul_assoc. f_equal.
      rewrite <- !Z.pow_add_r by lia. f_equal. unfold e. lia.
    + simpl. by rewrite Z2Pos.id.
Qed.

(** Up to [2 ^ 52] in magnitude, [51 - (quality * 0.5)] is computed without
    any rounding. *)
Lemma crf_exact quality :
  Z.abs quality ≤ 2 ^ 52 →
  ∃ x c,
    pyfloat.of_int quality = Ok x
    ∧ pyfloat.sub (pyfloat.Finite 51) (pyfloat.mul x (pyfloat.Finite (1 # 2)))
      = pyfloat.Finite c
    ∧ (c == 51 - inject_Z quality * (1 # 2))%Q.
Proof.
  intros Hq. destruct (decide (quality = 0)) as [->|Hq0].
  { eexists _, _. split; [reflexivity|]. split; [vm_compute; reflexivity | reflexivity]. }
  destruct (round_exact (inject_Z quality) quality 0 0)
    as (r1 & t1 & j1 & Hr1 & He1 & Hn1 & Hd1 & Ht1 & Hj1 & Htj1);
    [simpl; lia | done | done | lia | lia | lia | lia | lia |].
  destruct (round_exact (r1 * (1 # 2)) quality t1 (j1 + 1))
    as (r2 & t2 & j2 & Hr2 & He2 & Hn2 & Hd2 & Ht2 & Hj2 & Htj2);
    [simpl; lia
    |simpl; rewrite Pos2Z.inj_mul, Hd1, Z.pow_add_r by lia; lia
    |done | lia | lia | lia | lia | lia |].
  assert (Qnum (51 - r2) = (102 - quality) * 2 ^ t2) as Hn3.
  { simpl. rewrite Hn2, Hd2. replace j2 with (t2 + 1) by lia.
    rewrite Z.pow_add_r by lia. lia. }
  assert (Z.pos (Qden (51 - r2)) = 2 ^ j2) as Hd3 by (simpl; done).
  exists (pyfloat.Finite r1).
  assert (pyfloat.of_int quality = Ok (pyfloat.Finite r1)) as Hx.
  { unfold pyfloat.of_int. by rewrite Hr1. }
  unfold pyfloat.mul, pyfloat.sub. rewrite Hr2.
  destruct (decide (quality = 102)) as [->|Hq102].
  - exists 0%Q. split; [done|]. split.
    + unfold pyfloat.round. rewrite Hn3. reflexivity.
    + unfold Qeq. vm_compute. reflexivity.
  - destruct (round_exact (51 - r2) (102 - quality) t2 j2)
      as (r3 & t3 & j3 & Hr3 & He3 & _);
      [done | done | lia | lia | lia | lia | lia | lia |].
    exists r3. split; [done|]. split; [done|].
    rewrite He3, He2, He1. reflexivity.
Qed.

(** C8: for every quality value passed to video compression, adaptive or
    standard, whose magnitude is at most 2^52 (the requested qualities
    1..100 are far inside), the encoder is invoked once, with the
    rate-control value 51 − quality × 0.5, which the double arithmetic of
    the code computes without rounding: 1 for quality 100, 26 for quality
    50, 51 for quality 0; nothing clamps it: quality 200 gives −49 and
    quality −10 gives 56. *)
Theorem video_rate_control_value env adaptive input output regions w quality :
  - 2 ^ 52 ≤ quality ≤ 2 ^ 52 →
  (∃ c, encoder_crf env adaptive input output quality regions w = [pyfloat.Finite c]
        ∧ (c == 51 - inject_Z quality * (1 # 2))%Q)
  ∧ (∃ c, encoder_crf env adaptive input output 100 regions w = [pyfloat.Finite c]
          ∧ (c == 1)%Q)
  ∧ (∃ c, encoder_crf env adaptive input output 50 regions w = [pyfloat.Finite c]
          ∧ (c == 26)%Q)
  ∧ (∃ c, encoder_crf env adaptive input output 0 regions w = [pyfloat.Finite c]
          ∧ (c == 51)%Q)
  ∧ (∃ c, encoder_crf env adaptive input output 200 regions w = [pyfloat.Finite c]
          ∧ (c == -49)%Q)
  ∧ (∃ c, encoder_crf env adaptive input output (-10) regions w = [pyfloat.Finite c]
          ∧ (c == 56)%Q).
Proof.
  intros Hq.
  assert (∀ q, Z.abs q ≤ 2 ^ 52 →
            ∃ c, encoder_crf env adaptive input output q regions w = [pyfloat.Finite c]
                 ∧ (c == 51 - inject_Z q * (1 # 2))%Q) as Hall.
  { intros q Hb. destruct (crf_exact q Hb) as (x & c & Hx & Hc & Heq).
    pose proof (video_helper_run env adaptive input output q regions w) as Hrun.
    rewrite Hx in Hrun. exists c. by rewrite Hrun, Hc. }
  split; [apply Hall; lia|].
  repeat split;
    match goal with
    | |- ∃ c, encoder_crf _ _ _ _ ?q _ _ = _ ∧ _ =>
        destruct (Hall q) as (c & Hc & Heq); [lia|];
        exists c; split; [exact Hc|]; rewrite Heq; reflexivity
    end.
Qed.

Lemma video_rate_control_value_witness :
  - 2 ^ 52 ≤ 100 ≤ 2 ^ 52
  ∧ ∃ c, encoder_crf fallback_env true "uploads/v.mp4" "outputs/compressed_v.mp4"
           100 [] (world_with_file "uploads/v.mp4" 100)
         = [pyfloat.Finite c]
         ∧ (c == 51 - inject_Z 100 * (1 # 2))%Q.
Proof.
  split; [lia|].
  eapply proj1, (video_rate_control_value fallback_env true "uploads/v.mp4"
           "outputs/compressed_v.mp4" [] (world_with_file "uploads/v.mp4" 100) 100).
  lia.
Defined.

(** Beyond [2 ^ 53] the value is that of the double arithmetic: for quality
    [2 ^ 53 + 1] the encoder is given −4503599627370445, where the exact
    value of 51 − quality × 0.5 would be −4503599627370445.5. *)
Remark video_rate_control_is_rounded env adaptive input output regions w :
  ∃ c, encoder_crf env adaptive input output (2 ^ 53 + 1) regions w = [pyfloat.Finite c]
       ∧ (c == -4503599627370445)%Q.
Proof.
  assert (∃ x c,
            pyfloat.of_int (2 ^ 53 + 1) = Ok x
            ∧ pyfloat.sub (pyfloat.Finite 51) (pyfloat.mul x (pyfloat.Finite (1 # 2)))
              = pyfloat.Finite c
            ∧ (c == -4503599627370445)%Q) as (x & c & Hx & Hc & Heq).
  { eexists _, _. split; [vm_compute; reflexivity|].
    split; vm_compute; reflexivity. }
  pose proof (video_helper_run env adaptive input output (2 ^ 53 + 1) regions w) as Hrun.
  rewrite Hx, Hc in Hrun. by exists c.
Qed.

(** A quality beyond the range of the doubles makes [quality * 0.5] raise
    [OverflowError]: the helper raises it and the encoder is not invoked. *)
Remark video_rate_control_overflow env adaptive input output regions w :
  encoder_crf env adaptive input output (10 ^ 400) regions w = []
  ∧ video_helper_outcome env adaptive input output (10 ^ 400) regions w
    = Raise (OverflowError "int too large to convert to float").
Proof.
  assert (pyfloat.of_int (10 ^ 400)
          = Raise (OverflowError "int too large to convert to float")) as Hx
    by (vm_compute; reflexivity).
  pose proof (video_helper_run env adaptive input output (10 ^ 400) regions w) as Hrun.
  by rewrite Hx in Hrun.
Qed.

(** ** The compression ratio (C1) *)

(** The last two statements of every [compress_*] body. *)
Lemma wp_ratio compressed_size original_size analysis w :
  wp (truediv compressed_size original_size
      ≫= λ q, mret (compression_engine.Success original_size compressed_size
                      ((1 - q) * 100)%Q analysis))
     (λ o _, match o with
             | Ok r => ratio_is_percentage (Ok r)
             | Raise _ => True
             end) w.
Proof.
  apply wp_bind. unfold truediv. case_decide; [done|].
  apply wp_ret. apply wp_ret. simpl. split; [done | reflexivity].
Qed.

Ltac wp_skip := apply wp_bind_any; [done | intros ? ?; cbv beta].

(** The postcondition of a [compress_*] body. *)
Ltac wp_ratio_post :=
  apply (wp_mono _ (λ o _, match o with
                           | Ok r => ratio_is_percentage (Ok r)
                           | Raise _ => True
                           end));
  [intros [?|?] ?; [done | intros _; exact I] |].

Lemma compress_image_ratio env input output quality adaptive w :
  ratio_is_percentage
    (compression_engine.compress_image env input output quality adaptive w).1.
Proof.
  change (wp (compression_engine.compress_image env input output quality adaptive)
             (λ o _, ratio_is_percentage o) w).
  unfold compression_engine.compress_image. apply wp_try.
  wp_ratio_post. do 4 wp_skip.
  destruct a2 as [compressed_image important_regions].
  do 2 wp_skip. apply wp_ratio.
Qed.

Lemma compress_audio_ratio env input output bitrate w :
  ratio_is_percentage (compression_engine.compress_audio env input output bitrate w).1.
Proof.
  change (wp (compression_engine.compress_audio env input output bitrate)
             (λ o _, ratio_is_percentage o) w).
  unfold compression_engine.compress_audio. apply wp_try.
  wp_ratio_post. do 3 wp_skip. apply wp_ratio.
Qed.

Lemma compress_video_ratio env input output quality adaptive w :
  ratio_is_percentage
    (compression_engine.compress_video env input output quality adaptive w).1.
Proof.
  change (wp (compression_engine.compress_video env input output quality adaptive)
             (λ o _, ratio_is_percentage o) w).
  unfold compression_engine.compress_video. apply wp_try.
  wp_ratio_post. do 3 wp_skip. apply wp_ratio.
Qed.

(** C1, as amended: for every completed compression (image, audio or
    video) the original size in the result is not zero and the
    compression_ratio in the result equals
    (1 − compressed_size/original_size) × 100, the percentage saved,
    computed from the two sizes of the same result; it is negative when the
    output is larger than the input: an encoder output of 200 bytes for an
    input of 100 bytes gives −100. *)
Theorem compression_ratio_is_percentage_saved env input output quality adaptive bitrate w :
  ratio_is_percentage
    (compression_engine.compress_image env input output quality adaptive w).1
  ∧ ratio_is_percentage
      (compression_engine.compress_audio env input output bitrate w).1
  ∧ ratio_is_percentage
      (compression_engine.compress_video env input output quality adaptive w).1
  ∧ ∃ ratio analysis,
      (compression_engine.compress_video (test_env [] [] (Ok (zeros 200)) [])
         "uploads/v.mp4" "outputs/compressed_v.mp4" 50 false
         (world_with_file "uploads/v.mp4" 100)).1
      = Ok (compression_engine.Success 100 200 ratio analysis)
      ∧ (ratio == -100)%Q.
Proof.
  split; [apply compress_image_ratio|].
  split; [apply compress_audio_ratio|].
  split; [apply compress_video_ratio|].
  eexists _, _. split; [vm_compute; reflexivity | reflexivity].
Qed.

(** C1 as stated fails: compressing a video of 100 bytes to 40 bytes
    stores the ratio 60, and 1 − 40/100 is 3/5. *)
Lemma compression_ratio_is_not_a_fraction :
  ∃ ratio analysis,
    (compression_engine.compress_video (test_env [] [] (Ok (zeros 40)) [])
       "uploads/v.mp4" "outputs/compressed_v.mp4" 50 false
       (world_with_file "uploads/v.mp4" 100)).1
    = Ok (compression_engine.Success 100 40 ratio analysis)
    ∧ (ratio == 60)%Q
    ∧ ¬ (ratio == 1 - inject_Z 40 / inject_Z 100)%Q.
Proof.
  eexists _, _. split; [vm_compute; reflexivity|]. split; [reflexivity | discriminate].
Qed.

(** ** The engine never raises (C5) *)

Lemma try_except_returns {A} (body : Py A) (handler : exn → Py A) w :
  (∀ e w', ∃ a w'', handler e w' = (Ok a, w'')) →
  ∃ a w', try_except body handler w = (Ok a, w').
Proof.
  intros Hh. unfold try_except. destruct (body w) as [[a|e] w']; eauto.
Qed.

Lemma compress_image_returns env input output quality adaptive w :
  ∃ r w', compression_engine.compress_image env input output quality adaptive w
          = (Ok r, w').
Proof. apply try_except_returns. intros e w'. by eexists _, _. Qed.

Lemma compress_audio_returns env input output bitrate w :
  ∃ r w', compression_engine.compress_audio env input output bitrate w = (Ok r, w').
Proof. apply try_except_returns. intros e w'. by eexists _, _. Qed.

Lemma compress_video_returns env input output quality adaptive w :
  ∃ r w', compression_engine.compress_video env input output quality adaptive w
          = (Ok r, w').
Proof. apply try_except_returns. intros e w'. by eexists _, _. Qed.

(** The end of every [compress_*] body, once the output is written: the
    two sizes are measured and the division fails for an empty source. *)
Ltac engine_sizes source :=
  simpl; rewrite lookup_insert_eq;
  destruct (decide (source = [])) as [->|?]; simpl; [congruence|];
  case_decide; [by destruct source|];
  intros [= <- _]; by eexists _, _.

(** C5: for every input, environment and world, each of [compress_image],
    [compress_audio] and [compress_video] returns a result and never
    raises, and the result is a failure whose reason is the text of the
    exception exactly when a step of the method raised one.  The steps are,
    in the order the code takes them: reading the source (a missing source
    gives the text of the [FileNotFoundError]); for an image the decoder,
    in adaptive mode the face detector and the contour finder, the neural
    model when it is in use, and [save], which fails when its encoder or
    the opening of the output file does; for audio on the neural path the
    waveform loader, the model and the opening of the output file, on the
    classical path the conversion [int(bitrate * 1000)] and the external
    encoder; for video in adaptive mode the face detector on the sampled
    frames, on both paths the conversion of the quality to a float and the
    external encoder; and in every method the division by the original
    size, which raises for an empty source.  When no step raises the
    result is a success. *)
Theorem engine_converts_failures env input output quality adaptive bitrate w :
  (∃ r w',
      compression_engine.compress_image env input output quality adaptive w = (Ok r, w')
      ∧ match files w !! input with
        | None => r = compression_engine.Failure (str_exn (FileNotFoundError input))
        | Some source =>
        match Image_decode env source with
        | Raise e => r = compression_engine.Failure (str_exn e)
        | Ok image =>
        match image_regions env adaptive image with
        | Raise e => r = compression_engine.Failure (str_exn e)
        | Ok regions =>
        match image_to_save env image with
        | Raise e => r = compression_engine.Failure (str_exn e)
        | Ok compressed =>
        match Image_encode env compressed output quality, open_wb_error env output with
        | Raise e, None | Ok _, Some e => r = compression_engine.Failure (str_exn e)
        | Raise e, Some e' =>
            r = compression_engine.Failure (str_exn e)
            ∨ r = compression_engine.Failure (str_exn e')
        | Ok data, None =>
            if decide (source = [])
            then r = compression_engine.Failure (str_exn ZeroDivisionError)
            else ∃ ratio analysis,
                r = compression_engine.Success
                      (Z.of_nat (length source)) (Z.of_nat (length data)) ratio analysis
        end end end end end)
  ∧ (∃ r w',
      compression_engine.compress_audio env input output bitrate w = (Ok r, w')
      ∧ match files w !! input with
        | None => r = compression_engine.Failure (str_exn (FileNotFoundError input))
        | Some source =>
        match neural_audio_model env with
        | Some model =>
            match librosa_load env source with
            | Raise e => r = compression_engine.Failure (str_exn e)
            | Ok audio =>
            match model audio with
            | Raise e => r = compression_engine.Failure (str_exn e)
            | Ok decoded =>
            match open_wb_error env output with
            | Some e => r = compression_engine.Failure (str_exn e)
            | None =>
                if decide (source = [])
                then r = compression_engine.Failure (str_exn ZeroDivisionError)
                else ∃ ratio analysis,
                    r = compression_engine.Success
                          (Z.of_nat (length source))
                          (Z.of_nat (length (tobytes env decoded))) ratio analysis
            end end end
        | None =>
            match audio_bits bitrate with
            | Raise e => r = compression_engine.Failure (str_exn e)
            | Ok bits =>
            match ffmpeg env (Some source) (audio_run input bits) with
            | Raise e => r = compression_engine.Failure (str_exn e)
            | Ok data =>
                if decide (source = [])
                then r = compression_engine.Failure (str_exn ZeroDivisionError)
                else ∃ ratio analysis,
                    r = compression_engine.Success
                          (Z.of_nat (length source)) (Z.of_nat (length data)) ratio analysis
            end end
        end end)
  ∧ (∃ r w',
      compression_engine.compress_video env input output quality adaptive w = (Ok r, w')
      ∧ match files w !! input with
        | None => r = compression_engine.Failure (str_exn (FileNotFoundError input))
        | Some source =>
        match video_regions env adaptive source with
        | Raise e => r = compression_engine.Failure (str_exn e)
        | Ok regions =>
        match pyfloat.of_int quality with
        | Raise e => r = compression_engine.Failure (str_exn e)
        | Ok quality_float =>
        match ffmpeg env (Some source)
                (video_run input output
                   (pyfloat.sub (pyfloat.Finite 51)
                      (pyfloat.mul quality_float (pyfloat.Finite (1 # 2))))) with
        | Raise e => r = compression_engine.Failure (str_exn e)
        | Ok data =>
            if decide (source = [])
            then r = compression_engine.Failure (str_exn ZeroDivisionError)
            else ∃ ratio analysis,
                r = compression_engine.Success
                      (Z.of_nat (length source)) (Z.of_nat (length data)) ratio analysis
        end end end end).
Proof.
  split; [|split].
  - destruct (compress_image_returns env input output quality adaptive w)
      as (r & w' & Hrun).
    exists r, w'. split; [done|]. revert Hrun.
    unfold image_regions, image_to_save.
    unfold compression_engine.compress_image, try_except, os.read, os.getsize, call,
      mbind, mret, Py_bind, Py_ret, bind, ret, raise.
    destruct (files w !! input) as [source|] eqn:Hsrc; [|simpl; congruence].
    destruct (Image_decode env source) as [image|e]; [|simpl; congruence].
    simpl. rewrite Hsrc. simpl.
    unfold compression_engine._compress_with_compressai,
      compression_engine._compress_adaptive_jpeg,
      compression_engine._compress_standard_jpeg, call, mret, Py_ret, ret, raise.
    assert (∀ compressed regions,
              (let (o, w1) :=
                 let (o, w1) := compression_engine.Image_save env compressed output quality w in
                 match o with
                 | Ok _ =>
                     let (o0, w2) :=
                       match files w1 !! output with
                       | Some data => (Ok (Z.of_nat (length data)), w1)
                       | None => (Raise (FileNotFoundError output), w1)
                       end in
                     match o0 with
                     | Ok size =>
                         let (o1, w3) := truediv size (Z.of_nat (length source)) w2 in
                         match o1 with
                         | Ok q =>
                             (Ok (compression_engine.Success (Z.of_nat (length source)) size
                                    ((1 - q) * 100)%Q
                                    (models.RegionAnalysis adaptive regions)), w3)
                         | Raise e => (Raise e, w3)
                         end
                     | Raise e => (Raise e, w2)
                     end
                 | Raise e => (Raise e, w1)
                 end in
               match o with
               | Ok a => (Ok a, w1)
               | Raise e => (Ok (compression_engine.Failure (str_exn e)), w1)
               end) = (Ok r, w') →
              match Image_encode env compressed output quality, open_wb_error env output
              with
              | Raise e, None | Ok _, Some e => r = compression_engine.Failure (str_exn e)
              | Raise e, Some e' =>
                  r = compression_engine.Failure (str_exn e)
                  ∨ r = compression_engine.Failure (str_exn e')
              | Ok data, None =>
                  if decide (source = [])
                  then r = compression_engine.Failure (str_exn ZeroDivisionError)
                  else ∃ ratio analysis,
                      r = compression_engine.Success
                            (Z.of_nat (length source)) (Z.of_nat (length data))
                            ratio analysis
              end) as Hsave.
    { intros compressed regions.
      unfold compression_engine.Image_save, os.write, call, truediv,
        mbind, mret, Py_bind, Py_ret, bind, ret, raise.
      destruct (Image_encode env compressed output quality) as [data|e].
      2:{ destruct (open_wb_error env output); simpl; [left|]; congruence. }
      destruct (open_wb_error env output) as [e|]; [simpl; congruence|].
      simpl. rewrite lookup_insert_eq.
      destruct (decide (source = [])) as [->|Hne]; simpl; [congruence|].
      case_decide as Hz; [by destruct source|].
      intros [= <- _]. by eexists _, _. }
    destruct adaptive.
    + rewrite detect_important_regions_run.
      destruct (detectMultiScale env _) as [faces|e]; [|simpl; congruence].
      destruct (findContours_Canny env _) as [contours|e]; [|simpl; congruence].
      destruct (image_model env) as [model|]; simpl; [|apply Hsave].
      destruct (COMPRESSAI_AVAILABLE env); simpl; [|apply Hsave].
      destruct (model image) as [compressed|e]; [apply Hsave | simpl; congruence].
    + destruct (image_model env) as [model|]; simpl; [|apply Hsave].
      destruct (COMPRESSAI_AVAILABLE env); simpl; [|apply Hsave].
      destruct (model image) as [compressed|e]; [apply Hsave | simpl; congruence].
  - destruct (compress_audio_returns env input output bitrate w) as (r & w' & Hrun).
    exists r, w'. split; [done|]. revert Hrun.
    unfold audio_bits.
    unfold compression_engine.compress_audio, try_except, os.getsize,
      mbind, mret, Py_bind, Py_ret, bind, ret, raise.
    destruct (files w !! input) as [source|] eqn:Hsrc; [|simpl; congruence].
    destruct (bool_decide (is_Some (audio_model env)) && ENCODEC_AVAILABLE env) eqn:Hcond.
    + apply andb_true_iff in Hcond as [Hsome Havailable].
      unfold neural_audio_model. rewrite Havailable.
      destruct (audio_model env) as [model|] eqn:Hmodel; [|done].
      unfold compression_engine._compress_with_encodec, os.read, os.write,
        call, truediv, mbind, mret, Py_bind, Py_ret, bind, ret, raise.
      rewrite Hsrc, Hmodel.
      destruct (librosa_load env source) as [audio|e]; [|simpl; congruence].
      destruct (model audio) as [decoded|e]; [|simpl; congruence].
      destruct (open_wb_error env output) as [e|]; [simpl; congruence|].
      engine_sizes source.
    + assert (neural_audio_model env = None) as ->.
      { unfold neural_audio_model.
        destruct (ENCODEC_AVAILABLE env); [|done].
        by destruct (audio_model env). }
      unfold compression_engine._compress_with_ffmpeg, compression_engine.ffmpeg_run,
        call, truediv, mbind, mret, Py_bind, Py_ret, bind, ret, raise.
      destruct (pyfloat.to_int _) as [bits|e]; [|simpl; congruence].
      rewrite Hsrc. fold (audio_run input bits).
      destruct (ffmpeg env (Some source) (audio_run input bits)) as [data|e].
      2:{ destruct (ffmpeg_partial env _ _); simpl; congruence. }
      engine_sizes source.
  - destruct (compress_video_returns env input output quality adaptive w)
      as (r & w' & Hrun).
    exists r, w'. split; [done|]. revert Hrun.
    unfold video_regions.
    unfold compression_engine.compress_video, try_except, os.getsize,
      mbind, mret, Py_bind, Py_ret, bind, ret, raise.
    destruct (files w !! input) as [source|] eqn:Hsrc; [|simpl; congruence].
    unfold compression_engine._compress_video_adaptive,
      compression_engine._compress_video_standard,
      mbind, mret, Py_bind, Py_ret, bind, ret, call.
    destruct adaptive.
    + rewrite analyze_video_regions_run, Hsrc.
      destruct (sampled_faces env _ 0) as [regions|e]; [|simpl; congruence].
      destruct (pyfloat.of_int quality) as [x|e]; [|simpl; congruence].
      unfold compression_engine.ffmpeg_run, truediv, raise, mret, Py_ret, ret.
      rewrite Hsrc.
      fold (video_run input output
              (pyfloat.sub (pyfloat.Finite 51) (pyfloat.mul x (pyfloat.Finite (1 # 2))))).
      destruct (ffmpeg env (Some source) (video_run input output _)) as [data|e].
      2:{ destruct (ffmpeg_partial env _ _); simpl; congruence. }
      engine_sizes source.
    + destruct (pyfloat.of_int quality) as [x|e]; [|simpl; congruence].
      unfold compression_engine.ffmpeg_run, truediv, raise, mret, Py_ret, ret.
      rewrite Hsrc.
      fold (video_run input output
              (pyfloat.sub (pyfloat.Finite 51) (pyfloat.mul x (pyfloat.Finite (1 # 2))))).
      destruct (ffmpeg env (Some source) (video_run input output _)) as [data|e].
      2:{ destruct (ffmpeg_partial env _ _); simpl; congruence. }
      engine_sizes source.
Qed.

(** ** Download (C9) *)

(** C9: for every job id, download answers and leaves the world (job
    tables, files) as it was.  It fails with 404 "Task not found" when the
    id is unknown, with 400 "Task not completed" when the id is known and
    the status is not Completed, and with 404 "Compressed file not found"
    when the job is Completed and the recorded artifact reference is
    absent, empty or not in storage; otherwise it serves the recorded
    file. *)
Theorem download_fails_without_touching_the_job task_id w :
  ∃ o, main.download_compressed_file task_id w = (o, w)
    ∧ match main_tasks w !! task_id with
      | None => o = Raise (HTTPException 404 "Task not found")
      | Some t =>
          if bool_decide (models.status t = models.COMPLETED) then
            match models.compressed_file_path t with
            | Some path =>
                if bool_decide (path ≠ "" ∧ is_Some (files w !! path)) then
                  o = Ok {| main.response_path := path;
                            main.response_filename :=
                              "compressed_" ++ models.original_filename t;
                            main.media_type := "application/octet-stream" |}
                else o = Raise (HTTPException 404 "Compressed file not found")
            | None => o = Raise (HTTPException 404 "Compressed file not found")
            end
          else o = Raise (HTTPException 400 "Task not completed")
      end.
Proof.
  unfold main.download_compressed_file, main.contains, main.getitem, os.exists_,
    mbind, mret, Py_bind, Py_ret, bind, ret, raise.
  destruct (main_tasks w !! task_id) as [t|] eqn:Ht; simpl; [|by eexists].
  rewrite Ht.
  destruct (models.status t) eqn:Hs; simpl; try (eexists; split; reflexivity).
  destruct (models.compressed_file_path t) as [path|]; simpl;
    [|eexists; split; reflexivity].
  destruct (bool_decide_reflect (path ≠ "" ∧ is_Some (files w !! path)))
    as [[Hp Hf]|Hn].
  - rewrite (bool_decide_eq_false_2 _ Hp), (bool_decide_eq_true_2 _ Hf). simpl.
    eexists; split; reflexivity.
  - destruct (bool_decide_reflect (path = "")) as [Hp|Hp]; simpl;
      [eexists; split; reflexivity|].
    destruct (bool_decide_reflect (is_Some (files w !! path))) as [Hf|Hf]; simpl;
      [by destruct Hn | eexists; split; reflexivity].
Qed.

(** ** Submission (C2) *)

Lemma upload_image_created env uuid4 file quality adaptive w :
  created_processing uuid4 w (main.upload_image env uuid4 file quality adaptive w).
Proof.
  unfold created_processing, main.upload_image, main.content_type_startswith,
    main.setitem, main.send_task, os.mkdir, os.write,
    mbind, mret, Py_bind, Py_ret, bind, ret, raise.
  destruct (main.content_type file) as [c|]; [|done].
  destruct (pystr.startswith c "image/"); simpl; [|done].
  destruct (mkdir_error env "uploads"); [done|].
  destruct (open_wb_error env _); [done|].
  destruct (send_task_error env _); [done|]. simpl.
  repeat split. by eexists.
Qed.

Lemma upload_audio_created env uuid4 file bitrate w :
  created_processing uuid4 w (main.upload_audio env uuid4 file bitrate w).
Proof.
  unfold created_processing, main.upload_audio, main.content_type_startswith,
    main.setitem, main.send_task, os.mkdir, os.write,
    mbind, mret, Py_bind, Py_ret, bind, ret, raise.
  destruct (main.content_type file) as [c|]; [|done].
  destruct (pystr.startswith c "audio/"); simpl; [|done].
  destruct (mkdir_error env "uploads"); [done|].
  destruct (open_wb_error env _); [done|].
  destruct (send_task_error env _); [done|]. simpl.
  repeat split. by eexists.
Qed.

Lemma upload_video_created env uuid4 file quality adaptive w :
  created_processing uuid4 w (main.upload_video env uuid4 file quality adaptive w).
Proof.
  unfold created_processing, main.upload_video, main.content_type_startswith,
    main.setitem, main.send_task, os.mkdir, os.write,
    mbind, mret, Py_bind, Py_ret, bind, ret, raise.
  destruct (main.content_type file) as [c|]; [|done].
  destruct (pystr.startswith c "video/"); simpl; [|done].
  destruct (mkdir_error env "uploads"); [done|].
  destruct (open_wb_error env _); [done|].
  destruct (send_task_error env _); [done|]. simpl.
  repeat split. by eexists.
Qed.

(** C2, as amended: for every submission (any media kind) that returns, the
    job record created by submit has status Processing, progress 0 and no
    result fields at the moment submit returns, and the response reports
    "processing"; submit never leaves a Pending record. *)
Theorem submit_creates_processing_job env uuid4 file quality adaptive bitrate w :
  created_processing uuid4 w (main.upload_image env uuid4 file quality adaptive w)
  ∧ created_processing uuid4 w (main.upload_audio env uuid4 file bitrate w)
  ∧ created_processing uuid4 w (main.upload_video env uuid4 file quality adaptive w).
Proof.
  split; [apply upload_image_created|].
  split; [apply upload_audio_created | apply upload_video_created].
Qed.

(** C2 as stated fails: when the upload of an image returns, the record
    it created has status Processing, not Pending. *)
Lemma submitted_job_is_not_pending :
  ∃ response,
    (main.upload_image (test_env [] [] (Ok []) []) "job" png_upload 80 true
       empty_world).1
    = Ok response
    ∧ models.status
        <$> main_tasks
              (main.upload_image (test_env [] [] (Ok []) []) "job" png_upload 80 true
                 empty_world).2 !! "job"
      = Some models.PROCESSING
    ∧ models.PROCESSING ≠ models.PENDING.
Proof.
  eexists. split; [vm_compute; reflexivity|].
  split; [vm_compute; reflexivity | discriminate].
Qed.

(** ** The worker tasks (C10, C4, C3) *)

Lemma compress_image_shape env task_id file_path quality adaptive :
  tasks.compress_image env task_id file_path quality adaptive
  = task_shape env task_id
      (pathlib.joinpath "outputs" ("compressed_" ++ pathlib.name file_path))
      (compression_engine.compress_image env file_path
         (pathlib.joinpath "outputs" ("compressed_" ++ pathlib.name file_path))
         quality adaptive).
Proof. reflexivity. Qed.

Lemma compress_audio_shape env task_id file_path bitrate :
  tasks.compress_audio env task_id file_path bitrate
  = task_shape env task_id
      (pathlib.joinpath "outputs" ("compressed_" ++ pathlib.stem file_path ++ ".mp3"))
      (compression_engine.compress_audio env file_path
         (pathlib.joinpath "outputs" ("compressed_" ++ pathlib.stem file_path ++ ".mp3"))
         bitrate).
Proof. reflexivity. Qed.

Lemma compress_video_shape env task_id file_path quality adaptive :
  tasks.compress_video env task_id file_path quality adaptive
  = task_shape env task_id
      (pathlib.joinpath "outputs" ("compressed_" ++ pathlib.name file_path))
      (compression_engine.compress_video env file_path
         (pathlib.joinpath "outputs" ("compressed_" ++ pathlib.name file_path))
         quality adaptive).
Proof. reflexivity. Qed.

(** The engine writes to no job table. *)
Lemma keeps_detect env image : keeps (compression_engine._detect_important_regions env image).
Proof.
  intros w. by rewrite detect_important_regions_run.
Qed.

Lemma keeps_analyze env video_path :
  keeps (compression_engine._analyze_video_regions env video_path).
Proof.
  intros w. unfold compression_engine._analyze_video_regions.
  by rewrite analyze_video_loop_run.
Qed.

#[local] Hint Resolve keeps_detect keeps_analyze : keeps.

Lemma keeps_compress_image env input output quality adaptive :
  keeps (compression_engine.compress_image env input output quality adaptive).
Proof.
  unfold compression_engine.compress_image, compression_engine.Image_save,
    compression_engine._compress_with_compressai,
    compression_engine._compress_adaptive_jpeg,
    compression_engine._compress_standard_jpeg.
  solve_keeps.
Qed.

Lemma keeps_compress_audio env input output bitrate :
  keeps (compression_engine.compress_audio env input output bitrate).
Proof.
  unfold compression_engine.compress_audio, compression_engine._compress_with_encodec,
    compression_engine._compress_with_ffmpeg.
  solve_keeps.
Qed.

Lemma keeps_compress_video env input output quality adaptive :
  keeps (compression_engine.compress_video env input output quality adaptive).
Proof.
  unfold compression_engine.compress_video,
    compression_engine._compress_video_adaptive,
    compression_engine._compress_video_standard.
  solve_keeps.
Qed.

Lemma task_shape_absent env task_id output_path engine w :
  keeps engine →
  (∀ w0, ∃ r w', engine w0 = (Ok r, w')) →
  tasks_tasks w !! task_id = None →
  returns_keeping w (task_shape env task_id output_path engine w).
Proof.
  intros Hkeeps Hreturns Habsent.
  unfold returns_keeping, task_shape, try_except, tasks.contains, when, os.mkdir,
    mbind, mret, Py_bind, Py_ret, bind, ret, raise.
  rewrite Habsent. simpl.
  destruct (mkdir_error env _) as [e|]; simpl.
  - by rewrite Habsent.
  - rewrite Habsent. simpl.
    destruct (Hreturns w) as (r & w' & Hrun). destruct (Hkeeps w) as [Ht Hm].
    rewrite Hrun in *. simpl in *.
    destruct r; simpl; rewrite Ht, Habsent; simpl; done.
Qed.

(** C10: for every task_id that is absent from the job table of
    [tasks.py], each of the worker tasks [compress_image], [compress_audio]
    and [compress_video] returns a result dictionary without raising and
    leaves that table (and the table of [main.py]) unchanged. *)
Theorem worker_on_absent_task_keeps_table
    env task_id file_path quality adaptive bitrate w :
  tasks_tasks w !! task_id = None →
  returns_keeping w (tasks.compress_image env task_id file_path quality adaptive w)
  ∧ returns_keeping w (tasks.compress_audio env task_id file_path bitrate w)
  ∧ returns_keeping w (tasks.compress_video env task_id file_path quality adaptive w).
Proof.
  intros Habsent. split; [|split].
  - rewrite compress_image_shape. apply task_shape_absent; [| |done].
    + apply keeps_compress_image.
    + intros w0. apply compress_image_returns.
  - rewrite compress_audio_shape. apply task_shape_absent; [| |done].
    + apply keeps_compress_audio.
    + intros w0. apply compress_audio_returns.
  - rewrite compress_video_shape. apply task_shape_absent; [| |done].
    + apply keeps_compress_video.
    + intros w0. apply compress_video_returns.
Qed.

(** C10 at a concrete input: the three tasks run for the id "job" on a
    world whose job table is empty. *)
Lemma worker_on_absent_task_witness :
  returns_keeping (world_with_file "uploads/a.png" 100)
    (tasks.compress_image (test_env [] [] (Ok []) []) "job" "uploads/a.png" 80 true
       (world_with_file "uploads/a.png" 100))
  ∧ returns_keeping (world_with_file "uploads/a.png" 100)
      (tasks.compress_audio (test_env [] [] (Ok []) []) "job" "uploads/a.png" 6.0%Q
         (world_with_file "uploads/a.png" 100))
  ∧ returns_keeping (world_with_file "uploads/a.png" 100)
      (tasks.compress_video (test_env [] [] (Ok []) []) "job" "uploads/a.png" 80 true
         (world_with_file "uploads/a.png" 100)).
Proof.
  apply (worker_on_absent_task_keeps_table
           (test_env [] [] (Ok []) []) "job" "uploads/a.png" 80 true 6.0%Q
           (world_with_file "uploads/a.png" 100)).
  reflexivity.
Defined.

(** Steps of a task on a world whose table of [tasks.py] holds [t] under
    [task_id] and is [rest] elsewhere. *)
Lemma wp_contains_has task_id t (rest : gmap string models.CompressionTask) Q w :
  tasks_tasks w = <[task_id := t]> rest →
  Q (Ok true) w →
  wp (tasks.contains task_id) Q w.
Proof.
  intros Hhas HQ. unfold wp, tasks.contains. simpl.
  rewrite Hhas, lookup_insert_eq. by rewrite bool_decide_eq_true_2.
Qed.

Lemma wp_setattr_has task_id assign t (rest : gmap string models.CompressionTask) Q w :
  tasks_tasks w = <[task_id := t]> rest →
  (∀ w', tasks_tasks w' = <[task_id := assign t]> rest → Q (Ok tt) w') →
  wp (tasks.setattr task_id assign) Q w.
Proof.
  intros Hhas HQ. unfold wp, tasks.setattr.
  rewrite Hhas, lookup_insert_eq. simpl. apply HQ. simpl.
  by rewrite insert_insert_eq.
Qed.

Lemma wp_mkdir env p Q w :
  (∀ e, Q (Raise e) w) → Q (Ok tt) w → wp (os.mkdir env p) Q w.
Proof.
  intros HR HQ. unfold wp, os.mkdir. destruct (mkdir_error env p); simpl; auto.
Qed.

Lemma wp_engine_has {A} (engine : Py A) T (Q : outcome A → World → Prop) w :
  keeps engine →
  (∀ w0, ∃ r w', engine w0 = (Ok r, w')) →
  tasks_tasks w = T →
  (∀ r w', tasks_tasks w' = T → Q (Ok r) w') →
  wp engine Q w.
Proof.
  intros Hkeeps Hreturns Hhas HQ. unfold wp.
  destruct (Hreturns w) as (r & w' & Hrun). destruct (Hkeeps w) as [Ht _].
  rewrite Hrun in *. simpl in *. apply HQ. congruence.
Qed.

(** One step of a worker task on a table that holds the job. *)
Ltac wp_has_step :=
  match goal with
  | |- wp (_ ≫= _) _ _ => apply wp_bind
  | |- wp (mret _) _ _ => apply wp_ret
  | |- wp (when true ?body) ?Q ?w => change (wp body Q w)
  | H : tasks_tasks ?w = _ |- wp (tasks.contains _) _ ?w =>
      eapply wp_contains_has; [exact H|]; cbv beta iota
  | H : tasks_tasks ?w = _ |- wp (tasks.setattr _ _) _ ?w =>
      eapply wp_setattr_has; [exact H|]; clear H;
      let w' := fresh "w" in intros w' H; cbv beta iota
  end.

(** A record leaves a non-terminal state with consistent result fields
    either Completed with its size set or Failed with its message set. *)
Lemma job_inv_completed t size ratio analysis path :
  job_inv t → terminal (models.status t) = false →
  job_inv
    (models.set_ai_analysis analysis
       (models.set_compression_ratio ratio
          (models.set_compressed_size size
             (models.set_compressed_file_path path
                (models.set_progress 100
                   (models.set_status models.COMPLETED
                      (models.set_progress 30
                         (models.set_progress 10
                            (models.set_status models.PROCESSING t))))))))).
Proof.
  intros [Hsize Herr] Hnt. unfold job_inv. simpl. split.
  - split; [done | by eexists].
  - split; [|done]. intros Hsome. apply Herr in Hsome.
    rewrite Hsome in Hnt. done.
Qed.

Lemma job_inv_failed t message (touch : models.CompressionTask → models.CompressionTask) :
  job_inv t → terminal (models.status t) = false →
  models.compressed_size (touch t) = models.compressed_size t →
  job_inv (models.set_error_message message (models.set_status models.FAILED (touch t))).
Proof.
  intros [Hsize Herr] Hnt Htouch. unfold job_inv. simpl. split.
  - rewrite Htouch. split; [|done]. intros Hsome. apply Hsize in Hsome.
    rewrite Hsome in Hnt. done.
  - split; [done | by eexists].
Qed.

Lemma task_shape_present env task_id output_path engine w t :
  keeps engine →
  (∀ w0, ∃ r w', engine w0 = (Ok r, w')) →
  tasks_tasks w !! task_id = Some t →
  job_inv t →
  terminal (models.status t) = false →
  finishes_job task_id w (task_shape env task_id output_path engine w).
Proof.
  intros Hkeeps Hreturns Hpresent Hinv Hnt.
  assert (tasks_tasks w = <[task_id := t]> (tasks_tasks w)) as Hhas
    by (by rewrite insert_id).
  set (rest := tasks_tasks w) in Hhas at 2.
  assert (wp (task_shape env task_id output_path engine)
             (λ o w', match o with
                      | Ok r =>
                          ∃ t', tasks_tasks w' = <[task_id := t']> rest
                                ∧ job_inv t'
                                ∧ models.status t'
                                  = match r with
                                    | tasks.ReturnSuccess _ _ _ => models.COMPLETED
                                    | tasks.ReturnFailure _ _ => models.FAILED
                                    end
                      | Raise _ => False
                      end) w) as Hwp.
  { unfold task_shape. apply wp_try. repeat wp_has_step.
    apply wp_mkdir; cbv beta iota.
    - intros e. repeat wp_has_step. eexists. split; [exact Hhas|]. split; [|done].
      by apply (job_inv_failed t _
                  (λ t, models.set_progress 10 (models.set_status models.PROCESSING t))).
    - repeat wp_has_step.
      eapply wp_engine_has; [done | done | exact Hhas |].
      clear Hhas. intros [original size ratio analysis|message] w' Hhas; cbv beta iota.
      + repeat wp_has_step. eexists. split; [exact Hhas|]. split; [|done].
        by apply job_inv_completed.
      + repeat wp_has_step. eexists. split; [exact Hhas|]. split; [|done].
        by apply (job_inv_failed t _
                    (λ t, models.set_progress 30
                            (models.set_progress 10
                               (models.set_status models.PROCESSING t)))). }
  unfold wp in Hwp. unfold finishes_job.
  destruct (task_shape env task_id output_path engine w) as [[r|e] w']; simpl in *;
    [|done].
  destruct Hwp as (t' & Htable & Hinv' & Hstatus). split.
  - exists t'. rewrite Htable, lookup_insert_eq. done.
  - intros other Hother. rewrite Htable. by rewrite lookup_insert_ne.
Qed.

Lemma submitted_job_inv env id file_type name size path quality adaptive bitrate :
  job_inv (main.new_task env id file_type name size path quality adaptive bitrate
             models.PROCESSING).
Proof. split; split; simpl; try done; by intros [? ?]. Qed.

(** C4, as amended: a job record has compressed_size set if and only if its
    status is Completed, and error_message set if and only if its status is
    Failed, when the record is the one an upload handler creates, and when
    it is the record a worker task returns from that it found not yet
    terminal (Pending or Processing) and with the two properties: the task
    returns and leaves the record terminal with the two properties,
    Completed with compressed_size set and no error_message when the task
    reports success, Failed with error_message set and no compressed_size
    when it reports failure; the other records are not touched.  The tasks
    do not check the status they overwrite: a record that is already
    terminal when a task runs on it is not covered. *)
Theorem result_fields_agree_with_status
    env task_id file_path quality adaptive bitrate w t :
  tasks_tasks w !! task_id = Some t →
  job_inv t →
  terminal (models.status t) = false →
  (∀ id file_type name size path q a b,
      job_inv (main.new_task env id file_type name size path q a b models.PROCESSING))
  ∧ finishes_job task_id w (tasks.compress_image env task_id file_path quality adaptive w)
  ∧ finishes_job task_id w (tasks.compress_audio env task_id file_path bitrate w)
  ∧ finishes_job task_id w (tasks.compress_video env task_id file_path quality adaptive w).
Proof.
  intros Hpresent Hinv Hnt. split; [|split; [|split]].
  - intros. apply submitted_job_inv.
  - rewrite compress_image_shape. apply (task_shape_present _ _ _ _ _ t); try done.
    + apply keeps_compress_image.
    + intros w0. apply compress_image_returns.
  - rewrite compress_audio_shape. apply (task_shape_present _ _ _ _ _ t); try done.
    + apply keeps_compress_audio.
    + intros w0. apply compress_audio_returns.
  - rewrite compress_video_shape. apply (task_shape_present _ _ _ _ _ t); try done.
    + apply keeps_compress_video.
    + intros w0. apply compress_video_returns.
Qed.

(** C4 at a concrete input: the three tasks run on the stored audio
    job. *)
Lemma result_fields_agree_with_status_witness :
  (∀ id file_type name size path q a b,
      job_inv (main.new_task fallback_env id file_type name size path q a b
                 models.PROCESSING))
  ∧ finishes_job "job" (audio_world fallback_env)
      (tasks.compress_image fallback_env "job" "uploads/a.wav" 80 true
         (audio_world fallback_env))
  ∧ finishes_job "job" (audio_world fallback_env)
      (tasks.compress_audio fallback_env "job" "uploads/a.wav" 6.0%Q
         (audio_world fallback_env))
  ∧ finishes_job "job" (audio_world fallback_env)
      (tasks.compress_video fallback_env "job" "uploads/a.wav" 80 true
         (audio_world fallback_env)).
Proof.
  apply (result_fields_agree_with_status fallback_env "job" "uploads/a.wav" 80 true
           6.0%Q (audio_world fallback_env)
           (audio_job fallback_env "job" "uploads/a.wav")).
  - reflexivity.
  - apply submitted_job_inv.
  - reflexivity.
Defined.

(** C3 fails on the classical audio path: the audio task run on a stored
    job of an installation without Encodec reports success and leaves the
    job Completed with the artifact reference "outputs/compressed_a.mp3",
    a file that does not exist; the encoder wrote its 40 bytes to
    "uploads/a_compressed.mp3". *)
Theorem audio_fallback_records_unwritten_path :
  (∃ ratio, audio_fallback_run.1 = Ok (tasks.ReturnSuccess "job" 40 ratio))
  ∧ models.status <$> tasks_tasks audio_fallback_run.2 !! "job" = Some models.COMPLETED
  ∧ tasks_tasks audio_fallback_run.2 !! "job" ≫= models.compressed_file_path
    = Some "outputs/compressed_a.mp3"
  ∧ files audio_fallback_run.2 !! "outputs/compressed_a.mp3" = None
  ∧ length <$> files audio_fallback_run.2 !! "uploads/a_compressed.mp3" = Some 40%nat
  ∧ run_output <$> last (ffmpeg_runs audio_fallback_run.2)
    = Some "uploads/a_compressed.mp3".
Proof.
  split; [eexists; vm_compute; reflexivity|].
  repeat split; vm_compute; reflexivity.
Qed.

(** The same on every installation that takes the classical audio path:
    the audio task writes no file but the one the encoder is pointed at,
    which is the input path with [.wav] replaced, not the path it
    records. *)
Lemma only_writes_ret {A} target (a : A) : only_writes target (mret a).
Proof. done. Qed.

Lemma only_writes_raise {A} target e : only_writes target (@raise A e).
Proof. done. Qed.

Lemma only_writes_bind {A B} target (m : Py A) (k : A → Py B) :
  only_writes target m → (∀ a, only_writes target (k a)) →
  only_writes target (m ≫= k).
Proof.
  intros Hm Hk w p Hp. unfold mbind, Py_bind, bind.
  specialize (Hm w p Hp). destruct (m w) as [[a|e] w']; simpl in *; [|done].
  by rewrite (Hk a w' p Hp).
Qed.

Lemma only_writes_try {A} target (body : Py A) (handler : exn → Py A) :
  only_writes target body → (∀ e, only_writes target (handler e)) →
  only_writes target (try_except body handler).
Proof.
  intros Hm Hk w p Hp. unfold try_except.
  specialize (Hm w p Hp). destruct (body w) as [[a|e] w']; simpl in *; [done|].
  by rewrite (Hk e w' p Hp).
Qed.

Lemma only_writes_getsize target p : only_writes target (os.getsize p).
Proof. intros w q _. unfold os.getsize. by destruct (files w !! p). Qed.

Lemma only_writes_mkdir env target p : only_writes target (os.mkdir env p).
Proof. intros w q _. unfold os.mkdir. by destruct (mkdir_error env p). Qed.

Lemma only_writes_truediv target a b : only_writes target (truediv a b).
Proof. intros w q _. unfold truediv. by case_decide. Qed.

Lemma only_writes_contains target task_id : only_writes target (tasks.contains task_id).
Proof. done. Qed.

Lemma only_writes_setattr target task_id assign :
  only_writes target (tasks.setattr task_id assign).
Proof. intros w q _. unfold tasks.setattr. by destruct (tasks_tasks w !! task_id). Qed.

Lemma only_writes_ffmpeg_run env input output kw :
  only_writes output (compression_engine.ffmpeg_run env input output kw).
Proof.
  intros w q Hq. unfold compression_engine.ffmpeg_run.
  destruct (ffmpeg env _ _); simpl; [by rewrite lookup_insert_ne|].
  destruct (ffmpeg_partial env _ _); simpl; [by rewrite lookup_insert_ne | done].
Qed.

Create HintDb only_writes.
#[local] Hint Resolve only_writes_ret only_writes_raise only_writes_getsize
  only_writes_mkdir only_writes_truediv only_writes_contains only_writes_setattr
  only_writes_ffmpeg_run : only_writes.

Ltac only_writes_step :=
  match goal with
  | |- only_writes _ (_ ≫= _) => apply only_writes_bind; [| intros]
  | |- only_writes _ (try_except _ _) => apply only_writes_try; [| intros]
  | |- only_writes _ (when ?c _) => destruct c; unfold when
  | |- only_writes _ (match ?x with _ => _ end) => destruct x
  | |- only_writes _ _ => solve [eauto with only_writes]
  end.

Lemma engine_fallback_only_writes env input output bitrate :
  bool_decide (is_Some (audio_model env)) && ENCODEC_AVAILABLE env = false →
  only_writes (pystr.replace input ".wav" "_compressed.mp3")
    (compression_engine.compress_audio env input output bitrate).
Proof.
  intros Hclassical w p Hp.
  unfold compression_engine.compress_audio. rewrite Hclassical.
  unfold compression_engine._compress_with_ffmpeg, compression_engine.ffmpeg_run,
    try_except, os.getsize, truediv, call, mbind, mret, Py_bind, Py_ret, bind, ret, raise.
  destruct (files w !! input); simpl; [|done].
  destruct (pyfloat.to_int _) as [bits|e]; simpl; [|done].
  destruct (ffmpeg env _ _) as [data|e]; simpl.
  2:{ destruct (ffmpeg_partial env _ _); simpl; [by rewrite lookup_insert_ne | done]. }
  destruct (<[_ := data]> (files w) !! _); simpl; [|by rewrite lookup_insert_ne].
  case_decide; simpl; by rewrite lookup_insert_ne.
Qed.

Lemma audio_fallback_only_writes env task_id file_path bitrate :
  bool_decide (is_Some (audio_model env)) && ENCODEC_AVAILABLE env = false →
  only_writes (pystr.replace file_path ".wav" "_compressed.mp3")
    (tasks.compress_audio env task_id file_path bitrate).
Proof.
  intros Hclassical. unfold tasks.compress_audio.
  pose proof (engine_fallback_only_writes env file_path
                (pathlib.joinpath "outputs"
                   ("compressed_" ++ pathlib.stem file_path ++ ".mp3"))
                bitrate Hclassical) as Hengine.
  repeat only_writes_step.
Qed.

(** The paths that do write the recorded reference: an image task, a video
    task and an audio task on the neural path that report success leave a
    file at the output path they record. *)
Lemma wp_getsize_file p (Q : outcome Z → World → Prop) w :
  (∀ e, Q (Raise e) w) →
  (∀ size, is_Some (files w !! p) → Q (Ok size) w) →
  wp (os.getsize p) Q w.
Proof.
  intros HR HQ. unfold wp, os.getsize.
  destruct (files w !! p) eqn:Hp; simpl; [|done]. by apply HQ.
Qed.

Lemma wp_getsize_written {A} p (k : Z → Py A) (Q : outcome A → World → Prop) w :
  (∀ e, Q (Raise e) w) →
  (∀ size, is_Some (files w !! p) → wp (k size) Q w) →
  wp (os.getsize p ≫= k) Q w.
Proof.
  intros HR Hk. apply wp_bind. by apply wp_getsize_file.
Qed.

Lemma wp_artifact_tail output original_size analysis w :
  wp (os.getsize output
      ≫= λ compressed_size,
           truediv compressed_size original_size
           ≫= λ q, mret (compression_engine.Success original_size compressed_size
                           ((1 - q) * 100)%Q analysis))
     (λ o w', match o with
              | Ok r => artifact_written output (Ok r) w'
              | Raise _ => True
              end) w.
Proof.
  apply wp_getsize_written; [done|]. intros size Hfile.
  apply wp_bind. unfold truediv. case_decide; [done|].
  apply wp_ret. apply wp_ret. done.
Qed.

Ltac wp_artifact_post output :=
  apply (wp_mono _ (λ o w', match o with
                            | Ok r => artifact_written output (Ok r) w'
                            | Raise _ => True
                            end));
  [intros [?|?] ?; [done | intros _; exact I] |].

Lemma compress_image_written env input output quality adaptive w :
  wp (compression_engine.compress_image env input output quality adaptive)
     (artifact_written output) w.
Proof.
  unfold compression_engine.compress_image. apply wp_try.
  wp_artifact_post output. do 4 wp_skip.
  destruct a2 as [compressed_image important_regions].
  wp_skip. apply wp_artifact_tail.
Qed.

Lemma compress_video_written env input output quality adaptive w :
  wp (compression_engine.compress_video env input output quality adaptive)
     (artifact_written output) w.
Proof.
  unfold compression_engine.compress_video. apply wp_try.
  wp_artifact_post output. do 2 wp_skip. apply wp_artifact_tail.
Qed.

Lemma compress_audio_neural_written env input output bitrate w :
  bool_decide (is_Some (audio_model env)) && ENCODEC_AVAILABLE env = true →
  wp (compression_engine.compress_audio env input output bitrate)
     (artifact_written output) w.
Proof.
  intros Hneural. unfold compression_engine.compress_audio. rewrite Hneural.
  apply wp_try. wp_artifact_post output. wp_skip.
  apply wp_bind, wp_bind_any; [done|]. intros data w1. apply wp_ret.
  cbv beta iota. apply wp_bind, wp_bind_any; [done|]. intros [] w2.
  apply wp_getsize_file; [done|]. intros size Hfile. cbv beta iota.
  apply wp_bind. unfold truediv. case_decide; [done|].
  apply wp_ret. apply wp_ret. done.
Qed.

Lemma wp_contains_any task_id (Q : outcome bool → World → Prop) w :
  (∀ b, Q (Ok b) w) → wp (tasks.contains task_id) Q w.
Proof. intros HQ. apply HQ. Qed.

Lemma wp_setattr_any task_id assign (Q : outcome () → World → Prop) w :
  (∀ e, Q (Raise e) w) →
  (∀ w', files w' = files w → Q (Ok tt) w') →
  wp (tasks.setattr task_id assign) Q w.
Proof.
  intros HR HQ. unfold wp, tasks.setattr.
  destruct (tasks_tasks w !! task_id); simpl; [by apply HQ | apply HR].
Qed.

(** The branch [if result["success"]] of a task changes no file. *)
Lemma wp_record_success task_id output_path size ratio analysis w :
  is_Some (files w !! output_path) →
  wp (tasks.contains task_id
      ≫= λ present,
           when present
             (tasks.setattr task_id (models.set_status models.COMPLETED) ;;
              tasks.setattr task_id (models.set_progress 100) ;;
              tasks.setattr task_id (models.set_compressed_file_path output_path) ;;
              tasks.setattr task_id (models.set_compressed_size size) ;;
              tasks.setattr task_id (models.set_compression_ratio ratio) ;;
              tasks.setattr task_id (models.set_ai_analysis analysis)) ;;
           mret (tasks.ReturnSuccess task_id size ratio))
     (λ o w', match o with
              | Ok (tasks.ReturnSuccess _ _ _) => is_Some (files w' !! output_path)
              | _ => True
              end) w.
Proof.
  intros Hfile. apply wp_bind, wp_contains_any. intros [|]; unfold when; cbv beta iota.
  - repeat match goal with
           | |- wp (_ ≫= _) _ _ => apply wp_bind
           | |- wp (mret _) _ _ => apply wp_ret
           | |- wp (tasks.setattr _ _) _ _ =>
               apply wp_setattr_any; [done|];
               let w' := fresh "w" in let E := fresh "E" in
               intros w' E; rewrite <- E in Hfile; clear E; cbv beta iota
           end.
    done.
  - apply wp_bind, wp_ret. apply wp_ret. done.
Qed.

Lemma task_shape_published env task_id output_path engine w :
  (∀ w0, wp engine (artifact_written output_path) w0) →
  artifact_published output_path (task_shape env task_id output_path engine w).
Proof.
  intros Hengine.
  assert (wp (task_shape env task_id output_path engine)
             (λ o w', match o with
                      | Ok (tasks.ReturnSuccess _ _ _) =>
                          is_Some (files w' !! output_path)
                      | _ => True
                      end) w) as Hwp.
  { unfold task_shape. apply wp_try.
    apply (wp_mono _ (λ o w', match o with
                              | Ok (tasks.ReturnSuccess _ _ _) =>
                                  is_Some (files w' !! output_path)
                              | _ => True
                              end)).
    { intros [r|e] w'; [done|]. intros _.
      do 2 wp_skip. by apply wp_ret. }
    do 5 wp_skip. apply wp_bind.
    eapply wp_mono; [|apply Hengine].
    intros [[original size ratio analysis|message]|e] w1 Hwritten; [| |done].
    - by apply wp_record_success.
    - do 2 wp_skip. by apply wp_ret. }
  unfold wp in Hwp. unfold artifact_published.
  by destruct (task_shape env task_id output_path engine w) as [[r|e] w'].
Qed.

Lemma image_and_video_tasks_publish_written_files
    env task_id file_path quality adaptive w :
  artifact_published
    (pathlib.joinpath "outputs" ("compressed_" ++ pathlib.name file_path))
    (tasks.compress_image env task_id file_path quality adaptive w)
  ∧ artifact_published
      (pathlib.joinpath "outputs" ("compressed_" ++ pathlib.name file_path))
      (tasks.compress_video env task_id file_path quality adaptive w).
Proof.
  split.
  - rewrite compress_image_shape. apply task_shape_published.
    intros w0. apply compress_image_written.
  - rewrite compress_video_shape. apply task_shape_published.
    intros w0. apply compress_video_written.
Qed.

Lemma neural_audio_task_publishes_written_file env task_id file_path bitrate w :
  bool_decide (is_Some (audio_model env)) && ENCODEC_AVAILABLE env = true →
  artifact_published
    (pathlib.joinpath "outputs" ("compressed_" ++ pathlib.stem file_path ++ ".mp3"))
    (tasks.compress_audio env task_id file_path bitrate w).
Proof.
  intros Hneural. rewrite compress_audio_shape. apply task_shape_published.
  intros w0. by apply compress_audio_neural_written.
Qed.

(** C4 as stated fails: the tasks do not look at the status they
    overwrite.  The record the first run of the audio task left Completed
    has its two result fields in agreement with its status; the same task
    run again on that record, with an encoder that now fails, leaves it
    Failed with error_message set and with its old compressed_size 40
    still set. *)
Lemma rerun_leaves_failed_job_with_compressed_size :
  ∃ t t',
    tasks_tasks audio_fallback_run.2 !! "job" = Some t
    ∧ job_inv t
    ∧ tasks_tasks audio_rerun.2 !! "job" = Some t'
    ∧ models.status t' = models.FAILED
    ∧ models.compressed_size t' = Some 40
    ∧ models.error_message t' = Some "ffmpeg error (see stderr output for detail)"
    ∧ ¬ job_inv t'.
Proof.
  eexists _, _. split; [vm_compute; reflexivity|]. split.
  { split; split; simpl; try done; try (by intros [? ?]); eauto. }
  split; [vm_compute; reflexivity|].
  split; [reflexivity|]. split; [reflexivity|]. split; [reflexivity|].
  intros [[Hsize _] _]. simpl in Hsize. by specialize (Hsize (mk_is_Some _ _ eq_refl)).
Qed.

(** ** Further properties: the handlers of [main.py] *)

Ltac run_upload :=
  unfold main.upload_image, main.upload_audio, main.upload_video,
    main.content_type_startswith, main.setitem, main.send_task, os.mkdir, os.write,
    mbind, mret, Py_bind, Py_ret, bind, ret, raise.

(** X1: an upload whose content type is of another kind is answered with
    400 and nothing has happened: no file is written, no job is created,
    no message is sent; an upload without a content type raises an
    [AttributeError], with the same absence of effects. *)
Theorem upload_checks_content_type_first env uuid4 file quality adaptive bitrate w :
  checks_content_type "image/" "File must be an image" file w
    (main.upload_image env uuid4 file quality adaptive w)
  ∧ checks_content_type "audio/" "File must be an audio file" file w
      (main.upload_audio env uuid4 file bitrate w)
  ∧ checks_content_type "video/" "File must be a video file" file w
      (main.upload_video env uuid4 file quality adaptive w).
Proof.
  unfold checks_content_type. run_upload.
  destruct (main.content_type file) as [c|]; [|done].
  repeat split.
  - by destruct (pystr.startswith c "image/").
  - by destruct (pystr.startswith c "audio/").
  - by destruct (pystr.startswith c "video/").
Qed.

Lemma getsize_inserted p data w :
  os.getsize p (with_files (<[p := data]> (files w)) w)
  = (Ok (Z.of_nat (length data)), with_files (<[p := data]> (files w)) w).
Proof. unfold os.getsize. simpl. by rewrite lookup_insert_eq. Qed.

(** X2: an upload handler that returns has stored the upload under
    uploads/<id>_<filename>, has created one record that carries this path
    and, as original size, the size [os.path.getsize] finds there, and has
    given the broker one message with the id, the path and the parameters
    of the request; the other records, the queue before and the encoder
    log are as they were. *)
Theorem upload_stores_file_and_queues_message
    env uuid4 file quality adaptive bitrate w :
  upload_stored uuid4 file
    (SendImage uuid4 (upload_path uuid4 file) quality adaptive) w
    (main.upload_image env uuid4 file quality adaptive w)
  ∧ upload_stored uuid4 file
      (SendAudio uuid4 (upload_path uuid4 file) bitrate) w
      (main.upload_audio env uuid4 file bitrate w)
  ∧ upload_stored uuid4 file
      (SendVideo uuid4 (upload_path uuid4 file) quality adaptive) w
      (main.upload_video env uuid4 file quality adaptive w).
Proof.
  unfold upload_stored, upload_path. run_upload.
  destruct (main.content_type file) as [c|]; [|done].
  repeat split.
  - destruct (pystr.startswith c "image/"); simpl; [|done].
    destruct (mkdir_error env "uploads"); [done|].
    destruct (open_wb_error env _); [done|].
    destruct (send_task_error env _); [done|]. simpl.
    repeat split. eexists. repeat split. simpl.
    unfold os.getsize. simpl. by rewrite lookup_insert_eq.
  - destruct (pystr.startswith c "audio/"); simpl; [|done].
    destruct (mkdir_error env "uploads"); [done|].
    destruct (open_wb_error env _); [done|].
    destruct (send_task_error env _); [done|]. simpl.
    repeat split. eexists. repeat split. simpl.
    unfold os.getsize. simpl. by rewrite lookup_insert_eq.
  - destruct (pystr.startswith c "video/"); simpl; [|done].
    destruct (mkdir_error env "uploads"); [done|].
    destruct (open_wb_error env _); [done|].
    destruct (send_task_error env _); [done|]. simpl.
    repeat split. eexists. repeat split. simpl.
    unfold os.getsize. simpl. by rewrite lookup_insert_eq.
Qed.

(** X3: right after an upload handler returned, the status query for the
    id it answered reports status "processing", progress 0, the size of
    the upload, no compressed size, no ratio, no download URL and no
    error, and the download of that id is refused with 400 "Task not
    completed". *)
Theorem uploaded_job_is_polled_as_processing
    env uuid4 file quality adaptive bitrate w :
  polled_as_processing file (main.upload_image env uuid4 file quality adaptive w)
  ∧ polled_as_processing file (main.upload_audio env uuid4 file bitrate w)
  ∧ polled_as_processing file (main.upload_video env uuid4 file quality adaptive w).
Proof.
  unfold polled_as_processing. run_upload.
  destruct (main.content_type file) as [c|]; [|done].
  repeat split.
  - destruct (pystr.startswith c "image/"); simpl; [|done].
    destruct (mkdir_error env "uploads"); [done|].
    destruct (open_wb_error env _); [done|].
    destruct (send_task_error env _); [done|]. simpl.
    unfold main.get_task_status, main.download_compressed_file, main.contains,
      main.getitem, mbind, mret, Py_bind, Py_ret, bind, ret, raise. simpl.
    repeat (rewrite lookup_insert_eq; simpl). done.
  - destruct (pystr.startswith c "audio/"); simpl; [|done].
    destruct (mkdir_error env "uploads"); [done|].
    destruct (open_wb_error env _); [done|].
    destruct (send_task_error env _); [done|]. simpl.
    unfold main.get_task_status, main.download_compressed_file, main.contains,
      main.getitem, mbind, mret, Py_bind, Py_ret, bind, ret, raise. simpl.
    repeat (rewrite lookup_insert_eq; simpl). done.
  - destruct (pystr.startswith c "video/"); simpl; [|done].
    destruct (mkdir_error env "uploads"); [done|].
    destruct (open_wb_error env _); [done|].
    destruct (send_task_error env _); [done|]. simpl.
    unfold main.get_task_status, main.download_compressed_file, main.contains,
      main.getitem, mbind, mret, Py_bind, Py_ret, bind, ret, raise. simpl.
    repeat (rewrite lookup_insert_eq; simpl). done.
Qed.

(** X4: the status query and the download agree.  Neither changes the
    world; both answer 404 "Task not found" for the same ids; the status
    query offers the download URL /download/<id> exactly for the jobs
    whose download is not refused with 400 "Task not completed". *)
Theorem status_query_and_download_agree task_id w :
  (main.get_task_status task_id w).2 = w
  ∧ (main.download_compressed_file task_id w).2 = w
  ∧ match (main.get_task_status task_id w).1 with
    | Raise e =>
        e = HTTPException 404 "Task not found"
        ∧ (main.download_compressed_file task_id w).1
          = Raise (HTTPException 404 "Task not found")
    | Ok answer =>
        match main.status_download_url answer with
        | Some url =>
            url = "/download/" ++ task_id
            ∧ main.status_status answer = "completed"
            ∧ (main.download_compressed_file task_id w).1
              ≠ Raise (HTTPException 400 "Task not completed")
        | None =>
            main.status_status answer ≠ "completed"
            ∧ (main.download_compressed_file task_id w).1
              = Raise (HTTPException 400 "Task not completed")
        end
    end.
Proof.
  unfold main.get_task_status, main.download_compressed_file, main.contains,
    main.getitem, os.exists_, mbind, mret, Py_bind, Py_ret, bind, ret, raise.
  destruct (main_tasks w !! task_id) as [t|] eqn:Ht; simpl; [|done].
  rewrite Ht.
  destruct (models.status t) eqn:Hs; simpl; try done.
  destruct (models.compressed_file_path t) as [path|]; simpl; [|done].
  destruct (bool_decide (path = "")); simpl; [done|].
  destruct (bool_decide (is_Some (files w !! path))); simpl; done.
Qed.

Lemma status_query_and_download_agree_world task_id w :
  (main.get_task_status task_id w).2 = w
  ∧ (main.download_compressed_file task_id w).2 = w.
Proof.
  unfold main.get_task_status, main.download_compressed_file, main.contains,
    main.getitem, os.exists_, mbind, mret, Py_bind, Py_ret, bind, ret, raise.
  destruct (main_tasks w !! task_id) as [t|] eqn:Ht; simpl; [|done].
  rewrite Ht.
  destruct (models.status t) eqn:Hs; simpl; try done.
  destruct (models.compressed_file_path t) as [path|]; simpl; [|done].
  destruct (bool_decide (path = "")); simpl; [done|].
  destruct (bool_decide (is_Some (files w !! path))); simpl; done.
Qed.

(** ** Further properties: the two job tables *)

Lemma keeps_main_of_keeps {A} (m : Py A) : keeps m → keeps_main m.
Proof. intros H w. apply H. Qed.

Lemma keeps_main_ret {A} (a : A) : keeps_main (mret a).
Proof. done. Qed.

Lemma keeps_main_bind {A B} (m : Py A) (k : A → Py B) :
  keeps_main m → (∀ a, keeps_main (k a)) → keeps_main (m ≫= k).
Proof.
  intros Hm Hk w. unfold mbind, Py_bind, bind.
  specialize (Hm w). destruct (m w) as [[a|e] w']; simpl in *; [|done].
  by rewrite (Hk a w').
Qed.

Lemma keeps_main_try {A} (body : Py A) (handler : exn → Py A) :
  keeps_main body → (∀ e, keeps_main (handler e)) → keeps_main (try_except body handler).
Proof.
  intros Hm Hk w. unfold try_except.
  specialize (Hm w). destruct (body w) as [[a|e] w']; simpl in *; [done|].
  by rewrite (Hk e w').
Qed.

Lemma keeps_main_contains task_id : keeps_main (tasks.contains task_id).
Proof. done. Qed.

Lemma keeps_main_setattr task_id assign : keeps_main (tasks.setattr task_id assign).
Proof. intros w. unfold tasks.setattr. by destruct (tasks_tasks w !! task_id). Qed.

Lemma keeps_main_mkdir env p : keeps_main (os.mkdir env p).
Proof. apply keeps_main_of_keeps, keeps_mkdir. Qed.

Create HintDb keeps_main.
#[local] Hint Resolve keeps_main_ret keeps_main_contains keeps_main_setattr
  keeps_main_mkdir : keeps_main.

Ltac keeps_main_step :=
  match goal with
  | |- keeps_main (_ ≫= _) => apply keeps_main_bind; [| intros]
  | |- keeps_main (try_except _ _) => apply keeps_main_try; [| intros]
  | |- keeps_main (when ?c _) => destruct c; unfold when
  | |- keeps_main (match ?x with _ => _ end) => destruct x
  | |- keeps_main _ => solve [eauto with keeps_main]
  end.

Lemma task_shape_keeps_main env task_id output_path engine :
  keeps engine → keeps_main (task_shape env task_id output_path engine).
Proof.
  intros Hengine%keeps_main_of_keeps. unfold task_shape. repeat keeps_main_step.
Qed.

Lemma run_task_keeps_main env c : keeps_main (run_task env c).
Proof.
  destruct c; simpl.
  - rewrite compress_image_shape. apply task_shape_keeps_main, keeps_compress_image.
  - rewrite compress_audio_shape. apply task_shape_keeps_main, keeps_compress_audio.
  - rewrite compress_video_shape. apply task_shape_keeps_main, keeps_compress_video.
Qed.

Lemma get_task_status_reads_main task_id w1 w2 :
  main_tasks w1 = main_tasks w2 →
  (main.get_task_status task_id w1).1 = (main.get_task_status task_id w2).1.
Proof.
  intros Hsame.
  unfold main.get_task_status, main.contains, main.getitem,
    mbind, mret, Py_bind, Py_ret, bind, ret, raise.
  rewrite Hsame. destruct (main_tasks w2 !! task_id); simpl; [|done].
  rewrite Hsame. destruct (main_tasks w2 !! task_id); done.
Qed.

(** X5: the worker tasks never write to the job table that the handlers of
    [main.py] read: whatever sequence of tasks runs, with whatever
    arguments and outcomes, the table of [main.py] is as before and the
    status query answers for every id what it answered before. *)
Theorem worker_tasks_never_reach_the_status_query env calls w task_id :
  main_tasks (run_tasks env calls w) = main_tasks w
  ∧ (main.get_task_status task_id (run_tasks env calls w)).1
    = (main.get_task_status task_id w).1.
Proof.
  assert (main_tasks (run_tasks env calls w) = main_tasks w) as Hmain.
  { unfold run_tasks. revert w.
    induction calls as [|c calls IH]; intros w; simpl; [done|].
    rewrite IH. apply run_task_keeps_main. }
  split; [done|]. by apply get_task_status_reads_main.
Qed.

Lemma upload_image_tables env uuid4 file quality adaptive w :
  tasks_tasks (main.upload_image env uuid4 file quality adaptive w).2 = tasks_tasks w
  ∧ (main_tasks (main.upload_image env uuid4 file quality adaptive w).2 = main_tasks w
     ∨ ∃ t, untouched_job t
            ∧ main_tasks (main.upload_image env uuid4 file quality adaptive w).2
              = <[uuid4 := t]> (main_tasks w)).
Proof.
  run_upload.
  destruct (main.content_type file) as [c|]; [|by split; [|left]].
  destruct (pystr.startswith c "image/"); simpl; [|by split; [|left]].
  destruct (mkdir_error env "uploads"); [by split; [|left]|].
  destruct (open_wb_error env _); [by split; [|left]|].
  destruct (send_task_error env _); simpl; (split; [done|]); right;
    eexists; (split; [|reflexivity]); repeat split.
Qed.

Lemma upload_audio_tables env uuid4 file bitrate w :
  tasks_tasks (main.upload_audio env uuid4 file bitrate w).2 = tasks_tasks w
  ∧ (main_tasks (main.upload_audio env uuid4 file bitrate w).2 = main_tasks w
     ∨ ∃ t, untouched_job t
            ∧ main_tasks (main.upload_audio env uuid4 file bitrate w).2
              = <[uuid4 := t]> (main_tasks w)).
Proof.
  run_upload.
  destruct (main.content_type file) as [c|]; [|by split; [|left]].
  destruct (pystr.startswith c "audio/"); simpl; [|by split; [|left]].
  destruct (mkdir_error env "uploads"); [by split; [|left]|].
  destruct (open_wb_error env _); [by split; [|left]|].
  destruct (send_task_error env _); simpl; (split; [done|]); right;
    eexists; (split; [|reflexivity]); repeat split.
Qed.

Lemma upload_video_tables env uuid4 file quality adaptive w :
  tasks_tasks (main.upload_video env uuid4 file quality adaptive w).2 = tasks_tasks w
  ∧ (main_tasks (main.upload_video env uuid4 file quality adaptive w).2 = main_tasks w
     ∨ ∃ t, untouched_job t
            ∧ main_tasks (main.upload_video env uuid4 file quality adaptive w).2
              = <[uuid4 := t]> (main_tasks w)).
Proof.
  run_upload.
  destruct (main.content_type file) as [c|]; [|by split; [|left]].
  destruct (pystr.startswith c "video/"); simpl; [|by split; [|left]].
  destruct (mkdir_error env "uploads"); [by split; [|left]|].
  destruct (open_wb_error env _); [by split; [|left]|].
  destruct (send_task_error env _); simpl; (split; [done|]); right;
    eexists; (split; [|reflexivity]); repeat split.
Qed.

Lemma run_task_absent env c w :
  tasks_tasks w = ∅ →
  tasks_tasks (run_task env c w).2 = ∅ ∧ main_tasks (run_task env c w).2 = main_tasks w.
Proof.
  intros Hempty.
  assert (returns_keeping w (run_task env c w)) as Hrun.
  { destruct c; simpl.
    - rewrite compress_image_shape. apply task_shape_absent.
      + apply keeps_compress_image.
      + intros w0. apply compress_image_returns.
      + by rewrite Hempty.
    - rewrite compress_audio_shape. apply task_shape_absent.
      + apply keeps_compress_audio.
      + intros w0. apply compress_audio_returns.
      + by rewrite Hempty.
    - rewrite compress_video_shape. apply task_shape_absent.
      + apply keeps_compress_video.
      + intros w0. apply compress_video_returns.
      + by rewrite Hempty. }
  unfold returns_keeping in Hrun.
  destruct (run_task env c w) as [[r|e] w']; simpl; [|done].
  destruct Hrun as [Ht Hm]. split; congruence.
Qed.

Lemma perform_keeps_untouched env op w :
  tasks_tasks w = ∅ →
  map_Forall (λ _ t, untouched_job t) (main_tasks w) →
  tasks_tasks (perform env op w) = ∅
  ∧ map_Forall (λ _ t, untouched_job t) (main_tasks (perform env op w)).
Proof.
  intros Hempty Hjobs. destruct op; simpl.
  - destruct (upload_image_tables env uuid4 file quality adaptive_mode w)
      as [Ht [Hm|(t & Hfresh & Hm)]]; rewrite Ht, Hm; split; try done.
    by apply map_Forall_insert_2.
  - destruct (upload_audio_tables env uuid4 file bitrate w)
      as [Ht [Hm|(t & Hfresh & Hm)]]; rewrite Ht, Hm; split; try done.
    by apply map_Forall_insert_2.
  - destruct (upload_video_tables env uuid4 file quality adaptive_mode w)
      as [Ht [Hm|(t & Hfresh & Hm)]]; rewrite Ht, Hm; split; try done.
    by apply map_Forall_insert_2.
  - destruct (status_query_and_download_agree_world task_id w) as [-> _]. done.
  - destruct (status_query_and_download_agree_world task_id w) as [_ ->]. done.
  - destruct (run_task_absent env c w Hempty) as [-> ->]. done.
Qed.

Lemma perform_all_keeps_untouched env ops w :
  tasks_tasks w = ∅ →
  map_Forall (λ _ t, untouched_job t) (main_tasks w) →
  tasks_tasks (perform_all env ops w) = ∅
  ∧ map_Forall (λ _ t, untouched_job t) (main_tasks (perform_all env ops w)).
Proof.
  unfold perform_all. revert w.
  induction ops as [|op ops IH]; intros w Hempty Hjobs; simpl; [done|].
  destruct (perform_keeps_untouched env op w Hempty Hjobs) as [Hempty' Hjobs'].
  by apply IH.
Qed.

(** X6: the job table of [tasks.py] is only ever updated under keys it
    already has, and no code adds a key to it; the handlers write to the
    table of [main.py] alone.  So from a state in which the table of
    [tasks.py] is empty and the jobs of [main.py] are as the upload
    handlers create them, after any sequence of uploads, status queries,
    downloads and task runs (with any arguments and outcomes) the table of
    [tasks.py] is still empty, every job is still processing with progress
    0 and without result or error, the status query reports every known
    job as processing without a download URL, and every download is
    refused with 404 "Task not found" or 400 "Task not completed". *)
Theorem submitted_jobs_stay_processing env ops w task_id :
  tasks_tasks w = ∅ →
  map_Forall (λ _ t, untouched_job t) (main_tasks w) →
  tasks_tasks (perform_all env ops w) = ∅
  ∧ map_Forall (λ _ t, untouched_job t) (main_tasks (perform_all env ops w))
  ∧ match (main.get_task_status task_id (perform_all env ops w)).1 with
    | Ok answer =>
        main.status_status answer = "processing"
        ∧ main.status_progress answer = 0
        ∧ main.status_compressed_size answer = None
        ∧ main.status_compression_ratio answer = None
        ∧ main.status_download_url answer = None
        ∧ main.status_error answer = None
    | Raise e => e = HTTPException 404 "Task not found"
    end
  ∧ ((main.download_compressed_file task_id (perform_all env ops w)).1
     = Raise (HTTPException 404 "Task not found")
     ∨ (main.download_compressed_file task_id (perform_all env ops w)).1
       = Raise (HTTPException 400 "Task not completed")).
Proof.
  intros Hempty Hjobs.
  destruct (perform_all_keeps_untouched env ops w Hempty Hjobs) as [Hempty' Hjobs'].
  split; [done|]. split; [done|].
  unfold main.get_task_status, main.download_compressed_file, main.contains,
    main.getitem, mbind, mret, Py_bind, Py_ret, bind, ret, raise.
  destruct (main_tasks (perform_all env ops w) !! task_id) as [t|] eqn:Ht; simpl;
    [|by split; [|left]].
  rewrite Ht. simpl.
  destruct (Hjobs' task_id t Ht) as (Hs & Hp & _ & Hsize & Hratio & Herr).
  rewrite Hs. simpl. split; [done | by right].
Qed.

(** X6 at a concrete input: an image is uploaded to an empty backend, its
    task runs, and the job is queried and asked for. *)
Lemma submitted_jobs_stay_processing_witness :
  tasks_tasks (perform_all fallback_env session empty_world) = ∅
  ∧ map_Forall (λ _ t, untouched_job t)
      (main_tasks (perform_all fallback_env session empty_world))
  ∧ match (main.get_task_status "job" (perform_all fallback_env session empty_world)).1 with
    | Ok answer =>
        main.status_status answer = "processing"
        ∧ main.status_progress answer = 0
        ∧ main.status_compressed_size answer = None
        ∧ main.status_compression_ratio answer = None
        ∧ main.status_download_url answer = None
        ∧ main.status_error answer = None
    | Raise e => e = HTTPException 404 "Task not found"
    end
  ∧ ((main.download_compressed_file "job"
        (perform_all fallback_env session empty_world)).1
     = Raise (HTTPException 404 "Task not found")
     ∨ (main.download_compressed_file "job"
          (perform_all fallback_env session empty_world)).1
       = Raise (HTTPException 400 "Task not completed")).
Proof.
  apply (submitted_jobs_stay_processing fallback_env session empty_world "job").
  - reflexivity.
  - apply map_Forall_empty.
Defined.

(** The session does what its steps say: the upload is stored, the task
    compresses it to outputs/compressed_job_a.png and reports success, and
    the status query still answers "processing". *)
Example session_run :
  (run_task fallback_env (CallImage "job" "uploads/job_a.png" 80 true)
     (perform fallback_env (UploadImage "job" png_upload 80 true) empty_world)).1
  = Ok (tasks.ReturnSuccess "job" 50 ((1 - 50 / 3) * 100)%Q)
  ∧ length <$> files (perform_all fallback_env session empty_world)
               !! "outputs/compressed_job_a.png" = Some 50%nat
  ∧ main.status_status
      <$> match (main.get_task_status "job"
                   (perform_all fallback_env session empty_world)).1 with
          | Ok answer => Some answer
          | Raise _ => None
          end
    = Some "processing".
Proof. repeat split; vm_compute; reflexivity. Qed.

(** ** Further properties: the record a task leaves *)

Lemma wp_mkdir_cases env p Q w :
  (∀ e, mkdir_error env p = Some e → Q (Raise e) w) →
  (mkdir_error env p = None → Q (Ok tt) w) →
  wp (os.mkdir env p) Q w.
Proof.
  intros HR HQ. unfold wp, os.mkdir. destruct (mkdir_error env p); simpl; auto.
Qed.

Lemma task_shape_record env task_id output_path engine w t :
  keeps engine →
  (∀ w0, ∃ r w', engine w0 = (Ok r, w')) →
  tasks_tasks w !! task_id = Some t →
  ∃ r w' t',
    task_shape env task_id output_path engine w = (Ok r, w')
    ∧ return_id r = task_id
    ∧ tasks_tasks w' = <[task_id := t']> (tasks_tasks w)
    ∧ record_after env output_path t t' r.
Proof.
  intros Hkeeps Hreturns Hpresent.
  assert (tasks_tasks w = <[task_id := t]> (tasks_tasks w)) as Hhas
    by (by rewrite insert_id).
  set (rest := tasks_tasks w) in Hhas at 2.
  assert (wp (task_shape env task_id output_path engine)
             (λ o w', match o with
                      | Ok r =>
                          return_id r = task_id
                          ∧ ∃ t', tasks_tasks w' = <[task_id := t']> rest
                                  ∧ record_after env output_path t t' r
                      | Raise _ => False
                      end) w) as Hwp.
  { unfold task_shape. apply wp_try. repeat wp_has_step.
    apply wp_mkdir_cases; cbv beta iota.
    - intros e He. repeat wp_has_step. split; [done|].
      eexists. split; [exact Hhas|].
      unfold record_after, same_submission. rewrite He. simpl. done.
    - intros He. repeat wp_has_step.
      eapply wp_engine_has; [done | done | exact Hhas |].
      clear Hhas. intros [original size ratio analysis|message] w' Hhas; cbv beta iota.
      + repeat wp_has_step. split; [done|].
        eexists. split; [exact Hhas|].
        unfold record_after, same_submission. simpl. repeat split; by eexists.
      + repeat wp_has_step. split; [done|].
        eexists. split; [exact Hhas|].
        unfold record_after, same_submission. rewrite He. simpl. done. }
  unfold wp in Hwp.
  destruct (task_shape env task_id output_path engine w) as [[r|e] w']; simpl in *;
    [|done].
  destruct Hwp as (Hid & t' & Htable & Hrecord). by exists r, w', t'.
Qed.

(** X7: a worker task run on a job that is in its table returns, names the
    job in what it returns, and leaves exactly that record changed.  When
    it reports success the record is Completed with progress 100, the
    output path as artifact reference and the size and ratio it reports;
    when it reports failure the record is Failed with the reported error as
    message, progress at its last checkpoint (10 when the output directory
    could not be created, otherwise 30) and result fields as before.  The
    fields of the submission are untouched in both cases, and
    [completed_at] is never set. *)
Theorem task_leaves_checkpointed_record env c w t :
  tasks_tasks w !! call_id c = Some t →
  ∃ r w' t',
    run_task env c w = (Ok r, w')
    ∧ return_id r = call_id c
    ∧ tasks_tasks w' = <[call_id c := t']> (tasks_tasks w)
    ∧ record_after env (call_output c) t t' r.
Proof.
  intros Hpresent. destruct c; simpl in *.
  - rewrite compress_image_shape. apply task_shape_record; [| |done].
    + apply keeps_compress_image.
    + intros w0. apply compress_image_returns.
  - rewrite compress_audio_shape. apply task_shape_record; [| |done].
    + apply keeps_compress_audio.
    + intros w0. apply compress_audio_returns.
  - rewrite compress_video_shape. apply task_shape_record; [| |done].
    + apply keeps_compress_video.
    + intros w0. apply compress_video_returns.
Qed.

(** X7 at a concrete input: the audio task on the stored audio job. *)
Lemma task_leaves_checkpointed_record_witness :
  ∃ r w' t',
    run_task fallback_env (CallAudio "job" "uploads/a.wav" 6.0%Q) (audio_world fallback_env)
    = (Ok r, w')
    ∧ return_id r = "job"
    ∧ tasks_tasks w' = <["job" := t']> (tasks_tasks (audio_world fallback_env))
    ∧ record_after fallback_env
        (call_output (CallAudio "job" "uploads/a.wav" 6.0%Q))
        (audio_job fallback_env "job" "uploads/a.wav") t' r.
Proof.
  apply (task_leaves_checkpointed_record fallback_env
           (CallAudio "job" "uploads/a.wav" 6.0%Q) (audio_world fallback_env)
           (audio_job fallback_env "job" "uploads/a.wav")).
  reflexivity.
Defined.

(** ** Further properties: the output path of a task *)

Lemma has_char_app c a b : has_char c (a ++ b) = has_char c a || has_char c b.
Proof.
  induction a as [|d a IH]; simpl; [done|]. rewrite IH. by rewrite orb_assoc.
Qed.

Lemma split_no_sep sep s : has_char sep s = false → pystr.split sep s = [s].
Proof.
  induction s as [|c s IH]; simpl; [done|].
  intros [Hc Hs]%orb_false_iff. rewrite (IH Hs), Hc. done.
Qed.

Lemma split_not_nil sep s : pystr.split sep s ≠ [].
Proof.
  destruct s as [|c s]; simpl; [done|].
  destruct (pystr.split sep s); [done|]. by destruct (Ascii.eqb c sep).
Qed.

Lemma split_app_sep sep a b :
  has_char sep a = false →
  pystr.split sep (a ++ String sep b) = a :: pystr.split sep b.
Proof.
  induction a as [|c a IH]; simpl.
  - intros _. pose proof (split_not_nil sep b) as Hb.
    destruct (pystr.split sep b); [done|]. by rewrite Ascii.eqb_refl.
  - intros [Hc Ha]%orb_false_iff. rewrite (IH Ha), Hc. done.
Qed.

Lemma split_parts_no_sep sep s x :
  x ∈ pystr.split sep s → has_char sep x = false.
Proof.
  revert x. induction s as [|c s IH]; simpl; intros x Hx.
  - apply list_elem_of_singleton in Hx as ->. done.
  - destruct (pystr.split sep s) as [|hd tl] eqn:Hsplit.
    + apply list_elem_of_singleton in Hx as ->. simpl.
      by destruct (split_not_nil sep s).
    + destruct (Ascii.eqb c sep) eqn:Hc.
      * apply elem_of_cons in Hx as [->|Hx]; [done|]. by apply IH.
      * apply elem_of_cons in Hx as [->|Hx].
        -- simpl. rewrite Hc. simpl. apply IH. apply list_elem_of_here.
        -- apply IH. by apply list_elem_of_further.
Qed.

Lemma last_default_or_elem {A} (l : list A) (d : A) :
  List.last l d = d ∨ List.last l d ∈ l.
Proof.
  induction l as [|x l IH]; [by left|].
  destruct l as [|y l]; [right; apply list_elem_of_here|].
  change (List.last (x :: y :: l) d) with (List.last (y :: l) d).
  destruct IH as [Hd|Hin]; [by left | right; by apply list_elem_of_further].
Qed.

Lemma name_has_no_slash p : has_char "/" (pathlib.name p) = false.
Proof.
  unfold pathlib.name.
  destruct (last_default_or_elem (pathlib.parts p) "") as [->|Hin]; [done|].
  unfold pathlib.parts in Hin. apply list_elem_of_filter in Hin as [_ Hin].
  by apply split_parts_no_sep in Hin.
Qed.

Lemma substring_has_no_char c n m s :
  has_char c s = false → has_char c (String.substring n m s) = false.
Proof.
  revert n m. induction s as [|d s IH]; intros n m Hs.
  - by destruct n, m.
  - simpl in Hs. apply orb_false_iff in Hs as [Hd Hs].
    destruct n as [|n]; [destruct m as [|m]|]; simpl; [done | | by apply IH].
    rewrite Hd. by apply IH.
Qed.

Lemma stem_has_no_slash p : has_char "/" (pathlib.stem p) = false.
Proof.
  unfold pathlib.stem. pose proof (name_has_no_slash p) as Hname.
  destruct (pystr.rfind "." (pathlib.name p)) as [i|]; [|done].
  case_bool_decide; [|done]. by apply substring_has_no_char.
Qed.

Lemma call_output_name_has_no_slash c : has_char "/" (call_output_name c) = false.
Proof.
  destruct c; unfold call_output_name; rewrite !has_char_app;
    rewrite ?name_has_no_slash, ?stem_has_no_slash; done.
Qed.

Lemma outputs_child child :
  has_char "/" child = false → child ≠ "" → child ≠ "." →
  pathlib.joinpath "outputs" child = "outputs/" ++ child
  ∧ pathlib.parent (pathlib.joinpath "outputs" child) = "outputs"
  ∧ pathlib.name (pathlib.joinpath "outputs" child) = child.
Proof.
  intros Hslash Hempty Hdot.
  assert (pathlib.parts ("outputs/" ++ child) = ["outputs"; child]) as Hparts.
  { unfold pathlib.parts.
    change ("outputs/" ++ child) with ("outputs" ++ String "/" child).
    rewrite split_app_sep by done. rewrite (split_no_sep _ _ Hslash).
    rewrite filter_cons, decide_True by done.
    rewrite filter_cons, decide_True by done. done. }
  assert (pathlib.joinpath "outputs" child = "outputs/" ++ child) as Hjoin.
  { unfold pathlib.joinpath, pathlib.str.
    change ("outputs" ++ "/" ++ child) with ("outputs/" ++ child).
    rewrite Hparts. done. }
  rewrite Hjoin. unfold pathlib.parent, pathlib.name. rewrite Hparts. done.
Qed.

(** X8: whatever file path a task is given (absolute, nested, with [..]
    components or empty), the output path it builds is
    outputs/compressed_<name>, a direct child of the directory outputs:
    the file name contains no slash, the directory the task creates is
    outputs, and the name is the name of the input prefixed (for audio:
    the stem of the input, prefixed and with the suffix .mp3). *)
Theorem task_output_is_a_child_of_outputs c :
  call_output c = "outputs/" ++ call_output_name c
  ∧ has_char "/" (call_output_name c) = false
  ∧ pathlib.parent (call_output c) = "outputs"
  ∧ pathlib.name (call_output c) = call_output_name c.
Proof.
  pose proof (call_output_name_has_no_slash c) as Hslash.
  assert (call_output c = pathlib.joinpath "outputs" (call_output_name c)) as ->
    by (by destruct c).
  destruct (outputs_child (call_output_name c)) as (Hjoin & Hparent & Hname);
    [done | by destruct c | by destruct c |].
  done.
Qed.

(** ** Further properties: the engine *)

Ltac run_engine :=
  unfold compression_engine.compress_image, compression_engine.compress_audio,
    compression_engine.compress_video, try_except, os.read, os.getsize, call,
    mbind, mret, Py_bind, Py_ret, bind, ret, raise.

(** X9: a compression whose source file does not exist has no effect: the
    three methods return the failure "[Errno 2] No such file or directory: "
    followed by the name as [repr] writes it (in single quotes; in double
    quotes when the name has an apostrophe and no double quote; with
    escapes for the quote in use, the backslash and the characters that are
    not printable), and leave the world as it was: nothing is written and
    the encoder is not invoked. *)
Theorem missing_source_has_no_effect env input output quality adaptive bitrate w :
  files w !! input = None →
  compression_engine.compress_image env input output quality adaptive w
  = (Ok (compression_engine.Failure
           ("[Errno 2] No such file or directory: " ++ pystr.repr input)), w)
  ∧ compression_engine.compress_audio env input output bitrate w
    = (Ok (compression_engine.Failure
             ("[Errno 2] No such file or directory: " ++ pystr.repr input)), w)
  ∧ compression_engine.compress_video env input output quality adaptive w
    = (Ok (compression_engine.Failure
             ("[Errno 2] No such file or directory: " ++ pystr.repr input)), w).
Proof.
  intros Hmissing. run_engine. rewrite Hmissing. done.
Qed.

(** X9 at a concrete input: no file at all, and a name with an apostrophe,
    which the text shows in double quotes. *)
Lemma missing_source_has_no_effect_witness :
  compression_engine.compress_image fallback_env "uploads/it's.png" "outputs/a.png" 80 true
    empty_world
  = (Ok (compression_engine.Failure
           ("[Errno 2] No such file or directory: "
            ++ String "034" ("uploads/it's.png" ++ String "034" ""))),
     empty_world)
  ∧ compression_engine.compress_audio fallback_env "uploads/it's.png" "outputs/a.png" 6.0%Q
      empty_world
    = (Ok (compression_engine.Failure
             ("[Errno 2] No such file or directory: "
              ++ String "034" ("uploads/it's.png" ++ String "034" ""))),
       empty_world)
  ∧ compression_engine.compress_video fallback_env "uploads/it's.png" "outputs/a.png" 80 true
      empty_world
    = (Ok (compression_engine.Failure
             ("[Errno 2] No such file or directory: "
              ++ String "034" ("uploads/it's.png" ++ String "034" ""))),
       empty_world).
Proof.
  apply (missing_source_has_no_effect fallback_env "uploads/it's.png" "outputs/a.png"
           80 true 6.0%Q empty_world).
  reflexivity.
Defined.

(** X10: in image compression the detected regions are counted and nothing
    else: when the source decodes and the detector returns, the adaptive
    run writes the same file and returns the same sizes and ratio as the
    standard run (on the neural and on the classical path), and differs
    only in the analysis, which reports adaptive mode and as region count
    the number of faces plus the number of contours wider than 50 and
    higher than 20.  When the face detector or the contour finder raises,
    the adaptive run fails with that exception's text before anything is
    written, although the regions would not have been used. *)
Theorem adaptive_image_differs_in_region_count_only env input output quality w :
  match files w !! input with
  | None => True
  | Some source =>
      match Image_decode env source with
      | Raise _ => True
      | Ok image =>
          match detectMultiScale env (array_bgr env image) with
          | Raise e =>
              compression_engine.compress_image env input output quality true w
              = (Ok (compression_engine.Failure (str_exn e)), w)
          | Ok faces =>
              match findContours_Canny env (cvtColor_gray env (array_bgr env image)) with
              | Raise e =>
                  compression_engine.compress_image env input output quality true w
                  = (Ok (compression_engine.Failure (str_exn e)), w)
              | Ok contours =>
                  compression_engine.compress_image env input output quality true w
                  = with_regions
                      (Z.of_nat (length faces)
                       + Z.of_nat (length (filter (λ b, passes_size_filter b = true)
                                             (map (boundingRect env) contours))))
                      (compression_engine.compress_image env input output quality false w)
              end
          end
      end
  end.
Proof.
  destruct (files w !! input) as [source|] eqn:Hsource; [|done].
  destruct (Image_decode env source) as [image|e] eqn:Hdecode; [|done].
  pose proof (detect_important_regions_run env image w) as Hdetect.
  destruct (detectMultiScale env _) as [faces|e].
  2:{ run_engine. rewrite Hsource, Hdecode. simpl. rewrite Hsource. simpl.
      unfold mbind, Py_bind, bind in *. rewrite Hdetect. done. }
  destruct (findContours_Canny env _) as [contours|e].
  2:{ run_engine. rewrite Hsource, Hdecode. simpl. rewrite Hsource. simpl.
      unfold mbind, Py_bind, bind in *. rewrite Hdetect. done. }
  run_engine. rewrite Hsource, Hdecode. simpl. rewrite Hsource. simpl.
  unfold mbind, Py_bind, bind in *. rewrite Hdetect. simpl.
  assert (Z.of_nat (length (detected_regions faces (map (boundingRect env) contours)))
          = Z.of_nat (length faces)
            + Z.of_nat (length (filter (λ b, passes_size_filter b = true)
                                  (map (boundingRect env) contours)))) as Hcount.
  { unfold detected_regions. rewrite length_app, !length_map. lia. }
  unfold compression_engine._compress_with_compressai,
    compression_engine._compress_adaptive_jpeg,
    compression_engine._compress_standard_jpeg, call, mret, Py_ret, ret, raise.
  destruct (bool_decide (is_Some (image_model env)) && COMPRESSAI_AVAILABLE env).
  - destruct (image_model env) as [model|]; [|done].
    destruct (model image) as [compressed|e]; [|done].
    destruct (compression_engine.Image_save env compressed output quality w)
      as [[[]|e] w1]; [|done].
    destruct (files w1 !! output); [|done].
    unfold truediv. case_decide; simpl; [done|]. by rewrite Hcount.
  - destruct (compression_engine.Image_save env image output quality w)
      as [[[]|e] w1]; [|done].
    destruct (files w1 !! output); [|done].
    unfold truediv. case_decide; simpl; [done|]. by rewrite Hcount.
Qed.

(** X11: in video compression the detected regions are counted and
    nothing else: when the source exists and the analysis returns, the
    adaptive run invokes the encoder with the same arguments, writes the
    same file and returns the same sizes and ratio as the standard run, and
    differs only in the analysis, which reports adaptive mode and the
    number of face regions found in the sampled frames.  When the face
    detector raises on a sampled frame, the adaptive run fails with that
    exception's text before the encoder is invoked. *)
Theorem adaptive_video_differs_in_region_count_only env input output quality w :
  match files w !! input with
  | None => True
  | Some source =>
      match sampled_faces env (sampled_frames (VideoCapture env (Some source))) 0 with
      | Raise e =>
          compression_engine.compress_video env input output quality true w
          = (Ok (compression_engine.Failure (str_exn e)), w)
      | Ok regions =>
          compression_engine.compress_video env input output quality true w
          = with_regions (Z.of_nat (length regions))
              (compression_engine.compress_video env input output quality false w)
      end
  end.
Proof.
  destruct (files w !! input) as [source|] eqn:Hsource; [|done].
  pose proof (analyze_video_regions_run env input w) as Hanalyze.
  rewrite Hsource in Hanalyze.
  destruct (sampled_faces env _ 0) as [regions|e].
  - run_engine. rewrite Hsource. simpl.
    unfold mbind, Py_bind, bind in *. rewrite Hanalyze.
    unfold compression_engine._compress_video_adaptive,
      compression_engine._compress_video_standard,
      call, mbind, mret, Py_bind, Py_ret, bind, ret.
    destruct (pyfloat.of_int quality) as [quality_float|e]; [|done].
    destruct (compression_engine.ffmpeg_run env input output _ w) as [[[]|e] w1];
      [|done].
    destruct (files w1 !! output); [|done].
    unfold truediv. case_decide; simpl; done.
  - run_engine. rewrite Hsource. simpl.
    unfold mbind, Py_bind, bind in *. rewrite Hanalyze. done.
Qed.

Lemma wp_read_data p (Q : outcome (list Byte.byte) → World → Prop) w :
  (∀ e, Q (Raise e) w) →
  (∀ data, files w !! p = Some data → Q (Ok data) w) →
  wp (os.read p) Q w.
Proof.
  intros HR HQ. unfold wp, os.read.
  destruct (files w !! p) eqn:Hp; simpl; [by apply HQ | done].
Qed.

Lemma wp_getsize_data p (Q : outcome Z → World → Prop) w :
  (∀ e, Q (Raise e) w) →
  (∀ data, files w !! p = Some data → Q (Ok (Z.of_nat (length data))) w) →
  wp (os.getsize p) Q w.
Proof.
  intros HR HQ. unfold wp, os.getsize.
  destruct (files w !! p) eqn:Hp; simpl; [by apply HQ | done].
Qed.

(** The last three statements of a [compress_*] body, for an original size
    that was measured on [input]. *)
Lemma wp_sizes_tail input artifact w0 source analysis w :
  files w0 !! input = Some source →
  wp (os.getsize artifact
      ≫= λ compressed_size,
           truediv compressed_size (Z.of_nat (length source))
           ≫= λ q, mret (compression_engine.Success (Z.of_nat (length source))
                           compressed_size ((1 - q) * 100)%Q analysis))
     (λ o w', match o with
              | Ok r => sizes_measured input artifact w0 (Ok r, w')
              | Raise _ => True
              end) w.
Proof.
  intros Hsource. apply wp_bind, wp_getsize_data; [done|].
  intros data Hdata. cbv beta iota.
  apply wp_bind. unfold truediv. case_decide; [done|].
  apply wp_ret. apply wp_ret. simpl. by rewrite Hsource, Hdata.
Qed.

Ltac wp_sizes_post input artifact w0 :=
  apply (wp_mono _ (λ o w', match o with
                            | Ok r => sizes_measured input artifact w0 (Ok r, w')
                            | Raise _ => True
                            end));
  [intros [?|?] ?; [done | intros _; exact I] |].

Lemma compress_image_sizes env input output quality adaptive w :
  wp (compression_engine.compress_image env input output quality adaptive)
     (λ o w', sizes_measured input output w (o, w')) w.
Proof.
  unfold compression_engine.compress_image. apply wp_try.
  wp_sizes_post input output w.
  apply wp_bind, wp_read_data; [done|]. intros source Hsource. cbv beta iota.
  apply wp_bind, wp_call. destruct (Image_decode env source) as [image|e]; [|done].
  apply wp_bind, wp_getsize_data; [done|]. intros source' Hsource'. cbv beta iota.
  wp_skip. destruct a as [compressed_image important_regions].
  wp_skip. by apply wp_sizes_tail.
Qed.

Lemma compress_video_sizes env input output quality adaptive w :
  wp (compression_engine.compress_video env input output quality adaptive)
     (λ o w', sizes_measured input output w (o, w')) w.
Proof.
  unfold compression_engine.compress_video. apply wp_try.
  wp_sizes_post input output w.
  apply wp_bind, wp_getsize_data; [done|]. intros source Hsource. cbv beta iota.
  wp_skip. by apply wp_sizes_tail.
Qed.

Lemma compress_audio_sizes env input output bitrate w :
  wp (compression_engine.compress_audio env input output bitrate)
     (λ o w', sizes_measured input (audio_artifact env input output) w (o, w')) w.
Proof.
  unfold compression_engine.compress_audio, audio_artifact. apply wp_try.
  destruct (bool_decide (is_Some (audio_model env)) && ENCODEC_AVAILABLE env).
  - wp_sizes_post input output w.
    apply wp_bind, wp_getsize_data; [done|]. intros source Hsource. cbv beta iota.
    apply wp_bind, wp_bind_any; [done|]. intros data w1. apply wp_ret. cbv beta iota.
    apply wp_bind, wp_bind_any; [done|]. intros [] w2.
    apply wp_getsize_data; [done|]. intros written Hwritten. cbv beta iota.
    apply wp_bind. unfold truediv. case_decide; [done|].
    apply wp_ret. apply wp_ret. simpl. by rewrite Hsource, Hwritten.
  - wp_sizes_post input (pystr.replace input ".wav" "_compressed.mp3") w.
    apply wp_bind, wp_getsize_data; [done|]. intros source Hsource. cbv beta iota.
    unfold compression_engine._compress_with_ffmpeg.
    apply wp_bind, wp_bind, wp_bind_any; [done|]. intros bits w0. cbv beta.
    apply wp_bind_any; [done|]. intros [] w1. apply wp_ret.
    cbv beta iota. apply wp_ret. cbv beta iota.
    apply wp_bind, wp_getsize_data; [done|]. intros written Hwritten. cbv beta iota.
    apply wp_bind. unfold truediv. case_decide; [done|].
    apply wp_ret. apply wp_ret. simpl. by rewrite Hsource, Hwritten.
Qed.

(** X13: the sizes in a successful result are sizes of files: the original
    size is the size the source had when the method was called, and the
    compressed size is the size, when the method returns, of the file at
    the output path (image, video, neural audio) or, on the classical
    audio path, of the file at the input path with [.wav] replaced. *)
Theorem result_sizes_are_file_sizes env input output quality adaptive bitrate w :
  sizes_measured input output w
    (compression_engine.compress_image env input output quality adaptive w)
  ∧ sizes_measured input output w
      (compression_engine.compress_video env input output quality adaptive w)
  ∧ sizes_measured input (audio_artifact env input output) w
      (compression_engine.compress_audio env input output bitrate w).
Proof.
  pose proof (compress_image_sizes env input output quality adaptive w) as Himage.
  pose proof (compress_video_sizes env input output quality adaptive w) as Hvideo.
  pose proof (compress_audio_sizes env input output bitrate w) as Haudio.
  unfold wp in *.
  destruct (compression_engine.compress_image env input output quality adaptive w).
  destruct (compression_engine.compress_video env input output quality adaptive w).
  destruct (compression_engine.compress_audio env input output bitrate w).
  done.
Qed.

(** X14: the analysis of an audio compression tells the path that was
    taken.  For an engine built by [CompressionEngine()], a successful
    result reports the requested bitrate, and neural_compression is true
    exactly when Encodec was imported and its model loaded, and exactly
    then the external encoder was not invoked; when it is false the
    encoder was invoked once, for mp3, with the bit rate
    [int(bitrate * 1000)] of the double arithmetic. *)
Theorem engine_reports_the_audio_path_it_took
    env load_image load_audio input output bitrate w :
  match compression_engine.compress_audio
          (compression_engine.CompressionEngine env load_image load_audio)
          input output bitrate w with
  | (Ok (compression_engine.Success _ _ _ analysis), w') =>
      ∃ neural,
        analysis = models.AudioAnalysis neural bitrate
        ∧ (neural = true
           ↔ ENCODEC_AVAILABLE env = true ∧ ∃ model, load_audio = Ok model)
        ∧ if neural then ffmpeg_runs w' = ffmpeg_runs w
          else ∃ bits,
              audio_bits bitrate = Ok bits
              ∧ ffmpeg_runs w' = (ffmpeg_runs w ++ [audio_run input bits])%list
  | (Ok (compression_engine.Failure _), _) => True
  | (Raise _, _) => False
  end.
Proof.
  unfold audio_bits. run_engine. simpl.
  destruct (files w !! input) as [source|] eqn:Hsource; simpl; [|done].
  destruct (ENCODEC_AVAILABLE env) eqn:Havailable;
    [destruct load_audio as [model|e]|]; simpl.
  - unfold compression_engine._compress_with_encodec, os.read, os.write, os.getsize,
      call, mbind, mret, Py_bind, Py_ret, bind, ret, raise. simpl.
    rewrite Hsource, Havailable. simpl.
    destruct (librosa_load env source) as [audio|e]; simpl; [|done].
    destruct (model audio) as [decoded|e]; simpl; [|done].
    destruct (open_wb_error env output); simpl; [done|].
    rewrite lookup_insert_eq. simpl.
    unfold truediv. case_decide; simpl; [done|].
    exists true. split; [done|]. split; [|done]. split; [eauto | done].
  - unfold compression_engine._compress_with_ffmpeg, compression_engine.ffmpeg_run,
      os.getsize, call, mbind, mret, Py_bind, Py_ret, bind, ret. simpl.
    destruct (pyfloat.to_int _) as [bits|e']; simpl; [|done].
    rewrite Hsource. fold (audio_run input bits).
    destruct (ffmpeg env _ _) as [data|e']; simpl; [|done].
    rewrite lookup_insert_eq. simpl.
    unfold truediv. case_decide; simpl; [done|].
    exists false. split; [done|]. split; [|by exists bits].
    split; [done | by intros [_ [? ?]]].
  - unfold compression_engine._compress_with_ffmpeg, compression_engine.ffmpeg_run,
      os.getsize, call, mbind, mret, Py_bind, Py_ret, bind, ret. simpl.
    destruct (pyfloat.to_int _) as [bits|e']; simpl; [|done].
    rewrite Hsource. fold (audio_run input bits).
    destruct (ffmpeg env _ _) as [data|e']; simpl; [|done].
    rewrite lookup_insert_eq. simpl.
    unfold truediv. case_decide; simpl; [done|].
    exists false. split; [done|]. split; [|by exists bits].
    split; [done | by intros [? _]].
Qed.

(** ** Further properties: the path the classical audio encoder writes *)

Lemma replace_absent s old new : occurs old s = false → pystr.replace s old new = s.
Proof.
  unfold pystr.replace. induction s as [|c s IH]; [done|].
  intros Habsent. cbn [occurs] in Habsent.
  apply orb_false_iff in Habsent as [Hprefix Habsent].
  cbn [pystr.replace_from]. rewrite Hprefix. by rewrite IH.
Qed.

Lemma replace_wav_suffix base :
  has_char "." base = false →
  pystr.replace (base ++ ".wav") ".wav" "_compressed.mp3" = base ++ "_compressed.mp3".
Proof.
  unfold pystr.replace. induction base as [|c base IH]; [done|].
  intros Hdot. simpl in Hdot. apply orb_false_iff in Hdot as [Hc Hdot].
  change (String c base ++ ".wav") with (String c (base ++ ".wav")).
  cbn [pystr.replace_from].
  replace (String.prefix ".wav" (String c (base ++ ".wav"))) with false.
  - rewrite IH by done. done.
  - cbn [String.prefix]. destruct (ascii_dec "." c) as [<-|Hne]; done.
Qed.

(** X15: on the classical audio path an input path in which ".wav" does
    not occur (an mp3 or flac upload, or an upper-case .WAV) is also the
    path the encoder is told to write: the one invocation the method makes
    has the input path as its input and as its output.  When the encoder
    refuses and exits non-zero, the method returns the failure with the
    text of the encoder's exception. *)
Theorem classical_audio_encoder_is_told_to_write_its_input
    env input output bitrate w source bits :
  occurs ".wav" input = false →
  files w !! input = Some source →
  bool_decide (is_Some (audio_model env)) && ENCODEC_AVAILABLE env = false →
  audio_bits bitrate = Ok bits →
  run_input (audio_run input bits) = input
  ∧ run_output (audio_run input bits) = input
  ∧ ffmpeg_runs (compression_engine.compress_audio env input output bitrate w).2
    = (ffmpeg_runs w ++ [audio_run input bits])%list
  ∧ ∀ e, ffmpeg env (Some source) (audio_run input bits) = Raise e →
         (compression_engine.compress_audio env input output bitrate w).1
         = Ok (compression_engine.Failure (str_exn e)).
Proof.
  intros Habsent Hsource Hclassical Hbits.
  assert (run_output (audio_run input bits) = input) as Hout
    by (by apply replace_absent).
  split; [done|]. split; [done|].
  unfold audio_bits in Hbits.
  run_engine. rewrite Hsource, Hclassical. simpl.
  unfold compression_engine._compress_with_ffmpeg, compression_engine.ffmpeg_run,
    call, mbind, mret, Py_bind, Py_ret, bind, ret.
  rewrite Hbits, Hsource. fold (audio_run input bits).
  simpl in Hout. rewrite Hout.
  destruct (ffmpeg env _ _) as [data|e]; simpl.
  - rewrite lookup_insert_eq. unfold truediv. split; [|done].
    case_decide; simpl; done.
  - split; [by destruct (ffmpeg_partial env _ _)|].
    by intros e' [= <-].
Qed.

(** X15 at a concrete input: a flac upload and an encoder that refuses to
    write its own input. *)
Lemma classical_audio_encoder_is_told_to_write_its_input_witness :
  run_input (audio_run "uploads/a.flac" 6000) = "uploads/a.flac"
  ∧ run_output (audio_run "uploads/a.flac" 6000) = "uploads/a.flac"
  ∧ ffmpeg_runs (compression_engine.compress_audio failing_env
                   "uploads/a.flac" "outputs/compressed_a.mp3" 6.0%Q
                   (world_with_file "uploads/a.flac" 100)).2
    = (ffmpeg_runs (world_with_file "uploads/a.flac" 100)
       ++ [audio_run "uploads/a.flac" 6000])%list
  ∧ ∀ e, ffmpeg failing_env (Some (zeros 100)) (audio_run "uploads/a.flac" 6000) = Raise e →
         (compression_engine.compress_audio failing_env
            "uploads/a.flac" "outputs/compressed_a.mp3" 6.0%Q
            (world_with_file "uploads/a.flac" 100)).1
         = Ok (compression_engine.Failure (str_exn e)).
Proof.
  apply (classical_audio_encoder_is_told_to_write_its_input failing_env
           "uploads/a.flac" "outputs/compressed_a.mp3" 6.0%Q
           (world_with_file "uploads/a.flac" 100) (zeros 100) 6000);
    vm_compute; reflexivity.
Defined.

(** X16: on the classical audio path an input path <base>.wav whose base
    has no dot makes the encoder write <base>_compressed.mp3, next to the
    source, and the [output_path] argument plays no part: after a zero
    exit that file holds the encoder's output; after a non-zero exit it
    holds what the encoder left there (an empty or partial file), or the
    files are as before when the encoder stopped before it opened its
    output.  The source is kept in every case. *)
Theorem classical_audio_writes_next_to_a_wav_source
    env base output bitrate w source bits :
  has_char "." base = false →
  files w !! (base ++ ".wav") = Some source →
  bool_decide (is_Some (audio_model env)) && ENCODEC_AVAILABLE env = false →
  audio_bits bitrate = Ok bits →
  run_output (audio_run (base ++ ".wav") bits) = base ++ "_compressed.mp3"
  ∧ files (compression_engine.compress_audio env (base ++ ".wav") output bitrate w).2
    = match ffmpeg env (Some source) (audio_run (base ++ ".wav") bits) with
      | Ok data => <[base ++ "_compressed.mp3" := data]> (files w)
      | Raise _ =>
          match ffmpeg_partial env (Some source) (audio_run (base ++ ".wav") bits) with
          | Some data => <[base ++ "_compressed.mp3" := data]> (files w)
          | None => files w
          end
      end
  ∧ files (compression_engine.compress_audio env (base ++ ".wav") output bitrate w).2
      !! (base ++ ".wav") = Some source.
Proof.
  intros Hdot Hsource Hclassical Hbits.
  assert (run_output (audio_run (base ++ ".wav") bits) = base ++ "_compressed.mp3")
    as Hout by (by apply replace_wav_suffix).
  split; [done|].
  assert (base ++ "_compressed.mp3" ≠ base ++ ".wav") as Hne.
  { clear. induction base as [|c base IH]; simpl; [done|]. by intros [= Heq]. }
  unfold audio_bits in Hbits.
  run_engine. rewrite Hsource, Hclassical. simpl.
  unfold compression_engine._compress_with_ffmpeg, compression_engine.ffmpeg_run,
    call, mbind, mret, Py_bind, Py_ret, bind, ret.
  rewrite Hbits, Hsource. fold (audio_run (base ++ ".wav") bits).
  simpl in Hout. rewrite Hout.
  destruct (ffmpeg env _ _) as [data|e]; simpl.
  - rewrite lookup_insert_eq. unfold truediv.
    case_decide; simpl; (split; [done|]); by rewrite lookup_insert_ne.
  - destruct (ffmpeg_partial env _ _); simpl; (split; [done|]);
      [by rewrite lookup_insert_ne | done].
Qed.

(** X16 at a concrete input. *)
Lemma classical_audio_writes_next_to_a_wav_source_witness :
  run_output (audio_run ("uploads/a" ++ ".wav") 6000) = "uploads/a" ++ "_compressed.mp3"
  ∧ files (compression_engine.compress_audio fallback_env ("uploads/a" ++ ".wav")
             "outputs/compressed_a.mp3" 6.0%Q (world_with_file "uploads/a.wav" 100)).2
    = match ffmpeg fallback_env (Some (zeros 100))
              (audio_run ("uploads/a" ++ ".wav") 6000) with
      | Ok data =>
          <["uploads/a" ++ "_compressed.mp3" := data]>
            (files (world_with_file "uploads/a.wav" 100))
      | Raise _ =>
          match ffmpeg_partial fallback_env (Some (zeros 100))
                  (audio_run ("uploads/a" ++ ".wav") 6000) with
          | Some data =>
              <["uploads/a" ++ "_compressed.mp3" := data]>
                (files (world_with_file "uploads/a.wav" 100))
          | None => files (world_with_file "uploads/a.wav" 100)
          end
      end
  ∧ files (compression_engine.compress_audio fallback_env ("uploads/a" ++ ".wav")
             "outputs/compressed_a.mp3" 6.0%Q (world_with_file "uploads/a.wav" 100)).2
      !! ("uploads/a" ++ ".wav") = Some (zeros 100).
Proof.
  apply (classical_audio_writes_next_to_a_wav_source fallback_env "uploads/a"
           "outputs/compressed_a.mp3" 6.0%Q (world_with_file "uploads/a.wav" 100)
           (zeros 100) 6000);
    vm_compute; reflexivity.
Defined.

(** ** Further properties: the files a task writes *)

Lemma only_writes_call {A} target (o : outcome A) : only_writes target (call o).
Proof. done. Qed.

Lemma only_writes_read target p : only_writes target (os.read p).
Proof. intros w q _. unfold os.read. by destruct (files w !! p). Qed.

Lemma only_writes_write env target data : only_writes target (os.write env target data).
Proof.
  intros w q Hq. unfold os.write. destruct (open_wb_error env target); simpl; [done|].
  by rewrite lookup_insert_ne.
Qed.

Lemma only_writes_detect env target image :
  only_writes target (compression_engine._detect_important_regions env image).
Proof. intros w q _. by rewrite detect_important_regions_run. Qed.

Lemma only_writes_analyze env target video_path :
  only_writes target (compression_engine._analyze_video_regions env video_path).
Proof. intros w q _. by rewrite analyze_video_regions_run. Qed.

#[local] Hint Resolve only_writes_call only_writes_read only_writes_write
  only_writes_detect only_writes_analyze : only_writes.

Ltac only_writes_engine_step :=
  match goal with
  | |- only_writes _ (_ ≫= _) => apply only_writes_bind; [| intros]
  | |- only_writes _ (try_except _ _) => apply only_writes_try; [| intros]
  | |- only_writes _ (if ?c then _ else _) => destruct c
  | |- only_writes _ (match ?x with _ => _ end) => destruct x
  | |- only_writes _ _ => solve [eauto with only_writes]
  end.

Lemma compress_image_only_writes env input output quality adaptive :
  only_writes output (compression_engine.compress_image env input output quality adaptive).
Proof.
  unfold compression_engine.compress_image, compression_engine.Image_save,
    compression_engine._compress_with_compressai,
    compression_engine._compress_adaptive_jpeg,
    compression_engine._compress_standard_jpeg.
  repeat only_writes_engine_step.
Qed.

Lemma compress_video_only_writes env input output quality adaptive :
  only_writes output (compression_engine.compress_video env input output quality adaptive).
Proof.
  unfold compression_engine.compress_video,
    compression_engine._compress_video_adaptive,
    compression_engine._compress_video_standard.
  repeat only_writes_engine_step.
Qed.

Lemma compress_audio_only_writes env input output bitrate :
  only_writes (audio_artifact env input output)
    (compression_engine.compress_audio env input output bitrate).
Proof.
  unfold audio_artifact.
  destruct (bool_decide (is_Some (audio_model env)) && ENCODEC_AVAILABLE env) eqn:Hpath.
  - unfold compression_engine.compress_audio. rewrite Hpath.
    unfold compression_engine._compress_with_encodec.
    apply only_writes_try; [|intros; apply only_writes_ret].
    apply only_writes_bind; [apply only_writes_getsize|]. intros original_size.
    intros w p Hp. unfold mbind, mret, Py_bind, Py_ret, bind, ret, os.read, call, raise.
    destruct (files w !! input); simpl; [|done].
    destruct (librosa_load env _); simpl; [|done].
    destruct (audio_model env) as [model|]; simpl; [|done].
    destruct (model _); simpl; [|done].
    unfold os.write, os.getsize. destruct (open_wb_error env output); simpl; [done|].
    rewrite lookup_insert_eq. simpl.
    unfold truediv. case_decide; simpl; by rewrite lookup_insert_ne.
  - by apply engine_fallback_only_writes.
Qed.

Lemma task_shape_only_writes env task_id output_path engine target :
  only_writes target engine →
  only_writes target (task_shape env task_id output_path engine).
Proof. intros Hengine. unfold task_shape. repeat only_writes_step. Qed.

(** X17: a worker task creates or changes at most one file: every path
    other than the output path (image, video, neural audio) or, on the
    classical audio path, the input path with [.wav] replaced, holds after
    the task what it held before.  An upload is therefore never modified
    by an image or video task, whose output path lies in outputs. *)
Theorem task_writes_at_most_one_file env c w p :
  p ≠ written_path env c →
  files (run_task env c w).2 !! p = files w !! p.
Proof.
  revert w p. change (only_writes (written_path env c) (run_task env c)).
  destruct c; simpl.
  - rewrite compress_image_shape.
    apply task_shape_only_writes, compress_image_only_writes.
  - rewrite compress_audio_shape.
    apply task_shape_only_writes, compress_audio_only_writes.
  - rewrite compress_video_shape.
    apply task_shape_only_writes, compress_video_only_writes.
Qed.

(** X17 at a concrete input: the image task leaves the upload alone. *)
Lemma task_writes_at_most_one_file_witness :
  files (run_task fallback_env (CallImage "job" "uploads/a.png" 80 true)
           (world_with_file "uploads/a.png" 100)).2 !! "uploads/a.png"
  = files (world_with_file "uploads/a.png" 100) !! "uploads/a.png".
Proof.
  apply (task_writes_at_most_one_file fallback_env
           (CallImage "job" "uploads/a.png" 80 true)
           (world_with_file "uploads/a.png" 100) "uploads/a.png").
  vm_compute. discriminate.
Defined.

(** ** Further properties: a task on a source that cannot be read *)

Lemma task_shape_engine_failure env task_id output_path engine message w :
  mkdir_error env (pathlib.parent output_path) = None →
  (∀ w0, files w0 = files w → ffmpeg_runs w0 = ffmpeg_runs w →
         engine w0 = (Ok (compression_engine.Failure message), w0)) →
  failed_at_checkpoint_30 task_id message w
    (task_shape env task_id output_path engine w).
Proof.
  intros Hmkdir Hengine.
  unfold failed_at_checkpoint_30, task_shape, try_except, tasks.contains, tasks.setattr,
    when, os.mkdir, mbind, mret, Py_bind, Py_ret, bind, ret, raise.
  rewrite Hmkdir.
  destruct (tasks_tasks w !! task_id) as [t|] eqn:Ht; simpl.
  - repeat (first [rewrite Ht | rewrite lookup_insert_eq]; simpl).
    rewrite Hengine by done. simpl.
    repeat (rewrite lookup_insert_eq; simpl).
    eexists. split; [reflexivity|]. simpl. repeat split.
    rewrite lookup_insert_eq. eexists. split; [reflexivity|]. done.
  - rewrite Ht. simpl. rewrite Hengine by done. simpl. rewrite Ht. simpl.
    eexists. split; [reflexivity|]. done.
Qed.

Lemma missing_source_lemma env input output quality adaptive bitrate w :
  files w !! input = None →
  compression_engine.compress_image env input output quality adaptive w
  = (Ok (compression_engine.Failure
           ("[Errno 2] No such file or directory: " ++ pystr.repr input)), w)
  ∧ compression_engine.compress_audio env input output bitrate w
    = (Ok (compression_engine.Failure
             ("[Errno 2] No such file or directory: " ++ pystr.repr input)), w)
  ∧ compression_engine.compress_video env input output quality adaptive w
    = (Ok (compression_engine.Failure
             ("[Errno 2] No such file or directory: " ++ pystr.repr input)), w).
Proof.
  intros Hmissing. run_engine. rewrite Hmissing. done.
Qed.

Lemma call_output_parent c : pathlib.parent (call_output c) = "outputs".
Proof.
  pose proof (call_output_name_has_no_slash c) as Hslash.
  assert (call_output c = pathlib.joinpath "outputs" (call_output_name c)) as ->
    by (by destruct c).
  destruct (outputs_child (call_output_name c)) as (_ & Hparent & _);
    [done | by destruct c | by destruct c |].
  done.
Qed.

(** X18: a task whose source file does not exist (the output directory
    being creatable) returns the failure "[Errno 2] No such file or
    directory: " followed by [repr(file_path)], touches no file and does
    not invoke the encoder; a job it finds in its table ends Failed with
    that message and with progress 30, the last checkpoint, and without the
    job the table is unchanged. *)
Theorem task_on_missing_source_fails_at_30 env c w :
  mkdir_error env "outputs" = None →
  files w !! call_source c = None →
  failed_at_checkpoint_30 (call_id c)
    ("[Errno 2] No such file or directory: " ++ pystr.repr (call_source c)) w
    (run_task env c w).
Proof.
  intros Hmkdir Hmissing.
  pose proof (call_output_parent c) as Hparent.
  destruct c; simpl in *.
  - rewrite compress_image_shape. apply task_shape_engine_failure.
    + by rewrite Hparent.
    + intros w0 Hfiles _.
      apply (missing_source_lemma env file_path _ quality adaptive_mode 0%Q w0).
      by rewrite Hfiles.
  - rewrite compress_audio_shape. apply task_shape_engine_failure.
    + by rewrite Hparent.
    + intros w0 Hfiles _.
      apply (missing_source_lemma env file_path _ 0 false bitrate w0).
      by rewrite Hfiles.
  - rewrite compress_video_shape. apply task_shape_engine_failure.
    + by rewrite Hparent.
    + intros w0 Hfiles _.
      apply (missing_source_lemma env file_path _ quality adaptive_mode 0%Q w0).
      by rewrite Hfiles.
Qed.

(** X18 at a concrete input: the audio task on the stored job after the
    upload was removed. *)
Lemma task_on_missing_source_fails_at_30_witness :
  failed_at_checkpoint_30 "job"
    "[Errno 2] No such file or directory: 'uploads/a.wav'"
    (with_files ∅ (audio_world fallback_env))
    (run_task fallback_env (CallAudio "job" "uploads/a.wav" 6.0%Q)
       (with_files ∅ (audio_world fallback_env))).
Proof.
  apply (task_on_missing_source_fails_at_30 fallback_env
           (CallAudio "job" "uploads/a.wav" 6.0%Q)
           (with_files ∅ (audio_world fallback_env)));
    reflexivity.
Defined.

(** X19: an image task whose source exists but is rejected by the image
    decoder (the output directory being creatable) returns the decoder's
    error text as failure, writes no file, and leaves a job it finds in
    its table Failed with that text and with progress 30. *)
Theorem image_task_on_undecodable_source_fails_at_30
    env task_id file_path quality adaptive w source e :
  mkdir_error env "outputs" = None →
  files w !! file_path = Some source →
  Image_decode env source = Raise e →
  failed_at_checkpoint_30 task_id (str_exn e) w
    (tasks.compress_image env task_id file_path quality adaptive w).
Proof.
  intros Hmkdir Hsource Hdecode.
  pose proof (call_output_parent (CallImage task_id file_path quality adaptive))
    as Hparent.
  simpl in Hparent.
  rewrite compress_image_shape. apply task_shape_engine_failure.
  - by rewrite Hparent.
  - intros w0 Hfiles _. run_engine. rewrite Hfiles, Hsource, Hdecode. done.
Qed.

(** X19 at a concrete input: an image task on a file the decoder rejects. *)
Lemma image_task_on_undecodable_source_fails_at_30_witness :
  failed_at_checkpoint_30 "job" (str_exn (LibraryError "cannot identify image file"))
    (world_with_file "uploads/a.png" 100)
    (tasks.compress_image corrupt_env "job" "uploads/a.png" 80 true
       (world_with_file "uploads/a.png" 100)).
Proof.
  apply (image_task_on_undecodable_source_fails_at_30 corrupt_env "job" "uploads/a.png"
           80 true (world_with_file "uploads/a.png" 100) (zeros 100)
           (LibraryError "cannot identify image file"));
    reflexivity.
Defined.

(** ** Further properties: video analysis without frames *)

(** X20: video analysis does not report a video it cannot read: when the
    capture is not opened (a missing or unreadable file) or yields no
    frame, the analysis returns the empty list of regions without an
    error and without calling the face detector, and leaves the world as
    it was. *)
Theorem video_analysis_of_unreadable_video_is_empty env video_path w :
  isOpened (VideoCapture env (files w !! video_path)) = false
  ∨ frames (VideoCapture env (files w !! video_path)) = [] →
  compression_engine._analyze_video_regions env video_path w = (Ok [], w).
Proof.
  intros Hcap. rewrite analyze_video_regions_run. unfold sampled_frames.
  destruct Hcap as [-> | ->]; [done|].
  by destruct (isOpened _).
Qed.

(** X20 at a concrete input: a video file that does not exist. *)
Lemma video_analysis_of_unreadable_video_is_empty_witness :
  compression_engine._analyze_video_regions fallback_env "uploads/v.mp4" empty_world
  = (Ok [], empty_world).
Proof.
  apply (video_analysis_of_unreadable_video_is_empty fallback_env "uploads/v.mp4"
           empty_world).
  left. reflexivity.
Defined.

(** ** Further properties: numbers the double arithmetic cannot hold *)

Lemma round_is_a_number x : pyfloat.round x ≠ pyfloat.NaN.
Proof.
  unfold pyfloat.round. destruct (Qnum x =? 0); [done|].
  cbv zeta. by destruct (_ || _).
Qed.

Lemma of_int_raises quality e :
  pyfloat.of_int quality = Raise e →
  e = OverflowError "int too large to convert to float".
Proof.
  unfold pyfloat.of_int. destruct (pyfloat.round _); [done | | done]. by intros [= <-].
Qed.

Lemma audio_bits_raises bitrate e :
  audio_bits bitrate = Raise e →
  e = OverflowError "cannot convert float infinity to integer".
Proof.
  unfold audio_bits, pyfloat.mul, pyfloat.to_int.
  pose proof (round_is_a_number (bitrate * 1000)) as Hnumber.
  destruct (pyfloat.round _); [done | by intros [= <-] | done].
Qed.

(** X21: a number the double arithmetic cannot hold stops the compression
    before the encoder runs.  When [float(quality)] overflows (a quality
    beyond the range of the doubles), video compression of an existing
    source returns the failure "int too large to convert to float", on the
    adaptive path after the analysis returned; when [bitrate * 1000] is
    infinite, classical audio compression returns the failure "cannot
    convert float infinity to integer".  In both cases the encoder is not
    invoked and the world is as it was. *)
Theorem unconvertible_number_fails_before_the_encoder
    env input output quality adaptive bitrate w source :
  files w !! input = Some source →
  (∀ e, pyfloat.of_int quality = Raise e →
        match video_regions env adaptive source with
        | Raise detector =>
            compression_engine.compress_video env input output quality adaptive w
            = (Ok (compression_engine.Failure (str_exn detector)), w)
        | Ok _ =>
            compression_engine.compress_video env input output quality adaptive w
            = (Ok (compression_engine.Failure "int too large to convert to float"), w)
        end)
  ∧ (∀ e, audio_bits bitrate = Raise e →
          neural_audio_model env = None →
          compression_engine.compress_audio env input output bitrate w
          = (Ok (compression_engine.Failure "cannot convert float infinity to integer"),
             w)).
Proof.
  intros Hsource. split.
  - intros e Hquality. pose proof (of_int_raises _ _ Hquality) as ->.
    unfold video_regions. run_engine. rewrite Hsource. simpl.
    unfold compression_engine._compress_video_adaptive,
      compression_engine._compress_video_standard,
      call, mbind, mret, Py_bind, Py_ret, bind, ret.
    destruct adaptive.
    + rewrite analyze_video_regions_run, Hsource.
      destruct (sampled_faces env _ 0) as [regions|detector]; [|done].
      by rewrite Hquality.
    + by rewrite Hquality.
  - intros e Hbits Hclassical. pose proof (audio_bits_raises _ _ Hbits) as ->.
    assert (bool_decide (is_Some (audio_model env)) && ENCODEC_AVAILABLE env = false)
      as Hpath.
    { unfold neural_audio_model in Hclassical.
      destruct (ENCODEC_AVAILABLE env); [|by rewrite andb_false_r].
      rewrite Hclassical. done. }
    unfold audio_bits in Hbits.
    run_engine. rewrite Hsource, Hpath. simpl.
    unfold compression_engine._compress_with_ffmpeg,
      call, mbind, mret, Py_bind, Py_ret, bind, ret.
    by rewrite Hbits.
Qed.

(** X21 at a concrete input: the quality 10^400 and the bit rate 2^1023. *)
Lemma unconvertible_number_fails_before_the_encoder_witness :
  compression_engine.compress_video fallback_env
    "uploads/v.mp4" "outputs/compressed_v.mp4" (10 ^ 400) true
    (world_with_file "uploads/v.mp4" 100)
  = (Ok (compression_engine.Failure "int too large to convert to float"),
     world_with_file "uploads/v.mp4" 100)
  ∧ compression_engine.compress_audio fallback_env
      "uploads/v.mp4" "outputs/compressed_v.mp4" (inject_Z (2 ^ 1023))
      (world_with_file "uploads/v.mp4" 100)
    = (Ok (compression_engine.Failure "cannot convert float infinity to integer"),
       world_with_file "uploads/v.mp4" 100).
Proof.
  destruct (unconvertible_number_fails_before_the_encoder fallback_env
              "uploads/v.mp4" "outputs/compressed_v.mp4" (10 ^ 400) true
              (inject_Z (2 ^ 1023)) (world_with_file "uploads/v.mp4" 100) (zeros 100))
    as [Hvideo Haudio]; [reflexivity|].
  split.
  - apply (Hvideo (OverflowError "int too large to convert to float")).
    vm_compute. reflexivity.
  - apply (Haudio (OverflowError "cannot convert float infinity to integer")).
    + vm_compute. reflexivity.
    + reflexivity.
Defined.
